(** * hotel-point-app: the booking point-cost and reservation engine

    A shallow embedding of the Go services and repositories that price a
    stay, check that a room is free, and couple a booking's status with the
    user's point ledger:

    - [internal/repositories]: booking, user, hotel and date repositories
      (MongoDB collections, modelled as lists of documents in insertion
      order);
    - [internal/services/booking_service.go]: [CalculatePointCost],
      [CreateBooking], [CancelBooking], [UpdateBookingStatus] and the
      private availability helpers;
    - [internal/services/date_service.go]: [SetSpecialDate].

    Conventions of the embedding.
    - [time.Time] is an instant in nanoseconds since the Unix epoch, in UTC
      (every date of the program comes from [time.Parse("2006-01-02", _)] or
      from the store, both UTC; [time.Now()] is only compared with them).
    - Go's [int] is a 64-bit integer: a [Z] with the wrap-around of [+] and
      unary [-] written out.
    - A request is served at one instant [now]; fresh [primitive.ObjectID]s
      come from a counter kept beside the collections.
    - The store is reliable: the only failures of a write are the ones
      MongoDB itself raises on the data (a duplicate [_id], an [$inc] that
      leaves the 64-bit range).  Instants are stored as they are given; the
      ones the program compares (00:00, 12:00 and 14:00 of a day) are whole
      milliseconds, the unit of a stored date. *)

From Stdlib Require Import String Ascii ZArith NArith List Bool Lia Permutation.
Import ListNotations.
Local Open Scope string_scope.
Local Open Scope list_scope.
Local Open Scope Z_scope.

Set Implicit Arguments.

(* ===================================================================== *)
(** ** Go values: int, time.Time, primitive.ObjectID, error *)
(* ===================================================================== *)

(** *** int *)

Definition min_int : Z := Eval compute in - 2 ^ 63.
Definition max_int : Z := Eval compute in 2 ^ 63 - 1.

Definition in_int (z : Z) : Prop := min_int <= z <= max_int.
Definition in_intb (z : Z) : bool := (min_int <=? z) && (z <=? max_int).

(** Two's complement wrap-around of a 64-bit signed integer. *)
Definition wrap (z : Z) : Z := (z + 2 ^ 63) mod 2 ^ 64 - 2 ^ 63.

Definition int_add (a b : Z) : Z := wrap (a + b).
Definition int_neg (a : Z) : Z := wrap (- a).

(** *** time.Time and time.Duration *)

Definition Time := Z.
Definition Duration := Z.

Definition Hour : Duration := Eval compute in 3600 * 10 ^ 9.
Definition nsPerDay : Z := Eval compute in 24 * Hour.

(** The number of the calendar day (UTC) an instant falls on; day 0 is
    1970-01-01.  [t.Year(), t.Month(), t.Day()] determine it and are
    determined by it. *)
Definition dayOf (t : Time) : Z := t / nsPerDay.

(** [time.Date(t.Year(), t.Month(), t.Day(), h, 0, 0, 0, t.Location())] *)
Definition atHour (t : Time) (h : Z) : Time := dayOf t * nsPerDay + h * Hour.

(** [time.Date(t.Year(), t.Month(), t.Day(), 0, 0, 0, 0, t.Location())] *)
Definition startOfDay (t : Time) : Time := atHour t 0.

(** [time.Date(t.Year(), t.Month(), t.Day(), 23, 59, 59, 999999999, t.Location())] *)
Definition endOfDay (t : Time) : Time := dayOf t * nsPerDay + (nsPerDay - 1).

Definition Before (t u : Time) : bool := t <? u.
Definition After (t u : Time) : bool := u <? t.

(** [t.AddDate(0, 0, days)]: the program never adds years or months. *)
Definition AddDate (t : Time) (days : Z) : Time := t + days * nsPerDay.

(** [time.Weekday]: Sunday = 0, ..., Saturday = 6. 1970-01-01 was a Thursday. *)
Definition Sunday : Z := 0.
Definition Saturday : Z := 6.
Definition Weekday (t : Time) : Z := (dayOf t + 4) mod 7.

(** [t.Sub(u)]: the difference, saturated to the range of a Duration. *)
Definition Sub (t u : Time) : Duration :=
  if t - u <? min_int then min_int
  else if max_int <? t - u then max_int
  else t - u.

(** [time.Until(t)] at instant [now]. *)
Definition Until (now t : Time) : Duration := Sub t now.

(** The zero [time.Time]: January 1, year 1, 00:00:00 UTC. *)
Definition zeroTime : Time := Eval compute in - 62135596800 * 10 ^ 9.
Definition Time_IsZero (t : Time) : bool := t =? zeroTime.

(** [isSameDay] of booking_service.go. *)
Definition isSameDay (t1 t2 : Time) : bool := dayOf t1 =? dayOf t2.

(** *** primitive.ObjectID *)

(** Twelve bytes, read as a number; only equality, [IsZero] and [Hex] are
    used. *)
Definition ObjectID := N.

Definition IsZero (id : ObjectID) : bool := N.eqb id 0.

Definition hexDigit (n : N) : ascii :=
  match String.get (N.to_nat n) "0123456789abcdef" with
  | Some c => c
  | None => "0"%char
  end.

Fixpoint hexDigits (k : nat) (n : N) (acc : string) : string :=
  match k with
  | O => acc
  | S k' => hexDigits k' (N.div n 16) (String (hexDigit (N.modulo n 16)) acc)
  end.

(** [id.Hex()]: 24 lower-case hexadecimal digits. *)
Definition Hex (id : ObjectID) : string := hexDigits 24 id "".

(** *** error *)

Inductive error : Type :=
| New (msg : string)          (* errors.New(msg) *)
| DuplicateKey                (* InsertOne: the _id is already in the collection *)
| IncOverflow.                (* $inc: the sum leaves the 64-bit range *)

Inductive result (A : Type) : Type :=
| Ok (a : A)
| Err (e : error).
Arguments Ok {A} a.
Arguments Err {A} e.

(* ===================================================================== *)
(** ** internal/models *)
(* ===================================================================== *)

Definition RoleUser : string := "user".
Definition RoleAdmin : string := "admin".

Module User.
Record t : Type := mk {
  ID : ObjectID;
  Name : string;
  Email : string;
  Password : string;
  PointBalance : Z;
  Role : string;
  CreatedAt : Time;
  UpdatedAt : Time
}.
End User.

Module PointTransaction.
Record t : Type := mk {
  ID : ObjectID;
  UserID : ObjectID;
  Amount : Z;
  Type_ : string;
  Reference : string;
  CreatedAt : Time
}.
End PointTransaction.

Module Hotel.
Record t : Type := mk {
  ID : ObjectID;
  Name : string;
  Description : string;
  Address : string;
  City : string;
  Image : string;
  CreatedAt : Time;
  UpdatedAt : Time
}.
End Hotel.

Module Room.
Record t : Type := mk {
  ID : ObjectID;
  HotelID : ObjectID;
  Name : string;
  Description : string;
  Capacity : Z;
  Image : string
}.
End Room.

Module RoomAvailability.
Record t : Type := mk {
  ID : ObjectID;
  RoomID : ObjectID;
  Date : Time;
  Available : bool;
  UserIDs : list ObjectID
}.
End RoomAvailability.

Module DateRule.
Record t : Type := mk {
  ID : ObjectID;
  Date : Time;
  Type_ : string;
  PointCost : Z;
  Name : string
}.
End DateRule.

Module Booking.
Record t : Type := mk {
  ID : ObjectID;
  UserID : ObjectID;
  HotelID : ObjectID;
  RoomID : ObjectID;
  CheckIn : Time;
  CheckOut : Time;
  PointCost : Z;
  Status : string;
  CreatedAt : Time
}.

Definition with_Status (s : string) (b : t) : t :=
  mk (ID b) (UserID b) (HotelID b) (RoomID b) (CheckIn b) (CheckOut b)
     (PointCost b) s (CreatedAt b).
End Booking.

(* ===================================================================== *)
(** ** The store and the monad of the services *)
(* ===================================================================== *)

(** The collections of the database, each in insertion order, and the
    counter [primitive.NewObjectID] draws from. *)
Record World : Type := mkWorld {
  users : list User.t;
  hotels : list Hotel.t;
  rooms : list Room.t;
  bookings : list Booking.t;
  point_transactions : list PointTransaction.t;
  date_rules : list DateRule.t;
  room_availability : list RoomAvailability.t;
  next_oid : ObjectID
}.

Definition set_users (l : list User.t) (w : World) : World :=
  mkWorld l (hotels w) (rooms w) (bookings w) (point_transactions w)
          (date_rules w) (room_availability w) (next_oid w).

Definition set_bookings (l : list Booking.t) (w : World) : World :=
  mkWorld (users w) (hotels w) (rooms w) l (point_transactions w)
          (date_rules w) (room_availability w) (next_oid w).

Definition set_point_transactions (l : list PointTransaction.t) (w : World) : World :=
  mkWorld (users w) (hotels w) (rooms w) (bookings w) l
          (date_rules w) (room_availability w) (next_oid w).

Definition set_date_rules (l : list DateRule.t) (w : World) : World :=
  mkWorld (users w) (hotels w) (rooms w) (bookings w) (point_transactions w)
          l (room_availability w) (next_oid w).

Definition set_room_availability (l : list RoomAvailability.t) (w : World)
  : World :=
  mkWorld (users w) (hotels w) (rooms w) (bookings w) (point_transactions w)
          (date_rules w) l (next_oid w).

Definition set_next_oid (n : ObjectID) (w : World) : World :=
  mkWorld (users w) (hotels w) (rooms w) (bookings w) (point_transactions w)
          (date_rules w) (room_availability w) n.

Definition set_hotels (l : list Hotel.t) (w : World) : World :=
  mkWorld (users w) l (rooms w) (bookings w) (point_transactions w)
          (date_rules w) (room_availability w) (next_oid w).

Definition set_rooms (l : list Room.t) (w : World) : World :=
  mkWorld (users w) (hotels w) l (bookings w) (point_transactions w)
          (date_rules w) (room_availability w) (next_oid w).

(** A call either returns a value or an error; what it wrote to the store
    before an error stays written (no transaction spans two writes). *)
Definition M (A : Type) : Type := World -> result A * World.

Definition ret {A} (a : A) : M A := fun w => (Ok a, w).
Definition fail {A} (e : error) : M A := fun w => (Err e, w).

Definition bind {A B} (m : M A) (k : A -> M B) : M B :=
  fun w =>
    match m w with
    | (Ok a, w') => k a w'
    | (Err e, w') => (Err e, w')
    end.

(** A call whose error is dropped by the caller ([if err := f(); err != nil
    { /* log and continue */ }]). *)
Definition ignore_error {A} (m : M A) : M unit :=
  fun w => (Ok tt, snd (m w)).

(** A read: the store is not changed. *)
Definition read {A} (f : World -> result A) : M A := fun w => (f w, w).

Declare Scope go_scope.
Delimit Scope go_scope with go.
Notation "x <- m ;; k" := (bind m (fun x => k))
  (at level 61, m at next level, right associativity) : go_scope.
Notation "m ;;; k" := (bind m (fun _ => k))
  (at level 61, right associativity) : go_scope.
Local Open Scope go_scope.

(** [primitive.NewObjectID()] *)
Definition NewObjectID : M ObjectID :=
  fun w => (Ok (next_oid w), set_next_oid (N.succ (next_oid w)) w).

(* ===================================================================== *)
(** ** MongoDB collection primitives *)
(* ===================================================================== *)

Section Collection.
Variable A : Type.
Variable id_of : A -> ObjectID.

(** FindOne: the first document matching the filter. *)
Definition find_one (p : A -> bool) (c : list A) : option A := find p c.

(** CountDocuments *)
Definition count_documents (p : A -> bool) (c : list A) : Z :=
  Z.of_nat (length (filter p c)).

(** InsertOne: [_id] is a unique key. *)
Definition insert_one (x : A) (c : list A) : result (list A) :=
  if existsb (fun y => N.eqb (id_of y) (id_of x)) c then Err DuplicateKey
  else Ok (c ++ [x]).

(** UpdateOne: the update is applied to the first matching document;
    no match is not an error. *)
Fixpoint update_one (p : A -> bool) (f : A -> result A) (c : list A)
  : result (list A) :=
  match c with
  | [] => Ok []
  | x :: c' =>
      if p x then
        match f x with
        | Ok x' => Ok (x' :: c')
        | Err e => Err e
        end
      else
        match update_one p f c' with
        | Ok c'' => Ok (x :: c'')
        | Err e => Err e
        end
  end.
End Collection.

(** DeleteOne: the first matching document is removed; no match is not an
    error. *)
Fixpoint delete_one {A : Type} (p : A -> bool) (c : list A) : list A :=
  match c with
  | [] => []
  | x :: c' => if p x then c' else x :: delete_one p c'
  end.

(** DeleteMany: every matching document is removed. *)
Definition delete_many {A : Type} (p : A -> bool) (c : list A) : list A :=
  filter (fun x => negb (p x)) c.

(** Sort of a cursor ([options.Find().SetSort(bson.M{key: 1})]): ascending
    in the key, documents with equal keys in insertion order. *)
Section Sort.
Variable A : Type.
Variable key : A -> Z.

Fixpoint insert_by (x : A) (l : list A) : list A :=
  match l with
  | [] => [x]
  | y :: l' => if key x <=? key y then x :: y :: l' else y :: insert_by x l'
  end.

Definition sort_by (l : list A) : list A := fold_right insert_by [] l.
End Sort.

Definition replace_error {A} (r : result A) (e : error) : result A :=
  match r with
  | Ok a => Ok a
  | Err _ => Err e
  end.

(** Runs [m]; when it fails, runs the compensation [h], drops what [h]
    returns, and fails with the error of [m]. *)
Definition on_error {A B} (m : M A) (h : M B) : M A :=
  fun w =>
    match m w with
    | (Ok a, w') => (Ok a, w')
    | (Err e, w') => (Err e, snd (h w'))
    end.

(** Lifts a write on one collection to the store. *)
Definition write {C} (get : World -> C) (set : C -> World -> World)
    (f : C -> result C) : M unit :=
  fun w =>
    match f (get w) with
    | Ok c => (Ok tt, set c w)
    | Err e => (Err e, w)
    end.

(* ===================================================================== *)
(** ** internal/repositories/user_repository.go *)
(* ===================================================================== *)

Module userRepository.

Definition FindByID (w : World) (id : ObjectID) : result User.t :=
  match find_one (fun u => N.eqb (User.ID u) id) (users w) with
  | Some u => Ok u
  | None => Err (New "user not found")
  end.

(** [$inc point_balance] by [points], [$set updated_at]. *)
Definition inc_point_balance (now : Time) (points : Z) (u : User.t)
  : result User.t :=
  let balance := User.PointBalance u + points in
  if in_intb balance then
    Ok (User.mk (User.ID u) (User.Name u) (User.Email u) (User.Password u)
                balance (User.Role u) (User.CreatedAt u) now)
  else Err IncOverflow.

Definition UpdatePointBalance (now : Time) (userID : ObjectID) (points : Z)
  : M unit :=
  write users set_users
    (update_one (fun u => N.eqb (User.ID u) userID)
                (inc_point_balance now points)).

Definition CreatePointTransaction (now : Time) (transaction : PointTransaction.t)
  : M unit :=
  let transaction :=
    PointTransaction.mk (PointTransaction.ID transaction)
      (PointTransaction.UserID transaction)
      (PointTransaction.Amount transaction)
      (PointTransaction.Type_ transaction)
      (PointTransaction.Reference transaction) now in
  write point_transactions set_point_transactions
    (insert_one PointTransaction.ID transaction).

End userRepository.

(* ===================================================================== *)
(** ** internal/repositories/hotel_repository.go *)
(* ===================================================================== *)

Module hotelRepository.

Definition FindByID (w : World) (id : ObjectID) : result Hotel.t :=
  match find_one (fun h => N.eqb (Hotel.ID h) id) (hotels w) with
  | Some h => Ok h
  | None => Err (New "hotel not found")
  end.

Definition FindRoomByID (w : World) (id : ObjectID) : result Room.t :=
  match find_one (fun r => N.eqb (Room.ID r) id) (rooms w) with
  | Some r => Ok r
  | None => Err (New "room not found")
  end.

Definition FindRoomAvailabilityByDate (w : World) (roomID : ObjectID)
    (date : Time) : option RoomAvailability.t :=
  let startOfDay := startOfDay date in
  let endOfDay := endOfDay date in
  find_one
    (fun a => N.eqb (RoomAvailability.RoomID a) roomID
              && (startOfDay <=? RoomAvailability.Date a)
              && (RoomAvailability.Date a <=? endOfDay))
    (room_availability w).

Definition FindRoomAvailabilityByDateRange (w : World) (roomID : ObjectID)
    (fromDate toDate : Time) : list RoomAvailability.t :=
  let startOfFromDate := startOfDay fromDate in
  let endOfToDate := endOfDay toDate in
  sort_by RoomAvailability.Date
    (filter
       (fun a => N.eqb (RoomAvailability.RoomID a) roomID
                 && (startOfFromDate <=? RoomAvailability.Date a)
                 && (RoomAvailability.Date a <=? endOfToDate))
       (room_availability w)).

Definition CreateRoomAvailability (availability : RoomAvailability.t) : M unit :=
  write room_availability set_room_availability
    (insert_one RoomAvailability.ID availability).

(** [$set] of available and user_ids on the document with the record's
    [_id]. *)
Definition UpdateRoomAvailability (availability : RoomAvailability.t) : M unit :=
  write room_availability set_room_availability
    (update_one
       (fun a => N.eqb (RoomAvailability.ID a) (RoomAvailability.ID availability))
       (fun a => Ok (RoomAvailability.mk (RoomAvailability.ID a)
                       (RoomAvailability.RoomID a) (RoomAvailability.Date a)
                       (RoomAvailability.Available availability)
                       (RoomAvailability.UserIDs availability)))).

Definition FindRoomsByHotelID (w : World) (hotelID : ObjectID) : list Room.t :=
  filter (fun r => N.eqb (Room.HotelID r) hotelID) (rooms w).

Definition Create (hotel : Hotel.t) : M unit :=
  write hotels set_hotels (insert_one Hotel.ID hotel).

(** [$set] of name, description, address, city, image and updated_at on
    the document with the hotel's [_id]. *)
Definition Update (hotel : Hotel.t) : M unit :=
  write hotels set_hotels
    (update_one (fun h => N.eqb (Hotel.ID h) (Hotel.ID hotel))
       (fun h => Ok (Hotel.mk (Hotel.ID h) (Hotel.Name hotel)
                       (Hotel.Description hotel) (Hotel.Address hotel)
                       (Hotel.City hotel) (Hotel.Image hotel)
                       (Hotel.CreatedAt h) (Hotel.UpdatedAt hotel)))).

Definition Delete (id : ObjectID) : M unit :=
  write hotels set_hotels
    (fun c => Ok (delete_one (fun h => N.eqb (Hotel.ID h) id) c)).

Definition CreateRoom (room : Room.t) : M unit :=
  write rooms set_rooms (insert_one Room.ID room).

(** [$set] of name, description, hotel_id, capacity and image on the
    document with the room's [_id]. *)
Definition UpdateRoom (room : Room.t) : M unit :=
  write rooms set_rooms
    (update_one (fun r => N.eqb (Room.ID r) (Room.ID room))
       (fun r => Ok (Room.mk (Room.ID r) (Room.HotelID room) (Room.Name room)
                       (Room.Description room) (Room.Capacity room)
                       (Room.Image room)))).

Definition DeleteRoom (id : ObjectID) : M unit :=
  write rooms set_rooms
    (fun c => Ok (delete_one (fun r => N.eqb (Room.ID r) id) c)).

Definition DeleteRoomAvailability (roomID : ObjectID) : M unit :=
  write room_availability set_room_availability
    (fun c => Ok (delete_many
                    (fun a => N.eqb (RoomAvailability.RoomID a) roomID) c)).

End hotelRepository.

(* ===================================================================== *)
(** ** internal/repositories/booking_repository.go *)
(* ===================================================================== *)

Module bookingRepository.

Definition valid_status (status : string) : bool :=
  negb (negb (status =? "pending")%string
        && negb (status =? "confirmed")%string
        && negb (status =? "completed")%string
        && negb (status =? "cancelled")%string).

(** The booking is passed by pointer: the defaults [Create] fills in are
    seen by the caller, so the booking as stored is returned. *)
Definition Create (now : Time) (booking : Booking.t) : M Booking.t :=
  let createdAt :=
    if Time_IsZero (Booking.CreatedAt booking) then now
    else Booking.CreatedAt booking in
  let status :=
    if (Booking.Status booking =? "")%string then "confirmed"
    else Booking.Status booking in
  id <- (if IsZero (Booking.ID booking) then NewObjectID
         else ret (Booking.ID booking)) ;;
  let booking :=
    Booking.mk id (Booking.UserID booking) (Booking.HotelID booking)
      (Booking.RoomID booking) (Booking.CheckIn booking)
      (Booking.CheckOut booking) (Booking.PointCost booking) status
      createdAt in
  write bookings set_bookings (insert_one Booking.ID booking) ;;;
  ret booking.

Definition FindByID (w : World) (id : ObjectID) : result Booking.t :=
  match find_one (fun b => N.eqb (Booking.ID b) id) (bookings w) with
  | Some b => Ok b
  | None => Err (New "booking not found")
  end.

Definition UpdateStatus (id : ObjectID) (status : string) : M unit :=
  if negb (valid_status status) then fail (New "invalid booking status")
  else
    write bookings set_bookings
      (update_one (fun b => N.eqb (Booking.ID b) id)
                  (fun b => Ok (Booking.with_Status status b))).

(** The filter shared by [CheckRoomAvailability] and
    [FindActiveByRoomIDAndDateRange]. *)
Definition overlaps (roomID : ObjectID) (checkIn checkOut : Time)
    (b : Booking.t) : bool :=
  N.eqb (Booking.RoomID b) roomID
  && negb (Booking.Status b =? "cancelled")%string
  && (Booking.CheckIn b <? checkOut)
  && (checkIn <? Booking.CheckOut b).

Definition FindActiveByRoomIDAndDateRange (w : World) (roomID : ObjectID)
    (checkIn checkOut : Time) : list Booking.t :=
  sort_by Booking.CheckIn
    (filter (overlaps roomID checkIn checkOut) (bookings w)).

Definition CheckRoomAvailability (w : World) (roomID : ObjectID)
    (checkIn checkOut : Time) : bool :=
  let count := count_documents (overlaps roomID checkIn checkOut) (bookings w) in
  count =? 0.

Definition Delete (id : ObjectID) : M unit :=
  write bookings set_bookings
    (fun c => Ok (delete_one (fun b => N.eqb (Booking.ID b) id) c)).

(** Sorted by created_at, newest first. *)
Definition FindByUserID (w : World) (userID : ObjectID) : list Booking.t :=
  sort_by (fun b => - Booking.CreatedAt b)
    (filter (fun b => N.eqb (Booking.UserID b) userID) (bookings w)).

Definition FindActiveByUserID (w : World) (now : Time) (userID : ObjectID)
  : list Booking.t :=
  sort_by Booking.CheckIn
    (filter
       (fun b => N.eqb (Booking.UserID b) userID
                 && negb ((Booking.Status b =? "cancelled")%string
                          || (Booking.Status b =? "completed")%string)
                 && (now <=? Booking.CheckOut b))
       (bookings w)).

(** The [$or] of [FindByDateRange] and [GetBookingsCount]. *)
Definition in_date_range (startDate endDate : Time) (b : Booking.t) : bool :=
  ((startDate <=? Booking.CheckIn b) && (Booking.CheckIn b <=? endDate))
  || ((startDate <=? Booking.CheckOut b) && (Booking.CheckOut b <=? endDate))
  || ((Booking.CheckIn b <=? startDate) && (endDate <=? Booking.CheckOut b)).

Definition FindByDateRange (w : World) (startDate endDate : Time)
  : list Booking.t :=
  sort_by Booking.CheckIn (filter (in_date_range startDate endDate) (bookings w)).

Definition GetBookingsCount (w : World) (startDate endDate : Time) : Z :=
  count_documents
    (fun b => negb (Booking.Status b =? "cancelled")%string
              && in_date_range startDate endDate b)
    (bookings w).

End bookingRepository.

(* ===================================================================== *)
(** ** internal/repositories/date_repository.go *)
(* ===================================================================== *)

Module dateRepository.

Definition FindDateRules (w : World) (startDate endDate : Time)
  : list DateRule.t :=
  let startOfStartDate := startOfDay startDate in
  let endOfEndDate := endOfDay endDate in
  sort_by DateRule.Date
    (filter
       (fun r => (startOfStartDate <=? DateRule.Date r)
                 && (DateRule.Date r <=? endOfEndDate))
       (date_rules w)).

Definition GetPointCostForDate (w : World) (date : Time) : Z :=
  let startOfDay := startOfDay date in
  let endOfDay := endOfDay date in
  match find_one
          (fun r => (startOfDay <=? DateRule.Date r)
                    && (DateRule.Date r <=? endOfDay))
          (date_rules w) with
  | Some rule => DateRule.PointCost rule
  | None =>
      if (Weekday date =? Saturday) || (Weekday date =? Sunday) then 2
      else 1
  end.

Definition CreateDateRule (rule : DateRule.t) : M unit :=
  write date_rules set_date_rules (insert_one DateRule.ID rule).

(** [$set] of type, point_cost and name on the document with the rule's
    [_id]; its date is left as it is. *)
Definition UpdateDateRule (rule : DateRule.t) : M unit :=
  write date_rules set_date_rules
    (update_one (fun r => N.eqb (DateRule.ID r) (DateRule.ID rule))
       (fun r => Ok (DateRule.mk (DateRule.ID r) (DateRule.Date r)
                                 (DateRule.Type_ rule)
                                 (DateRule.PointCost rule)
                                 (DateRule.Name rule)))).

Definition DeleteDateRule (id : ObjectID) : M unit :=
  write date_rules set_date_rules
    (fun c => Ok (delete_one (fun r => N.eqb (DateRule.ID r) id) c)).

End dateRepository.

(* ===================================================================== *)
(** ** internal/services/date_service.go *)
(* ===================================================================== *)

Module dateService.

Definition GetDateRules := dateRepository.FindDateRules.
Definition GetPointCostForDate := dateRepository.GetPointCostForDate.

Definition SetSpecialDate (rule : DateRule.t) : M unit :=
  if Time_IsZero (DateRule.Date rule)
     || (DateRule.Type_ rule =? "")%string
     || (DateRule.PointCost rule <=? 0)
     || (3 <? DateRule.PointCost rule)
  then fail (New "invalid date rule data")
  else
    let date := startOfDay (DateRule.Date rule) in
    id <- (if IsZero (DateRule.ID rule) then NewObjectID
           else ret (DateRule.ID rule)) ;;
    let start := date in
    let end_ := endOfDay start in
    existingRules <- read (fun w => Ok (dateRepository.FindDateRules w start end_)) ;;
    match existingRules with
    | existing :: _ =>
        dateRepository.UpdateDateRule
          (DateRule.mk (DateRule.ID existing) date (DateRule.Type_ rule)
                       (DateRule.PointCost rule) (DateRule.Name rule))
    | [] =>
        dateRepository.CreateDateRule
          (DateRule.mk id date (DateRule.Type_ rule)
                       (DateRule.PointCost rule) (DateRule.Name rule))
    end.

Definition DeleteSpecialDate (id : ObjectID) : M unit :=
  dateRepository.DeleteDateRule id.

End dateService.

(* ===================================================================== *)
(** ** internal/services/booking_service.go *)
(* ===================================================================== *)

Record DailyPointDetail : Type := mkDailyPointDetail {
  dpd_Date : Time;
  dpd_DayType : string;
  dpd_PointCost : Z;
  dpd_Name : string
}.

Module bookingService.

(** The loop [for d := startDate; d.Before(endDate); d = d.AddDate(0, 0, 1)]
    of [CalculatePointCost].  [fuel] bounds the number of iterations;
    [days_between] below is enough for the loop to leave by its test. *)
Fixpoint sumPointCost (fuel : nat) (w : World) (d endDate : Time)
    (totalPoints : Z) : Z :=
  match fuel with
  | O => totalPoints
  | S fuel' =>
      if Before d endDate then
        let pointCost := dateService.GetPointCostForDate w d in
        sumPointCost fuel' w (AddDate d 1) endDate (int_add totalPoints pointCost)
      else totalPoints
  end.

Definition days_between (startDate endDate : Time) : nat :=
  Z.to_nat ((endDate - startDate) / nsPerDay + 1).

Definition CalculatePointCost (w : World) (now : Time) (roomID : ObjectID)
    (checkIn checkOut : Time) : result Z :=
  let startDate := startOfDay checkIn in
  let endDate := startOfDay checkOut in
  if After startDate endDate then
    Err (New "check-in date cannot be after check-out date")
  else if Before startDate (AddDate now (-1)) then
    Err (New "check-in date cannot be in the past")
  else
    match hotelRepository.FindRoomByID w roomID with
    | Err e => Err e
    | Ok _ =>
        let available :=
          bookingRepository.CheckRoomAvailability w roomID startDate endDate in
        if negb available then
          Err (New "room is not available for the selected dates")
        else
          Ok (sumPointCost (days_between startDate endDate) w startDate endDate 0)
    end.

(** [specialDates]: the map from a rule's day ([Format("2006-01-02")]) to
    the rule, filled in the order of [dateRules]; a later rule of the same
    day replaces the earlier one. *)
Definition specialDates (dateRules : list DateRule.t) : list (Z * DateRule.t) :=
  fold_left (fun m rule => (dayOf (DateRule.Date rule), rule) :: m) dateRules [].

Definition lookupDate (m : list (Z * DateRule.t)) (dateKey : Z) : option DateRule.t :=
  match find (fun kv => fst kv =? dateKey) m with
  | Some kv => Some (snd kv)
  | None => None
  end.

Definition detailForDate (m : list (Z * DateRule.t)) (d : Time) : DailyPointDetail :=
  match lookupDate m (dayOf d) with
  | Some rule =>
      mkDailyPointDetail d (DateRule.Type_ rule) (DateRule.PointCost rule)
                         (DateRule.Name rule)
  | None =>
      if (Weekday d =? Saturday) || (Weekday d =? Sunday) then
        mkDailyPointDetail d "weekend" 2 ""
      else
        mkDailyPointDetail d "regular" 1 ""
  end.

Fixpoint sumPointCostWithDetails (fuel : nat) (m : list (Z * DateRule.t))
    (d endDate : Time) (totalPoints : Z) (dailyDetails : list DailyPointDetail)
  : Z * list DailyPointDetail :=
  match fuel with
  | O => (totalPoints, dailyDetails)
  | S fuel' =>
      if Before d endDate then
        let detail := detailForDate m d in
        sumPointCostWithDetails fuel' m (AddDate d 1) endDate
          (int_add totalPoints (dpd_PointCost detail))
          (dailyDetails ++ [detail])
      else (totalPoints, dailyDetails)
  end.

Definition CalculatePointCostWithDetails (w : World) (now : Time)
    (roomID : ObjectID) (checkIn checkOut : Time)
  : result (Z * list DailyPointDetail) :=
  let startDate := startOfDay checkIn in
  let endDate := startOfDay checkOut in
  if After startDate endDate then
    Err (New "check-in date cannot be after check-out date")
  else if Before startDate (AddDate now (-1)) then
    Err (New "check-in date cannot be in the past")
  else
    match hotelRepository.FindRoomByID w roomID with
    | Err e => Err e
    | Ok _ =>
        let available :=
          bookingRepository.CheckRoomAvailability w roomID startDate endDate in
        if negb available then
          Err (New "room is not available for the selected dates")
        else
          let dateRules := dateService.GetDateRules w startDate endDate in
          Ok (sumPointCostWithDetails (days_between startDate endDate)
                (specialDates dateRules) startDate endDate 0 [])
    end.

Definition CreateBooking (now : Time) (userID hotelID roomID : ObjectID)
    (checkIn checkOut : Time) : M Booking.t :=
  let startDate := atHour checkIn 14 in
  let endDate := atHour checkOut 12 in
  user <- read (fun w => replace_error (userRepository.FindByID w userID)
                                       (New "user not found")) ;;
  _ <- read (fun w => replace_error (hotelRepository.FindByID w hotelID)
                                    (New "hotel not found")) ;;
  room <- read (fun w => replace_error (hotelRepository.FindRoomByID w roomID)
                                       (New "room not found")) ;;
  if negb (N.eqb (Room.HotelID room) hotelID) then
    fail (New "room does not belong to the specified hotel")
  else
    pointCost <- read (fun w => CalculatePointCost w now roomID startDate endDate) ;;
    if User.PointBalance user <? pointCost then
      fail (New "insufficient point balance")
    else
      id <- NewObjectID ;;
      booking <- bookingRepository.Create now
                   (Booking.mk id userID hotelID roomID startDate endDate
                               pointCost "confirmed" now) ;;
      on_error
        (userRepository.UpdatePointBalance now userID (int_neg pointCost))
        (bookingRepository.UpdateStatus (Booking.ID booking) "cancelled") ;;;
      tid <- NewObjectID ;;
      ignore_error
        (userRepository.CreatePointTransaction now
           (PointTransaction.mk tid userID (int_neg pointCost)
              "booking_deduction" (Hex (Booking.ID booking)) now)) ;;;
      ret booking.

Definition CancelBooking (now : Time) (id userID : ObjectID) : M unit :=
  booking <- read (fun w => bookingRepository.FindByID w id) ;;
  (if negb (N.eqb (Booking.UserID booking) userID) then
     read (fun w =>
             match userRepository.FindByID w userID with
             | Ok user =>
                 if negb (User.Role user =? RoleAdmin)%string then
                   Err (New "unauthorized to cancel this booking")
                 else Ok tt
             | Err _ => Err (New "unauthorized to cancel this booking")
             end)
   else ret tt) ;;;
  if (Booking.Status booking =? "cancelled")%string then
    fail (New "booking already cancelled")
  else if (Booking.Status booking =? "completed")%string then
    fail (New "booking already completed")
  else if Until now (Booking.CheckIn booking) <? 24 * Hour then
    fail (New "cannot cancel booking within 24 hours of check-in")
  else
    bookingRepository.UpdateStatus id "cancelled" ;;;
    userRepository.UpdatePointBalance now (Booking.UserID booking)
      (Booking.PointCost booking) ;;;
    tid <- NewObjectID ;;
    ignore_error
      (userRepository.CreatePointTransaction now
         (PointTransaction.mk tid (Booking.UserID booking)
            (Booking.PointCost booking) "booking_refund"
            (Hex (Booking.ID booking)) now)) ;;;
    ret tt.

Definition UpdateBookingStatus (now : Time) (id : ObjectID) (status : string)
  : M unit :=
  if negb (status =? "pending")%string && negb (status =? "confirmed")%string
     && negb (status =? "completed")%string && negb (status =? "cancelled")%string
  then fail (New "invalid booking status")
  else
    booking <- read (fun w => bookingRepository.FindByID w id) ;;
    (if (Booking.Status booking =? "cancelled")%string
        && negb (status =? "cancelled")%string then
       user <- read (fun w => userRepository.FindByID w (Booking.UserID booking)) ;;
       if User.PointBalance user <? Booking.PointCost booking then
         fail (New "insufficient point balance to reactivate booking")
       else
         userRepository.UpdatePointBalance now (Booking.UserID booking)
           (int_neg (Booking.PointCost booking)) ;;;
         tid <- NewObjectID ;;
         ignore_error
           (userRepository.CreatePointTransaction now
              (PointTransaction.mk tid (Booking.UserID booking)
                 (int_neg (Booking.PointCost booking)) "booking_reactivation"
                 (Hex (Booking.ID booking)) now))
     else ret tt) ;;;
    (if negb (Booking.Status booking =? "cancelled")%string
        && (status =? "cancelled")%string then
       userRepository.UpdatePointBalance now (Booking.UserID booking)
         (Booking.PointCost booking) ;;;
       tid <- NewObjectID ;;
       ignore_error
         (userRepository.CreatePointTransaction now
            (PointTransaction.mk tid (Booking.UserID booking)
               (Booking.PointCost booking) "booking_refund"
               (Hex (Booking.ID booking)) now))
     else ret tt) ;;;
    bookingRepository.UpdateStatus id status.

(** The body of the loop over the days of [checkRoomAvailabilityForUser]:
    [None] is [continue], [Some b] is [return b, nil]. *)
Definition checkDay (availabilities : list RoomAvailability.t)
    (userID : ObjectID) (d : Time) : option bool :=
  match find (fun avail => isSameDay (RoomAvailability.Date avail) d)
             availabilities with
  | None => None
  | Some dayAvailability =>
      if negb (RoomAvailability.Available dayAvailability) then Some false
      else if 0 <? Z.of_nat (List.length (RoomAvailability.UserIDs dayAvailability)) then
        let allowed :=
          existsb (fun id => N.eqb id userID)
                  (RoomAvailability.UserIDs dayAvailability) in
        if negb allowed then Some false else None
      else None
  end.

Fixpoint checkDays (fuel : nat) (availabilities : list RoomAvailability.t)
    (userID : ObjectID) (d checkOut : Time) : bool :=
  match fuel with
  | O => true
  | S fuel' =>
      if Before d checkOut then
        match checkDay availabilities userID d with
        | Some b => b
        | None => checkDays fuel' availabilities userID (AddDate d 1) checkOut
        end
      else true
  end.

Definition checkRoomAvailabilityForUser (w : World) (roomID userID : ObjectID)
    (checkIn checkOut : Time) : bool :=
  let available :=
    bookingRepository.CheckRoomAvailability w roomID checkIn checkOut in
  if negb available then false
  else
    let availabilities :=
      hotelRepository.FindRoomAvailabilityByDateRange w roomID checkIn checkOut in
    if Z.of_nat (List.length availabilities) =? 0 then true
    else checkDays (days_between checkIn checkOut) availabilities userID
                   checkIn checkOut.

Definition GetBookingsCount := bookingRepository.GetBookingsCount.
Definition GetActiveBookingsByUser := bookingRepository.FindActiveByUserID.
Definition GetUserBookings := bookingRepository.FindByUserID.

Definition DeleteBooking (now : Time) (id : ObjectID) : M unit :=
  booking <- read (fun w => bookingRepository.FindByID w id) ;;
  (if negb (Booking.Status booking =? "cancelled")%string then
     userRepository.UpdatePointBalance now (Booking.UserID booking)
       (Booking.PointCost booking) ;;;
     tid <- NewObjectID ;;
     ignore_error
       (userRepository.CreatePointTransaction now
          (PointTransaction.mk tid (Booking.UserID booking)
             (Booking.PointCost booking) "booking_deletion_refund"
             (Hex (Booking.ID booking)) now))
   else ret tt) ;;;
  bookingRepository.Delete id.

Definition calculateRefundAmount (now : Time) (booking : Booking.t) : Z :=
  if 24 * Hour <=? Until now (Booking.CheckIn booking) then
    Booking.PointCost booking
  else 0.

Definition isRoomAvailableOnDate (w : World) (roomID : ObjectID) (date : Time)
  : bool :=
  let checkDate := startOfDay date in
  let bookings :=
    bookingRepository.FindActiveByRoomIDAndDateRange w roomID checkDate
      (AddDate checkDate 1) in
  if 0 <? Z.of_nat (List.length bookings) then false
  else
    match hotelRepository.FindRoomAvailabilityByDate w roomID checkDate with
    | Some avail => if negb (RoomAvailability.Available avail) then false else true
    | None => true
    end.

Definition validateBookingPeriod (now checkIn checkOut : Time) : result unit :=
  let startDate := startOfDay checkIn in
  let endDate := startOfDay checkOut in
  if negb (Before startDate endDate) then
    Err (New "check-in date must be before check-out date")
  else
    let today := startOfDay now in
    if Before startDate today then
      Err (New "check-in date cannot be in the past")
    else
      let maxDuration := 14 * 24 * Hour in
      let duration := Sub endDate startDate in
      if maxDuration <? duration then
        Err (New "booking duration cannot exceed 14 days")
      else Ok tt.

End bookingService.

(* ===================================================================== *)
(** ** internal/services/hotel_service.go *)
(* ===================================================================== *)

Module hotelService.

(** One turn of the loop of [SetRoomAvailability], for the day of [d]. *)
Definition setDay (roomID : ObjectID) (d : Time) (available : bool)
    (userIDs : list ObjectID) : M unit :=
  let date := startOfDay d in
  existing <- read (fun w => Ok (hotelRepository.FindRoomAvailabilityByDate w roomID date)) ;;
  match existing with
  | Some existing =>
      hotelRepository.UpdateRoomAvailability
        (RoomAvailability.mk (RoomAvailability.ID existing)
           (RoomAvailability.RoomID existing) (RoomAvailability.Date existing)
           available userIDs)
  | None =>
      id <- NewObjectID ;;
      hotelRepository.CreateRoomAvailability
        (RoomAvailability.mk id roomID date available userIDs)
  end.

(** The loop [for d := fromDate; !d.After(toDate); d = d.AddDate(0, 0, 1)];
    [fuel] bounds its turns. *)
Fixpoint setDays (fuel : nat) (roomID : ObjectID) (d toDate : Time)
    (available : bool) (userIDs : list ObjectID) : M unit :=
  match fuel with
  | O => ret tt
  | S fuel' =>
      if negb (After d toDate) then
        setDay roomID d available userIDs ;;;
        setDays fuel' roomID (AddDate d 1) toDate available userIDs
      else ret tt
  end.

Definition SetRoomAvailability (roomID : ObjectID) (fromDate toDate : Time)
    (available : bool) (userIDs : list ObjectID) : M unit :=
  if IsZero roomID then fail (New "room ID cannot be empty")
  else if After fromDate toDate then
    fail (New "from date cannot be after to date")
  else
    _ <- read (fun w => hotelRepository.FindRoomByID w roomID) ;;
    setDays (bookingService.days_between fromDate toDate) roomID fromDate toDate
            available userIDs.

Definition GetRoomAvailability (w : World) (roomID : ObjectID)
    (fromDate toDate : Time) : result (list RoomAvailability.t) :=
  if IsZero roomID then Err (New "room ID cannot be empty")
  else if After fromDate toDate then
    Err (New "from date cannot be after to date")
  else
    match hotelRepository.FindRoomByID w roomID with
    | Err e => Err e
    | Ok _ =>
        Ok (hotelRepository.FindRoomAvailabilityByDateRange w roomID fromDate toDate)
    end.

Definition CreateHotel (now : Time) (hotel : Hotel.t) : M unit :=
  if (Hotel.Name hotel =? "")%string || (Hotel.Description hotel =? "")%string
     || (Hotel.Address hotel =? "")%string || (Hotel.City hotel =? "")%string
  then fail (New "required hotel fields cannot be empty")
  else
    id <- (if IsZero (Hotel.ID hotel) then NewObjectID
           else ret (Hotel.ID hotel)) ;;
    hotelRepository.Create
      (Hotel.mk id (Hotel.Name hotel) (Hotel.Description hotel)
         (Hotel.Address hotel) (Hotel.City hotel) (Hotel.Image hotel) now now).

Definition UpdateHotel (now : Time) (hotel : Hotel.t) : M unit :=
  if IsZero (Hotel.ID hotel) then fail (New "hotel ID cannot be empty")
  else
    _ <- read (fun w => hotelRepository.FindByID w (Hotel.ID hotel)) ;;
    hotelRepository.Update
      (Hotel.mk (Hotel.ID hotel) (Hotel.Name hotel) (Hotel.Description hotel)
         (Hotel.Address hotel) (Hotel.City hotel) (Hotel.Image hotel)
         (Hotel.CreatedAt hotel) now).

Definition DeleteHotel (id : ObjectID) : M unit :=
  _ <- read (fun w => hotelRepository.FindByID w id) ;;
  rooms <- read (fun w => Ok (hotelRepository.FindRoomsByHotelID w id)) ;;
  if 0 <? Z.of_nat (List.length rooms) then
    fail (New "cannot delete hotel with existing rooms, delete rooms first")
  else hotelRepository.Delete id.

Definition CreateRoom (room : Room.t) : M unit :=
  if IsZero (Room.HotelID room) || (Room.Name room =? "")%string
     || (Room.Description room =? "")%string || (Room.Capacity room <=? 0)
  then fail (New "required room fields cannot be empty")
  else
    _ <- read (fun w => replace_error
                          (hotelRepository.FindByID w (Room.HotelID room))
                          (New "hotel not found")) ;;
    id <- (if IsZero (Room.ID room) then NewObjectID else ret (Room.ID room)) ;;
    hotelRepository.CreateRoom
      (Room.mk id (Room.HotelID room) (Room.Name room) (Room.Description room)
         (Room.Capacity room) (Room.Image room)).

Definition UpdateRoom (room : Room.t) : M unit :=
  if IsZero (Room.ID room) then fail (New "room ID cannot be empty")
  else
    existingRoom <- read (fun w => hotelRepository.FindRoomByID w (Room.ID room)) ;;
    hotelID <-
      (if IsZero (Room.HotelID room) then ret (Room.HotelID existingRoom)
       else if negb (N.eqb (Room.HotelID room) (Room.HotelID existingRoom)) then
         read (fun w => replace_error
                          (hotelRepository.FindByID w (Room.HotelID room))
                          (New "new hotel not found")) ;;;
         ret (Room.HotelID room)
       else ret (Room.HotelID room)) ;;
    hotelRepository.UpdateRoom
      (Room.mk (Room.ID room) hotelID (Room.Name room) (Room.Description room)
         (Room.Capacity room) (Room.Image room)).

(** No booking is looked at (the source leaves that as a TODO). *)
Definition DeleteRoom (id : ObjectID) : M unit :=
  _ <- read (fun w => hotelRepository.FindRoomByID w id) ;;
  hotelRepository.DeleteRoomAvailability id ;;;
  hotelRepository.DeleteRoom id.

End hotelService.

(* ===================================================================== *)
(** ** The calendar in the words of the specification *)
(* ===================================================================== *)

(** These definitions follow the specification (section 4.1), not the code;
    the theorems below compare the code with them. *)

(** The first rule of the store for the calendar day of [d]. *)
Definition ruleForDate (w : World) (d : Time) : option DateRule.t :=
  find (fun r => dayOf (DateRule.Date r) =? dayOf d) (date_rules w).

Definition isWeekend (d : Time) : bool :=
  (Weekday d =? Saturday) || (Weekday d =? Sunday).

(** [costForDate(date) -> (pointCost, dayType, name)] *)
Definition costForDate (w : World) (d : Time) : Z * string * string :=
  match ruleForDate w d with
  | Some r => (DateRule.PointCost r, DateRule.Type_ r, DateRule.Name r)
  | None => if isWeekend d then (2, "weekend", "") else (1, "regular", "")
  end.

Definition pointCostOf (c : Z * string * string) : Z := fst (fst c).

(** The days of a stay: check-in day included, check-out day excluded. *)
Definition nights (checkIn checkOut : Time) : nat :=
  Z.to_nat (dayOf checkOut - dayOf checkIn).

Fixpoint daysFrom (d : Time) (n : nat) : list Time :=
  match n with
  | O => []
  | S n' => d :: daysFrom (AddDate d 1) n'
  end.

Definition stayDays (checkIn checkOut : Time) : list Time :=
  daysFrom (startOfDay checkIn) (nights checkIn checkOut).

(** [costForRange]: the sum, in unbounded integers, of the per-day rates. *)
Definition sumOf (w : World) (days : list Time) : Z :=
  fold_right Z.add 0 (map (fun d => pointCostOf (costForDate w d)) days).

Definition costForRange (w : World) (checkIn checkOut : Time) : Z :=
  sumOf w (stayDays checkIn checkOut).

Definition detailOf (w : World) (d : Time) : DailyPointDetail :=
  let '(cost, dayType, name) := costForDate w d in
  mkDailyPointDetail d dayType cost name.

(* ===================================================================== *)
(** ** Vocabulary of the statements *)
(* ===================================================================== *)

(** At most one rule per calendar date. *)
Definition one_rule_per_day (rules : list DateRule.t) : Prop :=
  NoDup (map (fun r => dayOf (DateRule.Date r)) rules).

(** [primitive.NewObjectID] never returns the zero id nor an id already in
    use: the counter is above every [_id] of the collections it serves. *)
Definition fresh_oids (w : World) : Prop :=
  (0 < next_oid w)%N
  /\ (forall b, In b (bookings w) -> (Booking.ID b < next_oid w)%N)
  /\ (forall t, In t (point_transactions w) ->
                (PointTransaction.ID t < next_oid w)%N).

(** The booking [CreateBooking] builds and the entry it adds to the ledger. *)
Definition newBooking (w : World) (now : Time) (userID hotelID roomID : ObjectID)
    (checkIn checkOut : Time) (pointCost : Z) : Booking.t :=
  Booking.mk (next_oid w) userID hotelID roomID (atHour checkIn 14)
             (atHour checkOut 12) pointCost "confirmed" now.

Definition deduction (w : World) (now : Time) (userID : ObjectID)
    (pointCost : Z) : PointTransaction.t :=
  PointTransaction.mk (N.succ (next_oid w)) userID (int_neg pointCost)
    "booking_deduction" (Hex (next_oid w)) now.

(** The entry [CancelBooking] adds to the ledger. *)
Definition refund (w : World) (now : Time) (b : Booking.t) : PointTransaction.t :=
  PointTransaction.mk (next_oid w) (Booking.UserID b) (Booking.PointCost b)
    "booking_refund" (Hex (Booking.ID b)) now.

(** The requester owns the booking or holds the admin role. *)
Definition may_cancel (w : World) (b : Booking.t) (userID : ObjectID) : Prop :=
  Booking.UserID b = userID
  \/ exists user, userRepository.FindByID w userID = Ok user
                  /\ User.Role user = RoleAdmin.

Definition credited (now : Time) (points : Z) (u : User.t) : User.t :=
  User.mk (User.ID u) (User.Name u) (User.Email u) (User.Password u)
          (User.PointBalance u + points) (User.Role u) (User.CreatedAt u) now.

(** Two bookings that differ at most in their status. *)
Definition same_but_status (x y : Booking.t) : Prop :=
  Booking.ID y = Booking.ID x
  /\ Booking.UserID y = Booking.UserID x
  /\ Booking.HotelID y = Booking.HotelID x
  /\ Booking.RoomID y = Booking.RoomID x
  /\ Booking.CheckIn y = Booking.CheckIn x
  /\ Booking.CheckOut y = Booking.CheckOut x
  /\ Booking.PointCost y = Booking.PointCost x
  /\ Booking.CreatedAt y = Booking.CreatedAt x.

(** What [SetSpecialDate] accepts. *)
Definition valid_rule (rule : DateRule.t) : Prop :=
  Time_IsZero (DateRule.Date rule) = false
  /\ DateRule.Type_ rule <> ""
  /\ 1 <= DateRule.PointCost rule <= 3.

(** The [_id] under which [SetSpecialDate] inserts a rule. *)
Definition rule_id (w : World) (rule : DateRule.t) : ObjectID :=
  if IsZero (DateRule.ID rule) then next_oid w else DateRule.ID rule.

(** Every rule of the calendar costs 1, 2 or 3 points. *)
Definition rules_valid (rules : list DateRule.t) : Prop :=
  forall r, In r rules -> 1 <= DateRule.PointCost r <= 3.

(** The rate of a day that has no rule. *)
Definition defaultCost (d : Time) : Z := if isWeekend d then 2 else 1.

(** The entry [DeleteBooking] adds to the ledger. *)
Definition deletion_refund (w : World) (now : Time) (b : Booking.t)
  : PointTransaction.t :=
  PointTransaction.mk (next_oid w) (Booking.UserID b) (Booking.PointCost b)
    "booking_deletion_refund" (Hex (Booking.ID b)) now.

(** The entry a reactivation adds to the ledger. *)
Definition reactivation (w : World) (now : Time) (b : Booking.t)
  : PointTransaction.t :=
  PointTransaction.mk (next_oid w) (Booking.UserID b)
    (int_neg (Booking.PointCost b)) "booking_reactivation"
    (Hex (Booking.ID b)) now.

(** No transaction of the store has the id the counter gives next. *)
Definition next_oid_unused (w : World) : Prop :=
  forall t, In t (point_transactions w) -> PointTransaction.ID t <> next_oid w.





(** The nights of a booking: the days from the day of the check-in up to,
    and not including, the day of the check-out. *)
Definition night_of (b : Booking.t) (n : Z) : Prop :=
  dayOf (Booking.CheckIn b) <= n < dayOf (Booking.CheckOut b).

(** No night of a room is held by two bookings that are not cancelled. *)
Definition no_double_booking (w : World) : Prop :=
  forall b1 b2 n,
    In b1 (bookings w) -> In b2 (bookings w) ->
    Booking.ID b1 <> Booking.ID b2 ->
    Booking.RoomID b1 = Booking.RoomID b2 ->
    Booking.Status b1 <> "cancelled" -> Booking.Status b2 <> "cancelled" ->
    night_of b1 n -> ~ night_of b2 n.


(** The ids of the availability records are distinct and below the
    counter of [NewObjectID]. *)
Definition availability_ids_fresh (w : World) : Prop :=
  NoDup (map RoomAvailability.ID (room_availability w))
  /\ forall a, In a (room_availability w) ->
               (RoomAvailability.ID a < next_oid w)%N.

(** A room has at most one availability record per calendar day. *)
Definition one_record_per_day (w : World) : Prop :=
  forall x y,
    In x (room_availability w) -> In y (room_availability w) ->
    RoomAvailability.RoomID x = RoomAvailability.RoomID y ->
    dayOf (RoomAvailability.Date x) = dayOf (RoomAvailability.Date y) ->
    x = y.

(** The record of the room for the day of [d] carries the given flag and
    user list. *)
Definition day_is_set (w : World) (roomID : ObjectID) (d : Time)
    (available : bool) (userIDs : list ObjectID) : Prop :=
  exists a,
    hotelRepository.FindRoomAvailabilityByDate w roomID d = Some a
    /\ RoomAvailability.Available a = available
    /\ RoomAvailability.UserIDs a = userIDs.

(** The filter of [FindRoomAvailabilityByDate]. *)
Definition on_day (roomID : ObjectID) (d : Time) (a : RoomAvailability.t)
  : bool :=
  N.eqb (RoomAvailability.RoomID a) roomID
  && (startOfDay d <=? RoomAvailability.Date a)
  && (RoomAvailability.Date a <=? endOfDay d).

(** The [$set] of [UpdateRoomAvailability]. *)
Definition set_flags (available : bool) (userIDs : list ObjectID)
    (a : RoomAvailability.t) : RoomAvailability.t :=
  RoomAvailability.mk (RoomAvailability.ID a) (RoomAvailability.RoomID a)
    (RoomAvailability.Date a) available userIDs.

(** Only the availability records and the id counter differ. *)
Definition only_availability_changed (w w' : World) : Prop :=
  users w' = users w /\ hotels w' = hotels w /\ rooms w' = rooms w
  /\ bookings w' = bookings w
  /\ point_transactions w' = point_transactions w
  /\ date_rules w' = date_rules w.

(** Every room belongs to a hotel of the store. *)
Definition rooms_have_hotels (w : World) : Prop :=
  forall room, In room (rooms w) ->
               exists hotel,
                 hotelRepository.FindByID w (Room.HotelID room) = Ok hotel.

(* ===================================================================== *)
(** ** A small hotel, used to run the services *)
(* ===================================================================== *)

(** Midnight (UTC) of day [n] after 1970-01-01. *)
Definition midnight (n : Z) : Time := n * nsPerDay.

Definition ann : User.t :=
  User.mk 1%N "Ann" "ann@example.com" "hash" 10 RoleUser 0 0.

Definition hotel1 : Hotel.t :=
  Hotel.mk 2%N "Hotel Jakarta" "Hotel bintang 5" "Jl. Sudirman" "Jakarta" "" 0 0.

Definition room1 : Room.t :=
  Room.mk 3%N 2%N "Deluxe Room" "Kamar deluxe" 2 "".

(** 2025-12-25 is day 20447, a Thursday. *)
Definition christmas : DateRule.t :=
  DateRule.mk 4%N (midnight 20447) "holiday" 3 "Hari Natal".

Definition hotel_world : World :=
  mkWorld [ann] [hotel1] [room1] [] [] [christmas] [] 100%N.

(** Noon of 2025-12-20. *)
Definition dec20_noon : Time := midnight 20442 + 12 * Hour.

(** Bob has one point. *)
Definition bob : User.t :=
  User.mk 5%N "Bob" "bob@example.com" "hash" 1 RoleUser 0 0.

Definition bob_world : World :=
  mkWorld [ann; bob] [hotel1] [room1] [] [] [christmas] [] 100%N.

(** Ann books the nights of 24 and 25 December 2025 on 20 December. *)
Definition booked_world : World :=
  Eval vm_compute in
    snd (bookingService.CreateBooking dec20_noon 1%N 2%N 3%N (midnight 20446)
           (midnight 20448) hotel_world).

Definition ann_booking : Booking.t :=
  Booking.mk 100%N 1%N 2%N 3%N (midnight 20446 + 14 * Hour)
    (midnight 20448 + 12 * Hour) 4 "confirmed" dec20_noon.

(** 24 December 2025, 04:00: ten hours before Ann's check-in. *)
Definition dec24_4am : Time := midnight 20446 + 4 * Hour.

(** Ann after the debit of the four points of that stay. *)
Definition ann_debited : User.t :=
  User.mk 1%N "Ann" "ann@example.com" "hash" 6 RoleUser 0 dec20_noon.

(** Two requests of the admin: Christmas again, now at cost 2, and New
    Year's Eve (2025-12-31, day 20453). *)
Definition christmas_again : DateRule.t :=
  DateRule.mk 50%N (midnight 20447 + 9 * Hour) "holiday" 2 "Natal".

Definition new_years_eve : DateRule.t :=
  DateRule.mk 51%N (midnight 20453) "holiday" 3 "Malam Tahun Baru".

(** The admin has closed the room on 24 December 2025 (day 20446). *)
Definition closed_dec24 : RoomAvailability.t :=
  RoomAvailability.mk 60%N 3%N (midnight 20446) false [].

Definition closed_world : World :=
  set_room_availability [closed_dec24] hotel_world.

(** Ann's booking after the admin has cancelled it on 24 December at 04:00. *)
Definition admin_cancelled_world : World :=
  Eval vm_compute in
    snd (bookingService.UpdateBookingStatus dec24_4am 100%N "cancelled"
           booked_world).

Definition ann_refunded : User.t :=
  User.mk 1%N "Ann" "ann@example.com" "hash" 10 RoleUser 0 dec24_4am.

(** Carol has ten points. *)
Definition carol : User.t :=
  User.mk 6%N "Carol" "carol@example.com" "hash" 10 RoleUser 0 0.

(** Ann has booked the nights of 24 and 25 December, the admin has
    cancelled that booking, and Carol has booked the same room for the same
    nights. *)
Definition rebooked_world : World :=
  Eval vm_compute in
    let w0 := mkWorld [ann; carol] [hotel1] [room1] [] [] [christmas] [] 100%N in
    let w1 := snd (bookingService.CreateBooking dec20_noon 1%N 2%N 3%N
                     (midnight 20446) (midnight 20448) w0) in
    let w2 := snd (bookingService.UpdateBookingStatus dec20_noon 100%N
                     "cancelled" w1) in
    snd (bookingService.CreateBooking dec20_noon 6%N 2%N 3%N
           (midnight 20446) (midnight 20448) w2).

Definition carol_booking : Booking.t :=
  Booking.mk 103%N 6%N 2%N 3%N (midnight 20446 + 14 * Hour)
    (midnight 20448 + 12 * Hour) 4 "confirmed" dec20_noon.

(** The store of [closed_world] after Ann has booked the room. *)
Definition closed_booked_world : World :=
  set_room_availability [closed_dec24] booked_world.

(* ===================================================================== *)
(** ** Arithmetic of int and of calendar days *)
(* ===================================================================== *)

Ltac unfold_time :=
  unfold isSameDay, startOfDay, endOfDay, atHour, AddDate, dayOf, Before,
    After, nsPerDay, Hour in *.

Ltac time_lia := unfold_time; Z.to_euclidean_division_equations; lia.

Lemma in_intb_spec z : in_intb z = true <-> in_int z.
Proof.
  unfold in_intb, in_int. rewrite andb_true_iff, !Z.leb_le. tauto.
Qed.

Lemma wrap_id z : in_int z -> wrap z = z.
Proof.
  unfold in_int, wrap, min_int, max_int. intros H.
  change (2 ^ 63) with 9223372036854775808.
  change (2 ^ 64) with 18446744073709551616.
  rewrite Z.mod_small; lia.
Qed.

Lemma wrap_in_int z : in_int (wrap z).
Proof.
  unfold in_int, wrap, min_int, max_int.
  change (2 ^ 63) with 9223372036854775808.
  change (2 ^ 64) with 18446744073709551616.
  pose proof (Z.mod_pos_bound (z + 9223372036854775808) 18446744073709551616).
  lia.
Qed.

Lemma wrap_add_wrap a b : wrap (wrap a + b) = wrap (a + b).
Proof.
  unfold wrap.
  replace ((a + 2 ^ 63) mod 2 ^ 64 - 2 ^ 63 + b + 2 ^ 63)
    with ((a + 2 ^ 63) mod 2 ^ 64 + b) by ring.
  replace (a + b + 2 ^ 63) with (a + 2 ^ 63 + b) by ring.
  rewrite Z.add_mod_idemp_l by (change (2 ^ 64) with 18446744073709551616; lia).
  reflexivity.
Qed.

Lemma int_neg_id z : in_int z -> z <> min_int -> int_neg z = - z.
Proof.
  intros [H1 H2] H3. unfold int_neg. apply wrap_id.
  unfold in_int, min_int, max_int in *. lia.
Qed.

Lemma dayOf_startOfDay t : dayOf (startOfDay t) = dayOf t.
Proof. time_lia. Qed.

Lemma dayOf_atHour t h : 0 <= h < 24 -> dayOf (atHour t h) = dayOf t.
Proof. intros H. time_lia. Qed.

Lemma startOfDay_atHour t h : 0 <= h < 24 -> startOfDay (atHour t h) = startOfDay t.
Proof.
  intros H. unfold startOfDay at 1 2. unfold atHour at 1 3.
  rewrite dayOf_atHour by assumption. reflexivity.
Qed.

Lemma startOfDay_eq t : startOfDay t = dayOf t * nsPerDay.
Proof. unfold startOfDay, atHour, Hour. lia. Qed.

Lemma dayOf_mul k : dayOf (k * nsPerDay) = k.
Proof. unfold dayOf. apply Z.div_mul. unfold nsPerDay. lia. Qed.

Lemma AddDate_mul k n : AddDate (k * nsPerDay) n = (k + n) * nsPerDay.
Proof. unfold AddDate, nsPerDay. lia. Qed.

(** The window [startOfDay d, endOfDay d] of the repositories' day filters
    holds exactly the instants of d's calendar day. *)
Lemma day_window d x :
  ((startOfDay d <=? x) && (x <=? endOfDay d)) = (dayOf x =? dayOf d).
Proof.
  apply eq_true_iff_eq.
  rewrite andb_true_iff, !Z.leb_le, Z.eqb_eq. time_lia.
Qed.

(** [t.Sub(u)] saturates, which no comparison with 24 hours can see. *)
Lemma Until_lt_24h now t :
  (Until now t <? 24 * Hour) = (t - now <? 24 * Hour).
Proof.
  unfold Until, Sub, min_int, max_int, Hour.
  destruct (Z.ltb_spec (t - now) (-9223372036854775808));
    destruct (Z.ltb_spec 9223372036854775807 (t - now));
    apply eq_true_iff_eq; rewrite !Z.ltb_lt; lia.
Qed.

(* ===================================================================== *)
(** ** Collections *)
(* ===================================================================== *)

Section CollectionFacts.
Variable A : Type.
Variable id_of : A -> ObjectID.

Lemma find_app_fresh (p : A -> bool) (c : list A) (x : A) :
  find p c = None -> p x = true -> find p (c ++ [x]) = Some x.
Proof.
  induction c as [|y c IH]; simpl; intros Hn Hp.
  - now rewrite Hp.
  - destruct (p y); [discriminate | auto].
Qed.

(** Updating the document a [FindOne] with the same filter returns. *)
Lemma update_one_found (p : A -> bool) (f : A -> result A) c x x' :
  find p c = Some x -> f x = Ok x' ->
  exists c', update_one p f c = Ok c'
             /\ List.length c' = List.length c
             /\ (p x' = true -> find p c' = Some x').
Proof.
  induction c as [|y c IH]; simpl; [discriminate|].
  destruct (p y) eqn:Hy.
  - intros [= ->] ->. eexists; split; [reflexivity|]. split; [reflexivity|].
    intros Hp. simpl. now rewrite Hp.
  - intros Hf Hx. destruct (IH Hf Hx) as (c' & -> & Hl & Hfind).
    eexists; split; [reflexivity|]. split; [simpl; congruence|].
    intros Hp. simpl. rewrite Hy. auto.
Qed.

Lemma update_one_Ok_found (p : A -> bool) (f : A -> result A) c c' x :
  find p c = Some x -> update_one p f c = Ok c' ->
  exists x', f x = Ok x'
             /\ List.length c' = List.length c
             /\ (p x' = true -> find p c' = Some x').
Proof.
  revert c'. induction c as [|y c IH]; simpl; intros c'; [discriminate|].
  destruct (p y) eqn:Hy.
  - intros [= ->]. destruct (f x) as [x'|]; [|discriminate].
    intros [= <-]. exists x'. split; [reflexivity|]. split; [reflexivity|].
    intros Hp. simpl. now rewrite Hp.
  - intros Hf. destruct (update_one p f c) as [c''|]; [|discriminate].
    intros [= <-]. destruct (IH _ Hf eq_refl) as (x' & Hx & Hl & Hfind).
    exists x'. split; [assumption|]. split; [simpl; congruence|].
    intros Hp. simpl. rewrite Hy. auto.
Qed.

(** When two filters single out the same document, updating it through
    one is seen through the other. *)
Lemma update_one_find_same (p q : A -> bool) (f : A -> result A) c c' x :
  find p c = Some x -> find q c = Some x ->
  update_one p f c = Ok c' ->
  (forall y y', f y = Ok y' -> q y' = q y) ->
  exists x', f x = Ok x' /\ find q c' = Some x'.
Proof.
  intros Hp Hq Hu Hf. revert c' Hp Hq Hu.
  induction c as [|y c IH]; simpl; intros c' Hp Hq Hu; [discriminate|].
  destruct (p y) eqn:Hpy.
  - injection Hp as ->. destruct (f x) as [x'|] eqn:Hx; [|discriminate].
    injection Hu as <-. exists x'. split; [reflexivity|]. simpl.
    rewrite (Hf _ _ Hx). destruct (q x) eqn:Hqx; [reflexivity|].
    apply find_some in Hq as [_ Hq]. congruence.
  - destruct (q y) eqn:Hqy.
    + injection Hq as ->. apply find_some in Hp as [_ Hp]. congruence.
    + destruct (update_one p f c) as [c''|]; [|discriminate].
      injection Hu as <-. destruct (IH _ Hp Hq eq_refl) as (x' & Hx & Hfind).
      exists x'. split; [assumption|]. simpl.
      destruct (q y) eqn:Hqy'; [congruence | exact Hfind].
Qed.

Lemma insert_one_fresh (x : A) (c : list A) :
  (forall y, In y c -> id_of y <> id_of x) ->
  insert_one id_of x c = Ok (c ++ [x]).
Proof.
  intros H. unfold insert_one.
  destruct (existsb _ c) eqn:E; [|reflexivity].
  apply existsb_exists in E as (y & Hy & Heq).
  apply N.eqb_eq in Heq. now apply H in Hy.
Qed.
End CollectionFacts.

(* ===================================================================== *)
(** ** The calendar: per-day rates and the cost of a stay *)
(* ===================================================================== *)

Lemma find_ext {A} (p q : A -> bool) (l : list A) :
  (forall x, p x = q x) -> find p l = find q l.
Proof.
  intros H. induction l as [|x l IH]; simpl; [reflexivity|].
  rewrite H, IH. reflexivity.
Qed.

Lemma GetPointCostForDate_costForDate w d :
  dateRepository.GetPointCostForDate w d = pointCostOf (costForDate w d).
Proof.
  unfold dateRepository.GetPointCostForDate, costForDate, ruleForDate, find_one.
  rewrite (find_ext _ (fun r => dayOf (DateRule.Date r) =? dayOf d))
    by (intros r; apply day_window).
  destruct (find _ (date_rules w)); [reflexivity|].
  unfold isWeekend. destruct (_ || _); reflexivity.
Qed.

(** The loop of [CalculatePointCost], run with enough fuel, leaves by its
    test and has added up the rates of the days it went through. *)
Lemma sumPointCost_spec w endDate :
  forall n fuel d totalPoints,
    (n <= fuel)%nat ->
    endDate = AddDate d (Z.of_nat n) ->
    in_int totalPoints ->
    bookingService.sumPointCost fuel w d endDate totalPoints
    = wrap (totalPoints + sumOf w (daysFrom d n)).
Proof.
  induction n as [|n IH]; intros fuel d total Hfuel Hend Hint.
  - assert (Hb : Before d endDate = false).
    { subst endDate. unfold Before, AddDate. apply Z.ltb_ge. simpl. lia. }
    unfold sumOf. simpl. rewrite Z.add_0_r, wrap_id by assumption.
    destruct fuel; simpl; [reflexivity | now rewrite Hb].
  - destruct fuel as [|fuel]; [lia|].
    assert (Hb : Before d endDate = true).
    { subst endDate. unfold Before, AddDate, nsPerDay. apply Z.ltb_lt. lia. }
    simpl. rewrite Hb.
    rewrite (IH fuel (AddDate d 1)).
    + unfold dateService.GetPointCostForDate.
      rewrite GetPointCostForDate_costForDate. unfold int_add, sumOf. simpl.
      rewrite wrap_add_wrap. f_equal. lia.
    + lia.
    + subst endDate. unfold AddDate, nsPerDay. lia.
    + apply wrap_in_int.
Qed.

Lemma in_int_0 : in_int 0.
Proof. unfold in_int, min_int, max_int. lia. Qed.

Lemma stay_bounds checkIn checkOut :
  After (startOfDay checkIn) (startOfDay checkOut) = false ->
  (nights checkIn checkOut
   <= bookingService.days_between (startOfDay checkIn) (startOfDay checkOut))%nat
  /\ startOfDay checkOut
     = AddDate (startOfDay checkIn) (Z.of_nat (nights checkIn checkOut)).
Proof.
  intros H. unfold After in H. apply Z.ltb_ge in H.
  rewrite !startOfDay_eq in *. unfold bookingService.days_between, nights.
  assert (Hd : dayOf checkIn <= dayOf checkOut) by (unfold nsPerDay in H; lia).
  split.
  - replace (dayOf checkOut * nsPerDay - dayOf checkIn * nsPerDay)
      with ((dayOf checkOut - dayOf checkIn) * nsPerDay) by (unfold nsPerDay; lia).
    rewrite Z.div_mul by (unfold nsPerDay; lia). lia.
  - rewrite AddDate_mul, Z2Nat.id by lia. f_equal. lia.
Qed.

(** What a successful [CalculatePointCost] went through. *)
Lemma CalculatePointCost_Ok w now roomID checkIn checkOut total :
  bookingService.CalculatePointCost w now roomID checkIn checkOut = Ok total ->
  After (startOfDay checkIn) (startOfDay checkOut) = false
  /\ Before (startOfDay checkIn) (AddDate now (-1)) = false
  /\ (exists room, hotelRepository.FindRoomByID w roomID = Ok room)
  /\ bookingRepository.CheckRoomAvailability w roomID (startOfDay checkIn)
       (startOfDay checkOut) = true
  /\ total = wrap (costForRange w checkIn checkOut).
Proof.
  unfold bookingService.CalculatePointCost.
  destruct (After _ _) eqn:Ha; [discriminate|].
  destruct (Before _ _) eqn:Hb; [discriminate|].
  destruct (hotelRepository.FindRoomByID w roomID) as [room|] eqn:Hr; [|discriminate].
  destruct (bookingRepository.CheckRoomAvailability _ _ _ _) eqn:Hc; [|discriminate].
  simpl. intros [= <-]. repeat split; eauto.
  destruct (stay_bounds _ _ Ha) as [Hn He].
  rewrite (sumPointCost_spec w (n := nights checkIn checkOut)); auto using in_int_0.
Qed.

(** A request that passes the four checks of [CalculatePointCost] is
    priced. *)
Lemma CalculatePointCost_run w now roomID checkIn checkOut room :
  After (startOfDay checkIn) (startOfDay checkOut) = false ->
  Before (startOfDay checkIn) (AddDate now (-1)) = false ->
  hotelRepository.FindRoomByID w roomID = Ok room ->
  bookingRepository.CheckRoomAvailability w roomID (startOfDay checkIn)
    (startOfDay checkOut) = true ->
  bookingService.CalculatePointCost w now roomID checkIn checkOut
  = Ok (wrap (costForRange w checkIn checkOut)).
Proof.
  intros Ha Hb Hr Hc. unfold bookingService.CalculatePointCost.
  rewrite Ha, Hb, Hr, Hc. simpl. f_equal.
  destruct (stay_bounds _ _ Ha) as [Hn He].
  rewrite (sumPointCost_spec w (n := nights checkIn checkOut)); auto using in_int_0.
Qed.

(** *** The per-day details *)

Section SortFacts.
Variable A : Type.
Variable key : A -> Z.

Lemma insert_by_perm (x : A) (l : list A) :
  Permutation (insert_by key x l) (x :: l).
Proof.
  induction l as [|y l IH]; simpl; [reflexivity|].
  destruct (key x <=? key y); [reflexivity|].
  rewrite IH. apply perm_swap.
Qed.

Lemma sort_by_perm (l : list A) : Permutation (sort_by key l) l.
Proof.
  induction l as [|x l IH]; simpl; [reflexivity|].
  rewrite insert_by_perm. now constructor.
Qed.
End SortFacts.

(** Distinct keys stay distinct in the answer of a query. *)
Lemma NoDup_map_filter {A B} (key : A -> B) (keep : A -> bool) :
  forall docs, NoDup (map key docs) -> NoDup (map key (filter keep docs)).
Proof.
  intros docs. induction docs as [|x docs IH]; simpl; intros H; [constructor|].
  inversion H as [|? ? Hx Hl]; subst.
  destruct (keep x); simpl; auto.
  constructor; auto.
  intros Hin. apply Hx. apply in_map_iff in Hin as (y & <- & Hy).
  apply in_map. apply filter_In in Hy. tauto.
Qed.

(** With distinct keys, a lookup by key finds the one element that has it. *)
Lemma find_unique {A} (f : A -> Z) (l : list A) (r : A) :
  NoDup (map f l) -> In r l ->
  find (fun x => f x =? f r) l = Some r.
Proof.
  induction l as [|x l IH]; simpl; intros Hnd Hin; [contradiction|].
  inversion Hnd as [|? ? Hx Hl]; subst.
  destruct Hin as [-> | Hin].
  - now rewrite Z.eqb_refl.
  - destruct (Z.eqb_spec (f x) (f r)) as [E|_]; [|auto].
    exfalso. apply Hx. rewrite E. now apply in_map.
Qed.

Lemma find_absent {A} (p : A -> bool) (l : list A) :
  (forall x, In x l -> p x = false) -> find p l = None.
Proof.
  induction l as [|x l IH]; simpl; intros H; [reflexivity|].
  rewrite (H x) by auto. auto.
Qed.

Lemma specialDates_eq dateRules :
  bookingService.specialDates dateRules
  = rev (map (fun rule => (dayOf (DateRule.Date rule), rule)) dateRules).
Proof.
  unfold bookingService.specialDates.
  rewrite <- (app_nil_r (rev _)). generalize (@nil (Z * DateRule.t)).
  induction dateRules as [|r l IH]; intros acc; simpl; [reflexivity|].
  rewrite IH, <- app_assoc. reflexivity.
Qed.

(** On the days of the stay, the map built by
    [CalculatePointCostWithDetails] answers as the calendar does, provided
    no day carries two rules. *)
Lemma lookupDate_ruleForDate w startDate endDate d :
  one_rule_per_day (date_rules w) ->
  dayOf startDate <= dayOf d <= dayOf endDate ->
  bookingService.lookupDate
    (bookingService.specialDates (dateService.GetDateRules w startDate endDate))
    (dayOf d)
  = ruleForDate w d.
Proof.
  intros Hone Hd.
  unfold dateService.GetDateRules, dateRepository.FindDateRules.
  set (inrange := fun r : DateRule.t => _ && _).
  set (L := sort_by DateRule.Date (filter inrange (date_rules w))).
  set (g := fun rule : DateRule.t => (dayOf (DateRule.Date rule), rule)).
  assert (HL : forall r, In r L <-> In r (date_rules w) /\ inrange r = true).
  { intros r. unfold L. rewrite <- filter_In.
    split; apply Permutation_in;
      [apply sort_by_perm | apply Permutation_sym, sort_by_perm]. }
  assert (Hnd : NoDup (map fst (rev (map g L)))).
  { rewrite map_rev, map_map. apply NoDup_rev. simpl.
    apply (Permutation_NoDup (l := map (fun r => dayOf (DateRule.Date r))
                                        (filter inrange (date_rules w)))).
    - apply Permutation_map, Permutation_sym, sort_by_perm.
    - now apply NoDup_map_filter. }
  rewrite specialDates_eq. fold g. unfold bookingService.lookupDate, ruleForDate.
  destruct (find _ (date_rules w)) as [r|] eqn:Hf.
  - apply find_some in Hf as [Hin Hday]. apply Z.eqb_eq in Hday.
    assert (Hr : In (g r) (rev (map g L))).
    { apply in_rev. rewrite rev_involutive. apply in_map. apply HL. split; auto.
      unfold inrange. apply andb_true_iff. rewrite !Z.leb_le.
      revert Hd Hday. time_lia. }
    rewrite <- Hday.
    change (dayOf (DateRule.Date r)) with (fst (g r)).
    rewrite (find_unique fst _ _ Hnd Hr). reflexivity.
  - rewrite find_absent; [reflexivity|].
    intros [k r] Hin. apply in_rev in Hin.
    apply in_map_iff in Hin as (r' & [= <- <-] & Hr'). apply HL in Hr' as [Hr' _].
    simpl. exact (find_none _ _ Hf _ Hr').
Qed.

Lemma detailForDate_detailOf w m d :
  bookingService.lookupDate m (dayOf d) = ruleForDate w d ->
  bookingService.detailForDate m d = detailOf w d.
Proof.
  unfold bookingService.detailForDate, detailOf, costForDate, isWeekend.
  intros ->. destruct (ruleForDate w d); [reflexivity|].
  destruct (_ || _); reflexivity.
Qed.

Lemma dpd_PointCost_detailOf w d :
  dpd_PointCost (detailOf w d) = pointCostOf (costForDate w d).
Proof.
  unfold detailOf. destruct (costForDate w d) as [[c t] n]. reflexivity.
Qed.

Lemma sumPointCostWithDetails_spec w m endDate :
  forall n fuel d totalPoints dailyDetails,
    (n <= fuel)%nat ->
    endDate = AddDate d (Z.of_nat n) ->
    in_int totalPoints ->
    (forall x, In x (daysFrom d n) ->
               bookingService.detailForDate m x = detailOf w x) ->
    bookingService.sumPointCostWithDetails fuel m d endDate totalPoints dailyDetails
    = (wrap (totalPoints + sumOf w (daysFrom d n)),
       dailyDetails ++ map (detailOf w) (daysFrom d n)).
Proof.
  induction n as [|n IH]; intros fuel d total details Hfuel Hend Hint Hm.
  - assert (Hb : Before d endDate = false).
    { subst endDate. unfold Before, AddDate. apply Z.ltb_ge. simpl. lia. }
    unfold sumOf. simpl. rewrite Z.add_0_r, wrap_id, app_nil_r by assumption.
    destruct fuel; simpl; [reflexivity | now rewrite Hb].
  - destruct fuel as [|fuel]; [lia|].
    assert (Hb : Before d endDate = true).
    { subst endDate. unfold Before, AddDate, nsPerDay. apply Z.ltb_lt. lia. }
    simpl. rewrite Hb.
    rewrite (IH fuel (AddDate d 1)).
    + rewrite (Hm d) by (simpl; auto).
      rewrite dpd_PointCost_detailOf. unfold int_add, sumOf. simpl.
      rewrite wrap_add_wrap, <- app_assoc. simpl. do 2 f_equal. lia.
    + lia.
    + subst endDate. unfold AddDate, nsPerDay. lia.
    + apply wrap_in_int.
    + intros x Hx. apply Hm. simpl. auto.
Qed.

Lemma daysFrom_dayOf n : forall d x,
  In x (daysFrom d n) -> dayOf d <= dayOf x < dayOf d + Z.of_nat n.
Proof.
  induction n as [|n IH]; simpl; intros d x H; [contradiction|].
  destruct H as [<- | H]; [lia|].
  apply IH in H.
  assert (dayOf (AddDate d 1) = dayOf d + 1) by time_lia. lia.
Qed.

Lemma costForDate_startOfDay w d :
  costForDate w (startOfDay d) = costForDate w d.
Proof.
  unfold costForDate, ruleForDate, isWeekend, Weekday.
  rewrite dayOf_startOfDay. reflexivity.
Qed.

(** C4. For every date the per-day cost is the cost of the day's rule when
    the store has one for that calendar day, else 2 on a Saturday or Sunday,
    else 1 ([costForDate]); and a successful [CalculatePointCost] returns the
    sum of these rates over the days from the check-in day, included, to the
    check-out day, excluded, as a Go [int] (so the sum itself whenever it is
    in range), a one-night stay costing the rate of its check-in day; it is
    successful for every request that passes its four checks.  With
    at most one rule per day [CalculatePointCostWithDetails] returns the
    same total and, for each of these days, the type and name
    [costForDate] gives. *)
Theorem C4_cost_is_sum_of_daily_rates (w : World) :
  (forall d, dateService.GetPointCostForDate w d = pointCostOf (costForDate w d))
  /\ (forall now roomID checkIn checkOut total,
        bookingService.CalculatePointCost w now roomID checkIn checkOut = Ok total ->
        total = wrap (costForRange w checkIn checkOut)
        /\ (in_int (costForRange w checkIn checkOut) ->
            total = costForRange w checkIn checkOut)
        /\ (dayOf checkOut = dayOf checkIn + 1 ->
            costForRange w checkIn checkOut = pointCostOf (costForDate w checkIn))
        /\ (one_rule_per_day (date_rules w) ->
            bookingService.CalculatePointCostWithDetails w now roomID checkIn checkOut
            = Ok (total, map (detailOf w) (stayDays checkIn checkOut))))
  /\ (forall now roomID checkIn checkOut room,
        After (startOfDay checkIn) (startOfDay checkOut) = false ->
        Before (startOfDay checkIn) (AddDate now (-1)) = false ->
        hotelRepository.FindRoomByID w roomID = Ok room ->
        bookingRepository.CheckRoomAvailability w roomID (startOfDay checkIn)
          (startOfDay checkOut) = true ->
        bookingService.CalculatePointCost w now roomID checkIn checkOut
        = Ok (wrap (costForRange w checkIn checkOut))).
Proof.
  split; [apply GetPointCostForDate_costForDate|].
  split; [|intros; eapply CalculatePointCost_run; eauto].
  intros now roomID checkIn checkOut total H.
  pose proof (CalculatePointCost_Ok _ _ _ _ _ H) as (Ha & Hb & [room Hr] & Hc & Ht).
  split; [exact Ht|]. split; [|split].
  - intros Hint. rewrite Ht. now apply wrap_id.
  - intros Hone. unfold costForRange, stayDays, nights, sumOf.
    replace (dayOf checkOut - dayOf checkIn) with 1 by lia. simpl.
    rewrite costForDate_startOfDay. lia.
  - intros Hone. unfold bookingService.CalculatePointCostWithDetails.
    rewrite Ha, Hb, Hr, Hc. simpl. f_equal.
    destruct (stay_bounds _ _ Ha) as [Hn He].
    rewrite sumPointCostWithDetails_spec
      with (w := w) (n := nights checkIn checkOut); auto using in_int_0.
    + simpl. now rewrite Ht.
    + intros x Hx. apply detailForDate_detailOf, lookupDate_ruleForDate; auto.
      apply daysFrom_dayOf in Hx. rewrite !dayOf_startOfDay in *.
      unfold nights in Hx. unfold After in Ha. apply Z.ltb_ge in Ha.
      rewrite !startOfDay_eq in Ha. unfold nsPerDay in Ha. lia.
Qed.

Lemma C4_cost_is_sum_of_daily_rates_witness :
  4 = costForRange hotel_world (midnight 20446) (midnight 20448)
  /\ bookingService.CalculatePointCostWithDetails hotel_world dec20_noon 3%N
       (midnight 20446) (midnight 20448)
     = Ok (4, [mkDailyPointDetail (midnight 20446) "regular" 1 "";
               mkDailyPointDetail (midnight 20447) "holiday" 3 "Hari Natal"]).
Proof.
  pose proof (proj1 (proj2 (C4_cost_is_sum_of_daily_rates hotel_world))
                dec20_noon 3%N (midnight 20446) (midnight 20448) 4 eq_refl)
    as (_ & H1 & _ & H2).
  split.
  - apply H1. vm_compute. split; discriminate.
  - apply H2. unfold one_rule_per_day. simpl. repeat constructor. simpl. tauto.
Defined.

(* ===================================================================== *)
(** ** The guard on past check-in dates *)
(* ===================================================================== *)

Lemma CalculatePointCost_past_iff w now roomID checkIn checkOut :
  bookingService.CalculatePointCost w now roomID checkIn checkOut
  = Err (New "check-in date cannot be in the past")
  <-> startOfDay checkIn <= startOfDay checkOut
      /\ startOfDay checkIn < now - nsPerDay.
Proof.
  unfold bookingService.CalculatePointCost, hotelRepository.FindRoomByID.
  unfold After, Before, AddDate.
  destruct (Z.ltb_spec (startOfDay checkOut) (startOfDay checkIn)) as [Ha|Ha].
  { split; [discriminate | lia]. }
  destruct (Z.ltb_spec (startOfDay checkIn) (now + -1 * nsPerDay)) as [Hb|Hb].
  { split; [lia | reflexivity]. }
  split; [|lia].
  destruct (find_one _ _); [|discriminate].
  destruct (negb _); discriminate.
Qed.

(** C8, as the code has it.  [CalculatePointCost] returns the "in the past"
    error exactly when the check-in day does not come after the check-out
    day and its midnight is earlier than the instant one day before the
    call.  So the error is never returned for a check-in of today or later;
    it is returned for a check-in two or more days back (check-out not
    before check-in); and for a check-in of yesterday it is returned unless
    the call is made at midnight sharp. *)
Theorem C8_past_guard (w : World) (now : Time) (roomID : ObjectID)
    (checkIn checkOut : Time) :
  let past := Err (New "check-in date cannot be in the past") in
  let r := bookingService.CalculatePointCost w now roomID checkIn checkOut in
  (r = past <-> startOfDay checkIn <= startOfDay checkOut
                /\ startOfDay checkIn < AddDate now (-1))
  /\ (dayOf now <= dayOf checkIn -> r <> past)
  /\ (dayOf checkIn <= dayOf now - 2 -> dayOf checkIn <= dayOf checkOut ->
      r = past)
  /\ (dayOf checkIn = dayOf now - 1 -> dayOf checkIn <= dayOf checkOut ->
      (r = past <-> now <> startOfDay now)).
Proof.
  intros past r. subst past r.
  rewrite CalculatePointCost_past_iff.
  split; [unfold AddDate; lia|]. split; [|split].
  - intros H. time_lia.
  - intros H1 H2. time_lia.
  - intros H1 H2. time_lia.
Qed.

Lemma C8_past_guard_witness :
  bookingService.CalculatePointCost hotel_world dec20_noon 3%N
    (midnight 20440) (midnight 20443)
  = Err (New "check-in date cannot be in the past").
Proof.
  destruct (C8_past_guard hotel_world dec20_noon 3%N (midnight 20440)
              (midnight 20443)) as (_ & _ & H & _).
  apply H; vm_compute; discriminate.
Defined.

(** The claim as the specification words it fails: at noon, a check-in of
    yesterday is refused as being in the past. *)
Lemma C8_counterexample :
  ~ (forall w now roomID checkIn checkOut,
        dayOf now - 1 <= dayOf checkIn ->
        bookingService.CalculatePointCost w now roomID checkIn checkOut
        <> Err (New "check-in date cannot be in the past")).
Proof.
  intros H.
  apply (H hotel_world dec20_noon 3%N (midnight 20441) (midnight 20443)).
  - vm_compute. discriminate.
  - reflexivity.
Qed.

(* ===================================================================== *)
(** ** CreateBooking *)
(* ===================================================================== *)

Unset Implicit Arguments.

Ltac unfold_monad :=
  unfold bind, ret, fail, read, write, on_error, ignore_error, NewObjectID.

Lemma in_intb_true z : in_int z -> in_intb z = true.
Proof. apply in_intb_spec. Qed.

(** The debit or credit of a user that exists and whose new balance is an
    [int]. *)
Lemma UpdatePointBalance_found now userID points w u :
  userRepository.FindByID w userID = Ok u ->
  in_int (User.PointBalance u + points) ->
  exists us,
    userRepository.UpdatePointBalance now userID points w = (Ok tt, set_users us w)
    /\ find_one (fun x => N.eqb (User.ID x) userID) us
       = Some (credited now points u).
Proof.
  unfold userRepository.FindByID, find_one. intros Hf Hint.
  destruct (find _ (users w)) as [u0|] eqn:Hu; [|discriminate].
  injection Hf as ->.
  destruct (update_one_found (fun x => N.eqb (User.ID x) userID)
              (userRepository.inc_point_balance now points) _ Hu
              (x' := credited now points u))
    as (us & Hup & _ & Hfind).
  { unfold userRepository.inc_point_balance. now rewrite in_intb_true. }
  exists us. unfold userRepository.UpdatePointBalance, write. rewrite Hup.
  split; [reflexivity|]. apply Hfind. simpl.
  apply find_some in Hu. tauto.
Qed.

Lemma CreatePointTransaction_fresh now t w :
  (forall x, In x (point_transactions w) ->
             PointTransaction.ID x <> PointTransaction.ID t) ->
  userRepository.CreatePointTransaction now t w
  = (Ok tt,
     set_point_transactions
       (point_transactions w
        ++ [PointTransaction.mk (PointTransaction.ID t) (PointTransaction.UserID t)
              (PointTransaction.Amount t) (PointTransaction.Type_ t)
              (PointTransaction.Reference t) now]) w).
Proof.
  intros H. unfold userRepository.CreatePointTransaction, write.
  rewrite insert_one_fresh; [reflexivity | exact H].
Qed.

(** A call of [CreateBooking] that returns a booking has passed every check,
    stored the booking, debited the user and recorded the debit. *)
Lemma CreateBooking_Ok now userID hotelID roomID checkIn checkOut w b w' :
  fresh_oids w ->
  bookingService.CreateBooking now userID hotelID roomID checkIn checkOut w
  = (Ok b, w') ->
  exists user pointCost us,
    userRepository.FindByID w userID = Ok user
    /\ bookingService.CalculatePointCost w now roomID (atHour checkIn 14)
         (atHour checkOut 12) = Ok pointCost
    /\ pointCost <= User.PointBalance user
    /\ b = newBooking w now userID hotelID roomID checkIn checkOut pointCost
    /\ find_one (fun x => N.eqb (Booking.ID x) (next_oid w)) (bookings w) = None
    /\ update_one (fun x => N.eqb (User.ID x) userID)
         (userRepository.inc_point_balance now (int_neg pointCost)) (users w)
       = Ok us
    /\ w' = mkWorld us (hotels w) (rooms w) (bookings w ++ [b])
              (point_transactions w ++ [deduction w now userID pointCost])
              (date_rules w) (room_availability w) (N.succ (N.succ (next_oid w))).
Proof.
  intros (Hpos & Hb & Ht).
  unfold bookingService.CreateBooking. unfold_monad.
  destruct (userRepository.FindByID w userID) as [user|] eqn:Hu; [|discriminate].
  destruct (hotelRepository.FindByID w hotelID) as [h|] eqn:Hh; [|discriminate].
  destruct (hotelRepository.FindRoomByID w roomID) as [room|] eqn:Hr; [|discriminate].
  simpl. destruct (negb _) eqn:Hroom; [discriminate|].
  destruct (bookingService.CalculatePointCost _ _ _ _ _) as [pointCost|] eqn:Hc;
    [|discriminate].
  destruct (Z.ltb_spec (User.PointBalance user) pointCost) as [Hlt|Hge];
    [discriminate|].
  unfold bookingRepository.Create. unfold_monad. simpl.
  assert (Hz : IsZero (next_oid w) = false).
  { unfold IsZero. apply N.eqb_neq. lia. }
  rewrite Hz. simpl.
  assert (Hnow : (if Time_IsZero now then now else now) = now)
    by (destruct (Time_IsZero now); reflexivity).
  rewrite Hnow.
  rewrite insert_one_fresh
    by (intros y Hy; apply Hb in Hy; simpl; lia).
  simpl. unfold userRepository.UpdatePointBalance at 1. unfold write. simpl.
  destruct (update_one _ _ (users w)) as [us|] eqn:Hup; [|discriminate].
  simpl.
  rewrite CreatePointTransaction_fresh
    by (simpl; intros x Hx; apply Ht in Hx; lia).
  simpl. intros [= <- <-].
  exists user, pointCost, us. repeat split; auto.
  apply find_absent. intros y Hy. apply Hb in Hy. apply N.eqb_neq. lia.
Qed.

(** Conversely, a request that passes the checks of [CreateBooking] and
    whose debit stays in the range of an [int] is served. *)
Lemma CreateBooking_run now userID hotelID roomID checkIn checkOut w
    user hotel room pointCost :
  fresh_oids w ->
  userRepository.FindByID w userID = Ok user ->
  hotelRepository.FindByID w hotelID = Ok hotel ->
  hotelRepository.FindRoomByID w roomID = Ok room ->
  Room.HotelID room = hotelID ->
  bookingService.CalculatePointCost w now roomID (atHour checkIn 14)
    (atHour checkOut 12) = Ok pointCost ->
  pointCost <= User.PointBalance user ->
  in_int (User.PointBalance user + int_neg pointCost) ->
  exists us,
    bookingService.CreateBooking now userID hotelID roomID checkIn checkOut w
    = (Ok (newBooking w now userID hotelID roomID checkIn checkOut pointCost),
       mkWorld us (hotels w) (rooms w)
         (bookings w
          ++ [newBooking w now userID hotelID roomID checkIn checkOut pointCost])
         (point_transactions w ++ [deduction w now userID pointCost])
         (date_rules w) (room_availability w) (N.succ (N.succ (next_oid w))))
    /\ find_one (fun x => N.eqb (User.ID x) userID) us
       = Some (credited now (int_neg pointCost) user).
Proof.
  intros (Hpos & Hb & Ht) Hu Hh Hr Hroom Hc Hle Hint.
  unfold bookingService.CreateBooking. unfold_monad.
  rewrite Hu, Hh, Hr. simpl. rewrite Hroom, N.eqb_refl. simpl. rewrite Hc.
  destruct (Z.ltb_spec (User.PointBalance user) pointCost) as [Hlt|_]; [lia|].
  unfold bookingRepository.Create. unfold_monad. simpl.
  assert (Hz : IsZero (next_oid w) = false).
  { unfold IsZero. apply N.eqb_neq. lia. }
  rewrite Hz. simpl.
  assert (Hnow : (if Time_IsZero now then now else now) = now)
    by (destruct (Time_IsZero now); reflexivity).
  rewrite Hnow.
  rewrite insert_one_fresh
    by (intros y Hy; apply Hb in Hy; simpl; lia).
  simpl.
  match goal with
  | |- context [userRepository.UpdatePointBalance now userID ?p ?w0] =>
      destruct (UpdatePointBalance_found now userID p w0 user)
        as (us & Hup & Hfind); [exact Hu | exact Hint |]
  end.
  rewrite Hup. simpl.
  rewrite CreatePointTransaction_fresh
    by (simpl; intros x Hx; apply Ht in Hx; lia).
  exists us. split; [reflexivity | exact Hfind].
Qed.

(** C5. When the user's balance is below the computed cost of the stay,
    [CreateBooking] fails with the insufficient-balance error and leaves the
    store as it was: same balance, no booking, no transaction. *)
Theorem C5_insufficient_balance_rejected :
  forall now userID hotelID roomID checkIn checkOut w user hotel room pointCost,
    userRepository.FindByID w userID = Ok user ->
    hotelRepository.FindByID w hotelID = Ok hotel ->
    hotelRepository.FindRoomByID w roomID = Ok room ->
    Room.HotelID room = hotelID ->
    bookingService.CalculatePointCost w now roomID (atHour checkIn 14)
      (atHour checkOut 12) = Ok pointCost ->
    User.PointBalance user < pointCost ->
    bookingService.CreateBooking now userID hotelID roomID checkIn checkOut w
    = (Err (New "insufficient point balance"), w).
Proof.
  intros now userID hotelID roomID checkIn checkOut w user hotel room pointCost
         Hu Hh Hr Hroom Hc Hlt.
  unfold bookingService.CreateBooking. unfold_monad.
  rewrite Hu, Hh, Hr. simpl. rewrite Hroom, N.eqb_refl. simpl. rewrite Hc.
  destruct (Z.ltb_spec (User.PointBalance user) pointCost); [reflexivity | lia].
Qed.

(** Scenario D: one point does not pay for the two nights of 22 and 23
    December 2025. *)
Lemma C5_insufficient_balance_rejected_witness :
  bookingService.CreateBooking dec20_noon 5%N 2%N 3%N (midnight 20444)
    (midnight 20446) bob_world
  = (Err (New "insufficient point balance"), bob_world).
Proof.
  apply (@C5_insufficient_balance_rejected dec20_noon 5%N 2%N 3%N
           (midnight 20444) (midnight 20446) bob_world bob hotel1 room1 2);
    reflexivity.
Defined.

(* ===================================================================== *)
(** ** CancelBooking *)
(* ===================================================================== *)

(** The authorisation check of [CancelBooking] lets the owner and the
    admins through. *)
Lemma may_cancel_passes w b userID :
  may_cancel w b userID ->
  (if negb (N.eqb (Booking.UserID b) userID) then
     read (fun w =>
             match userRepository.FindByID w userID with
             | Ok user =>
                 if negb (User.Role user =? RoleAdmin)%string then
                   Err (New "unauthorized to cancel this booking")
                 else Ok tt
             | Err _ => Err (New "unauthorized to cancel this booking")
             end)
   else ret tt) w = (Ok tt, w).
Proof.
  intros H. destruct (N.eqb_spec (Booking.UserID b) userID) as [E|E]; simpl;
    [reflexivity|].
  destruct H as [H | (user & Hu & Hrole)]; [contradiction|].
  unfold read. rewrite Hu, Hrole. reflexivity.
Qed.

Lemma UpdateStatus_found id status w b :
  bookingRepository.valid_status status = true ->
  bookingRepository.FindByID w id = Ok b ->
  exists bs,
    bookingRepository.UpdateStatus id status w = (Ok tt, set_bookings bs w)
    /\ update_one (fun x => N.eqb (Booking.ID x) id)
         (fun x => Ok (Booking.with_Status status x)) (bookings w) = Ok bs
    /\ find_one (fun x => N.eqb (Booking.ID x) id) bs
       = Some (Booking.with_Status status b).
Proof.
  intros Hv Hf. unfold bookingRepository.UpdateStatus. rewrite Hv. simpl.
  unfold bookingRepository.FindByID, find_one in Hf.
  destruct (find _ (bookings w)) as [x|] eqn:Hx; [|discriminate].
  injection Hf as ->.
  destruct (update_one_found (fun x => N.eqb (Booking.ID x) id)
              (fun x => Ok (Booking.with_Status status x)) _ Hx eq_refl)
    as (bs & Hup & _ & Hfind).
  exists bs. unfold write. rewrite Hup. repeat split; auto.
  apply Hfind. simpl. apply find_some in Hx. tauto.
Qed.

(** A cancellation that passes the checks of [CancelBooking]. *)
Lemma CancelBooking_run now id userID w b u :
  bookingRepository.FindByID w id = Ok b ->
  may_cancel w b userID ->
  Booking.Status b <> "cancelled" ->
  Booking.Status b <> "completed" ->
  24 * Hour <= Booking.CheckIn b - now ->
  userRepository.FindByID w (Booking.UserID b) = Ok u ->
  in_int (User.PointBalance u + Booking.PointCost b) ->
  (forall t, In t (point_transactions w) -> PointTransaction.ID t <> next_oid w) ->
  exists us bs,
    bookingService.CancelBooking now id userID w
    = (Ok tt,
       mkWorld us (hotels w) (rooms w) bs
         (point_transactions w ++ [refund w now b])
         (date_rules w) (room_availability w) (N.succ (next_oid w)))
    /\ find_one (fun x => N.eqb (Booking.ID x) id) bs
       = Some (Booking.with_Status "cancelled" b)
    /\ find_one (fun x => N.eqb (User.ID x) (Booking.UserID b)) us
       = Some (credited now (Booking.PointCost b) u).
Proof.
  intros Hb Hauth Hs1 Hs2 Htime Hu Hint Hfresh.
  unfold bookingService.CancelBooking. unfold bind at 1. unfold read at 1.
  rewrite Hb. unfold bind at 1. rewrite (may_cancel_passes w b userID Hauth).
  apply String.eqb_neq in Hs1, Hs2. rewrite Hs1, Hs2, Until_lt_24h.
  destruct (Z.ltb_spec (Booking.CheckIn b - now) (24 * Hour)) as [Hlt|_]; [lia|].
  destruct (UpdateStatus_found id "cancelled" w b eq_refl Hb) as (bs & Hup & _ & Hfb).
  unfold bind at 1. rewrite Hup.
  destruct (UpdatePointBalance_found now (Booking.UserID b) (Booking.PointCost b)
              (set_bookings bs w) u Hu Hint) as (us & Hupd & Hfu).
  unfold bind at 1. rewrite Hupd.
  unfold_monad. simpl.
  rewrite CreatePointTransaction_fresh by (simpl; exact Hfresh).
  exists us, bs. repeat split; auto.
Qed.



(* ===================================================================== *)
(** ** Booking and cancelling *)
(* ===================================================================== *)

Lemma CalculatePointCost_in_int w now roomID checkIn checkOut total :
  bookingService.CalculatePointCost w now roomID checkIn checkOut = Ok total ->
  in_int total.
Proof.
  intros H. apply CalculatePointCost_Ok in H as (_ & _ & _ & _ & ->).
  apply wrap_in_int.
Qed.

Lemma inc_point_balance_Ok now points u u' :
  userRepository.inc_point_balance now points u = Ok u' ->
  u' = credited now points u /\ in_int (User.PointBalance u + points).
Proof.
  unfold userRepository.inc_point_balance.
  destruct (in_intb _) eqn:E; [|discriminate].
  intros [= <-]. split; [reflexivity | now apply in_intb_spec].
Qed.

(** C3. Round trip.  A user books a stay and, at a time when the check-in
    is still 24 hours or more away, cancels the booking: the cancellation
    succeeds, the user's balance is again what it was before the booking, and
    the transactions of the store are those of before followed by exactly
    two, the debit of the booking's cost (type "booking_deduction") and the
    credit of the same amount (type "booking_refund"), both with the
    booking's id as reference.  (Balances and costs are Go [int]s; the cost
    is not the one [int] whose opposite is not an [int].) *)
Theorem C3_create_then_cancel_roundtrip :
  forall now1 now2 userID hotelID roomID checkIn checkOut w b w1 user,
    fresh_oids w ->
    userRepository.FindByID w userID = Ok user ->
    in_int (User.PointBalance user) ->
    bookingService.CreateBooking now1 userID hotelID roomID checkIn checkOut w
    = (Ok b, w1) ->
    Booking.PointCost b <> min_int ->
    24 * Hour <= Booking.CheckIn b - now2 ->
    exists w2 user2,
      bookingService.CancelBooking now2 (Booking.ID b) userID w1 = (Ok tt, w2)
      /\ userRepository.FindByID w2 userID = Ok user2
      /\ User.PointBalance user2 = User.PointBalance user
      /\ point_transactions w2
         = point_transactions w
           ++ [PointTransaction.mk (N.succ (next_oid w)) userID
                 (- Booking.PointCost b) "booking_deduction"
                 (Hex (Booking.ID b)) now1;
               PointTransaction.mk (N.succ (N.succ (next_oid w))) userID
                 (Booking.PointCost b) "booking_refund"
                 (Hex (Booking.ID b)) now2]
      /\ bookingRepository.FindByID w2 (Booking.ID b)
         = Ok (Booking.with_Status "cancelled" b).
Proof.
  intros now1 now2 userID hotelID roomID checkIn checkOut w b w1 user
         Hfresh Hu Hbal Hcreate Hcost Htime.
  destruct (CreateBooking_Ok _ _ _ _ _ _ _ _ _ Hfresh Hcreate)
    as (user' & pointCost & us & Hu' & Hc & Hle & Hb & Hnone & Hup & Hw1).
  rewrite Hu in Hu'. injection Hu' as <-.
  assert (Hpc : Booking.PointCost b = pointCost) by (subst b; reflexivity).
  rewrite Hpc in *.
  pose proof (CalculatePointCost_in_int _ _ _ _ _ _ Hc) as Hcint.
  pose proof (int_neg_id Hcint Hcost) as Hneg.
  (* the user after the debit *)
  assert (Hfu : find (fun x => N.eqb (User.ID x) userID) (users w) = Some user).
  { unfold userRepository.FindByID, find_one in Hu.
    destruct (find _ (users w)); [congruence | discriminate]. }
  destruct (update_one_Ok_found _ _ _ Hfu Hup) as (u1 & Hinc & _ & Hfind1).
  apply inc_point_balance_Ok in Hinc as [-> Hint1].
  assert (Hu1 : userRepository.FindByID w1 userID
                = Ok (credited now1 (int_neg pointCost) user)).
  { subst w1. unfold userRepository.FindByID, find_one. simpl.
    rewrite Hfind1; [reflexivity|]. simpl. apply find_some in Hfu. tauto. }
  (* the booking as stored *)
  assert (Hb1 : bookingRepository.FindByID w1 (Booking.ID b) = Ok b).
  { subst w1. unfold bookingRepository.FindByID, find_one. simpl.
    assert (Hid : Booking.ID b = next_oid w) by (subst b; reflexivity).
    rewrite Hid. unfold find_one in Hnone.
    rewrite (find_app_fresh _ _ b Hnone); [reflexivity|].
    rewrite Hid. apply N.eqb_refl. }
  destruct Hfresh as (Hpos & Hbs & Hts).
  destruct (CancelBooking_run now2 (Booking.ID b) userID w1 b
              (credited now1 (int_neg pointCost) user))
    as (us2 & bs2 & Hrun & Hfb & Hfu2); auto.
  - left. subst b. reflexivity.
  - subst b. discriminate.
  - subst b. discriminate.
  - replace (Booking.UserID b) with userID by (subst b; reflexivity). exact Hu1.
  - rewrite Hpc, Hneg. simpl.
    replace (User.PointBalance user + - pointCost + pointCost)
      with (User.PointBalance user) by lia.
    exact Hbal.
  - subst w1. simpl. intros t Ht. apply in_app_or in Ht as [Ht | [<- | []]].
    + apply Hts in Ht. lia.
    + simpl. lia.
  - eexists. eexists. split; [exact Hrun|].
    assert (Huid : Booking.UserID b = userID) by (subst b; reflexivity).
    rewrite Huid in Hfu2.
    unfold userRepository.FindByID, bookingRepository.FindByID. simpl.
    rewrite Hfu2, Hfb. split; [reflexivity|]. split.
    + rewrite Hpc, Hneg. simpl. lia.
    + split; [|reflexivity].
      subst w1. simpl. rewrite <- app_assoc. simpl.
      unfold deduction, refund. simpl. rewrite Hneg, Huid, Hpc.
      subst b. reflexivity.
Qed.

Lemma C3_create_then_cancel_roundtrip_witness :
  exists w2 user2,
    bookingService.CancelBooking dec20_noon 100%N 1%N booked_world = (Ok tt, w2)
    /\ userRepository.FindByID w2 1%N = Ok user2
    /\ User.PointBalance user2 = 10
    /\ point_transactions w2
       = [PointTransaction.mk 101%N 1%N (-4) "booking_deduction"
            "000000000000000000000064" dec20_noon;
          PointTransaction.mk 102%N 1%N 4 "booking_refund"
            "000000000000000000000064" dec20_noon]
    /\ bookingRepository.FindByID w2 100%N
       = Ok (Booking.with_Status "cancelled" ann_booking).
Proof.
  apply (C3_create_then_cancel_roundtrip dec20_noon dec20_noon 1%N 2%N 3%N
           (midnight 20446) (midnight 20448) hotel_world ann_booking
           booked_world ann).
  - split; [reflexivity | split; [intros ? [] | intros ? []]].
  - reflexivity.
  - vm_compute. split; discriminate.
  - reflexivity.
  - discriminate.
  - vm_compute. discriminate.
Defined.

(* ===================================================================== *)
(** ** UpdateBookingStatus *)
(* ===================================================================== *)

Lemma update_one_Forall2 {A} (R : A -> A -> Prop) (p : A -> bool)
    (f : A -> result A) :
  (forall x, R x x) ->
  (forall x x', f x = Ok x' -> R x x') ->
  forall c c', update_one p f c = Ok c' -> Forall2 R c c'.
Proof.
  intros Hrefl Hf. induction c as [|y c IH]; simpl; intros c'.
  - intros [= <-]. constructor.
  - destruct (p y).
    + destruct (f y) as [y'|] eqn:Hy; [|discriminate].
      intros [= <-]. constructor; [auto|].
      clear IH. induction c; constructor; auto.
    + destruct (update_one p f c) as [c''|]; [|discriminate].
      intros [= <-]. constructor; auto.
Qed.

Lemma same_but_status_refl x : same_but_status x x.
Proof. unfold same_but_status. tauto. Qed.

Lemma same_but_status_with_Status status x :
  same_but_status x (Booking.with_Status status x).
Proof. unfold same_but_status. simpl. tauto. Qed.

(** A status change that neither leaves nor enters "cancelled" (or stays
    in it) only rewrites the status of the booking. *)
Lemma UpdateBookingStatus_plain now id status w w' b :
  bookingRepository.FindByID w id = Ok b ->
  (Booking.Status b =? "cancelled")%string = (status =? "cancelled")%string ->
  bookingService.UpdateBookingStatus now id status w = (Ok tt, w') ->
  exists bs,
    w' = set_bookings bs w
    /\ Forall2 same_but_status (bookings w) bs
    /\ find_one (fun x => N.eqb (Booking.ID x) id) bs
       = Some (Booking.with_Status status b).
Proof.
  intros Hb Hsame. unfold bookingService.UpdateBookingStatus.
  destruct (negb (status =? "pending")%string && _ && _ && _) eqn:Hvalid;
    [discriminate|].
  assert (Hv : bookingRepository.valid_status status = true)
    by (unfold bookingRepository.valid_status; now rewrite Hvalid).
  clear Hvalid.
  unfold bind at 1. unfold read at 1. rewrite Hb. rewrite Hsame.
  destruct (UpdateStatus_found id status w b Hv Hb) as (bs & Hrun & Hupd & Hfind).
  destruct (status =? "cancelled")%string; simpl; unfold bind, ret; simpl;
    rewrite Hrun; intros [= <-]; exists bs; repeat split; auto;
    (eapply update_one_Forall2; [ | | exact Hupd];
     [ apply same_but_status_refl
     | intros x x' [= <-]; apply same_but_status_with_Status ]).
Qed.

(** C7. After a successful [UpdateBookingStatus] in which neither the
    booking's current status nor the new one is "cancelled", the users (so
    every balance) and the transactions are as before, and every booking
    has kept its id, user, hotel, room, dates, point cost and creation time,
    the target having the new status.  The ledger (users or transactions)
    changes only in a transition from "cancelled" to another status or
    from another status to "cancelled". *)
Theorem C7_status_update_frame :
  forall now id status w w' b,
    bookingRepository.FindByID w id = Ok b ->
    bookingService.UpdateBookingStatus now id status w = (Ok tt, w') ->
    (Booking.Status b <> "cancelled" -> status <> "cancelled" ->
     users w' = users w
     /\ point_transactions w' = point_transactions w
     /\ Forall2 same_but_status (bookings w) (bookings w')
     /\ bookingRepository.FindByID w' id = Ok (Booking.with_Status status b))
    /\ (users w' <> users w \/ point_transactions w' <> point_transactions w ->
        (Booking.Status b = "cancelled" /\ status <> "cancelled")
        \/ (Booking.Status b <> "cancelled" /\ status = "cancelled")).
Proof.
  intros now id status w w' b Hb Hrun. split.
  - intros H1 H2. apply String.eqb_neq in H1, H2.
    destruct (UpdateBookingStatus_plain now id status w w' b Hb) as (bs & -> & HF & Hf);
      [congruence | exact Hrun |].
    unfold bookingRepository.FindByID. simpl. rewrite Hf. auto.
  - intros Hchanged.
    destruct (String.eqb_spec (Booking.Status b) "cancelled") as [E1|E1];
      destruct (String.eqb_spec status "cancelled") as [E2|E2]; auto;
      exfalso.
    + destruct (UpdateBookingStatus_plain now id status w w' b Hb) as (bs & -> & _);
        [rewrite E1, E2; reflexivity | exact Hrun |].
      simpl in Hchanged. tauto.
    + apply String.eqb_neq in E1, E2.
      destruct (UpdateBookingStatus_plain now id status w w' b Hb) as (bs & -> & _);
        [congruence | exact Hrun |].
      simpl in Hchanged. tauto.
Qed.

Lemma C7_status_update_frame_witness :
  let w' := snd (bookingService.UpdateBookingStatus dec24_4am 100%N "completed"
                   booked_world) in
  users w' = users booked_world
  /\ point_transactions w' = point_transactions booked_world
  /\ Forall2 same_but_status (bookings booked_world) (bookings w')
  /\ bookingRepository.FindByID w' 100%N
     = Ok (Booking.with_Status "completed" ann_booking).
Proof.
  apply (C7_status_update_frame dec24_4am 100%N "completed" booked_world _
           ann_booking); [reflexivity | reflexivity | discriminate | discriminate].
Defined.

(* ===================================================================== *)
(** ** SetSpecialDate: one rule per calendar date *)
(* ===================================================================== *)

Lemma rule_window d x :
  ((startOfDay (startOfDay d) <=? x) && (x <=? endOfDay (endOfDay (startOfDay d))))
  = (dayOf x =? dayOf d).
Proof.
  apply eq_true_iff_eq.
  rewrite andb_true_iff, !Z.leb_le, Z.eqb_eq. time_lia.
Qed.

Lemma filter_ext_eq {A} (p q : A -> bool) (l : list A) :
  (forall x, p x = q x) -> filter p l = filter q l.
Proof.
  intros H. induction l as [|x l IH]; simpl; [reflexivity|].
  rewrite H, IH. reflexivity.
Qed.

(** With distinct keys a query by key has at most one answer, the one
    [find] returns. *)
Lemma filter_unique {A} (key : A -> Z) (k : Z) :
  forall docs,
    NoDup (map key docs) ->
    filter (fun x => key x =? k) docs
    = match find (fun x => key x =? k) docs with
      | Some x => [x]
      | None => []
      end.
Proof.
  induction docs as [|x docs IH]; simpl; intros H; [reflexivity|].
  inversion H as [|? ? Hx Hnd]; subst.
  destruct (Z.eqb_spec (key x) k) as [E|E]; [|auto].
  f_equal. rewrite IH by assumption.
  rewrite find_absent; [reflexivity|].
  intros y Hy. apply Z.eqb_neq. intros Ey. apply Hx.
  rewrite E, <- Ey. now apply in_map.
Qed.

(** The rules [SetSpecialDate] finds for the day of [d]. *)
Lemma FindDateRules_day w d :
  one_rule_per_day (date_rules w) ->
  dateRepository.FindDateRules w (startOfDay d) (endOfDay (startOfDay d))
  = match ruleForDate w d with
    | Some r => [r]
    | None => []
    end.
Proof.
  intros H. unfold dateRepository.FindDateRules, ruleForDate.
  rewrite (filter_ext_eq _ (fun r => dayOf (DateRule.Date r) =? dayOf d))
    by (intros r; apply rule_window).
  rewrite (filter_unique (fun r => dayOf (DateRule.Date r)) (dayOf d) _ H).
  destruct (find _ _); reflexivity.
Qed.

(** [UpdateDateRule] keeps every rule's id and date. *)
Lemma UpdateDateRule_Ok rule w :
  exists rules,
    dateRepository.UpdateDateRule rule w = (Ok tt, set_date_rules rules w)
    /\ map DateRule.ID rules = map DateRule.ID (date_rules w)
    /\ map DateRule.Date rules = map DateRule.Date (date_rules w)
    /\ update_one (fun r => N.eqb (DateRule.ID r) (DateRule.ID rule))
         (fun r => Ok (DateRule.mk (DateRule.ID r) (DateRule.Date r)
                         (DateRule.Type_ rule) (DateRule.PointCost rule)
                         (DateRule.Name rule)))
         (date_rules w) = Ok rules.
Proof.
  unfold dateRepository.UpdateDateRule, write.
  generalize (date_rules w) as c. intros c.
  assert (H : exists rules,
             update_one (fun r => N.eqb (DateRule.ID r) (DateRule.ID rule))
               (fun r => Ok (DateRule.mk (DateRule.ID r) (DateRule.Date r)
                               (DateRule.Type_ rule) (DateRule.PointCost rule)
                               (DateRule.Name rule))) c = Ok rules
             /\ map DateRule.ID rules = map DateRule.ID c
             /\ map DateRule.Date rules = map DateRule.Date c).
  { induction c as [|x c (rules & Hu & Hi & Hd)]; simpl.
    - exists []. auto.
    - destruct (N.eqb _ _).
      + eexists. split; [reflexivity|]. simpl. auto.
      + rewrite Hu. eexists. split; [reflexivity|]. simpl. split; congruence. }
  destruct H as (rules & Hu & Hi & Hd). exists rules. rewrite Hu. auto.
Qed.

Lemma find_by_id_unique (rules : list DateRule.t) (r : DateRule.t) :
  NoDup (map DateRule.ID rules) -> In r rules ->
  find (fun x => N.eqb (DateRule.ID x) (DateRule.ID r)) rules = Some r.
Proof.
  induction rules as [|x rules IH]; simpl; intros Hnd Hin; [contradiction|].
  inversion Hnd as [|? ? Hx Hl]; subst.
  destruct Hin as [-> | Hin].
  - now rewrite N.eqb_refl.
  - destruct (N.eqb_spec (DateRule.ID x) (DateRule.ID r)) as [E|_]; [|auto].
    exfalso. apply Hx. rewrite E. now apply in_map.
Qed.

Lemma valid_rule_passes rule :
  valid_rule rule ->
  Time_IsZero (DateRule.Date rule) || (DateRule.Type_ rule =? "")%string
  || (DateRule.PointCost rule <=? 0) || (3 <? DateRule.PointCost rule) = false.
Proof.
  intros (Hz & Ht & Hc). apply String.eqb_neq in Ht. rewrite Hz, Ht. simpl.
  destruct (Z.leb_spec (DateRule.PointCost rule) 0); [lia|].
  destruct (Z.ltb_spec 3 (DateRule.PointCost rule)); [lia|]. reflexivity.
Qed.

(** The store after [SetSpecialDate], whatever it returns: the rules are
    those of before with the same dates, or those of before followed by one
    rule of a day that had none. *)
Lemma SetSpecialDate_rules rule w r w' :
  one_rule_per_day (date_rules w) ->
  dateService.SetSpecialDate rule w = (r, w') ->
  map DateRule.Date (date_rules w') = map DateRule.Date (date_rules w)
  \/ (ruleForDate w (DateRule.Date rule) = None
      /\ exists new, date_rules w' = date_rules w ++ [new]
                     /\ DateRule.Date new = startOfDay (DateRule.Date rule)).
Proof.
  intros Hone. unfold dateService.SetSpecialDate.
  destruct (_ || _ || _ || _); [intros [= <- <-]; auto|].
  unfold bind at 1.
  destruct (IsZero (DateRule.ID rule)); unfold NewObjectID, ret;
    unfold bind at 1; unfold read at 1;
    rewrite (FindDateRules_day _ (DateRule.Date rule)) by (simpl; exact Hone);
    simpl;
    (destruct (ruleForDate _ (DateRule.Date rule)) as [existing|] eqn:Hr;
     [ match goal with
       | |- dateRepository.UpdateDateRule ?x ?w0 = _ -> _ =>
           destruct (UpdateDateRule_Ok x w0) as (rules & -> & _ & Hd & _)
       end;
       intros [= <- <-]; left; exact Hd
     | unfold dateRepository.CreateDateRule, write, insert_one; simpl;
       destruct (existsb _ _); intros [= <- <-]; simpl; eauto ]).
Qed.

Lemma ruleForDate_set_next_oid n w d :
  ruleForDate (set_next_oid n w) d = ruleForDate w d.
Proof. reflexivity. Qed.

(** C9. From a store with at most one rule per calendar date,
    [SetSpecialDate] leads to a store with at most one rule per calendar
    date.  Given an acceptable rule: when the day already has a rule, that
    rule is updated in place, keeping its id and date and taking the type,
    cost and name of the request, and the number of rules, their ids and
    their dates are as before; when the day has no rule, exactly one rule is
    added, for that day. *)
Theorem C9_one_rule_per_day_preserved :
  forall rule w r w',
    one_rule_per_day (date_rules w) ->
    dateService.SetSpecialDate rule w = (r, w') ->
    one_rule_per_day (date_rules w')
    /\ (valid_rule rule ->
        forall existing,
          ruleForDate w (DateRule.Date rule) = Some existing ->
          NoDup (map DateRule.ID (date_rules w)) ->
          r = Ok tt
          /\ List.length (date_rules w') = List.length (date_rules w)
          /\ map DateRule.ID (date_rules w') = map DateRule.ID (date_rules w)
          /\ map DateRule.Date (date_rules w') = map DateRule.Date (date_rules w)
          /\ ruleForDate w' (DateRule.Date rule)
             = Some (DateRule.mk (DateRule.ID existing) (DateRule.Date existing)
                       (DateRule.Type_ rule) (DateRule.PointCost rule)
                       (DateRule.Name rule)))
    /\ (valid_rule rule ->
        ruleForDate w (DateRule.Date rule) = None ->
        (forall x, In x (date_rules w) -> DateRule.ID x <> rule_id w rule) ->
        r = Ok tt
        /\ date_rules w'
           = date_rules w
             ++ [DateRule.mk (rule_id w rule) (startOfDay (DateRule.Date rule))
                   (DateRule.Type_ rule) (DateRule.PointCost rule)
                   (DateRule.Name rule)]).
Proof.
  intros rule w r w' Hone Hrun. split; [|split].
  - destruct (SetSpecialDate_rules rule w r w' Hone Hrun)
      as [Hd | (Hnone & new & -> & Hnew)]; unfold one_rule_per_day in *.
    + rewrite <- (map_map DateRule.Date dayOf), Hd, map_map. exact Hone.
    + rewrite map_app. simpl.
      apply NoDup_rev in Hone. rewrite <- (rev_involutive (_ ++ _)).
      apply NoDup_rev. rewrite rev_app_distr. simpl. constructor; [|exact Hone].
      rewrite <- in_rev. intros Hin.
      apply in_map_iff in Hin as (x & Hx & Hin).
      unfold ruleForDate in Hnone.
      pose proof (find_none _ _ Hnone x Hin) as Hf. simpl in Hf.
      rewrite Hnew, dayOf_startOfDay in Hx. apply Z.eqb_neq in Hf. auto.
  - intros Hvalid existing Hex Hids. revert Hrun.
    unfold dateService.SetSpecialDate. rewrite (valid_rule_passes rule Hvalid).
    unfold bind at 1.
    assert (Hin : In existing (date_rules w)).
    { unfold ruleForDate in Hex. apply find_some in Hex. tauto. }
    pose proof (find_by_id_unique _ _ Hids Hin) as Hfid.
    destruct (IsZero (DateRule.ID rule)); unfold NewObjectID, ret;
      unfold bind at 1; unfold read at 1;
      rewrite (FindDateRules_day _ (DateRule.Date rule)) by (simpl; exact Hone);
      rewrite ?ruleForDate_set_next_oid, Hex;
      match goal with
      | |- dateRepository.UpdateDateRule ?x ?w0 = _ -> _ =>
          destruct (UpdateDateRule_Ok x w0) as (rules & -> & Hi & Hd & Hu)
      end;
      intros [= <- <-]; simpl in *;
      (split; [reflexivity|]);
      (split; [rewrite <- (length_map DateRule.ID rules), Hi; apply length_map|]);
      (split; [exact Hi|]); (split; [exact Hd|]);
      destruct (update_one_find_same _ _ _ _ Hfid Hex Hu) as (x' & [= <-] & Hfind);
      try (intros y y' [= <-]; reflexivity);
      exact Hfind.
  - intros Hvalid Hnone Hfresh. revert Hrun.
    unfold dateService.SetSpecialDate. rewrite (valid_rule_passes rule Hvalid).
    unfold bind at 1. unfold rule_id in *.
    destruct (IsZero (DateRule.ID rule)); unfold NewObjectID, ret;
      unfold bind at 1; unfold read at 1;
      rewrite (FindDateRules_day _ (DateRule.Date rule)) by (simpl; exact Hone);
      rewrite ?ruleForDate_set_next_oid, Hnone;
      unfold dateRepository.CreateDateRule, write;
      rewrite insert_one_fresh by (simpl; exact Hfresh);
      intros [= <- <-]; split; reflexivity.
Qed.

Lemma C9_one_rule_per_day_preserved_witness :
  let w1 := snd (dateService.SetSpecialDate christmas_again hotel_world) in
  let w2 := snd (dateService.SetSpecialDate new_years_eve hotel_world) in
  (one_rule_per_day (date_rules w1)
   /\ date_rules w1 = [DateRule.mk 4%N (midnight 20447) "holiday" 2 "Natal"])
  /\ (one_rule_per_day (date_rules w2)
      /\ date_rules w2 = [christmas; new_years_eve]).
Proof.
  assert (Hone : one_rule_per_day (date_rules hotel_world)).
  { unfold one_rule_per_day. simpl. repeat constructor. simpl. tauto. }
  split.
  - destruct (C9_one_rule_per_day_preserved christmas_again hotel_world
                (Ok tt) _ Hone eq_refl) as (H1 & _ & _).
    split; [exact H1 | reflexivity].
  - destruct (C9_one_rule_per_day_preserved new_years_eve hotel_world
                (Ok tt) _ Hone eq_refl) as (H1 & _ & H3).
    split; [exact H1|]. apply H3.
    + split; [reflexivity | split; [discriminate | vm_compute; split; discriminate]].
    + reflexivity.
    + intros x [<- | []]. discriminate.
Defined.

(* ===================================================================== *)
(** ** A stay of no night *)
(* ===================================================================== *)

Lemma CalculatePointCost_same_day w now roomID checkIn checkOut room :
  dayOf checkIn = dayOf checkOut ->
  hotelRepository.FindRoomByID w roomID = Ok room ->
  Before (startOfDay checkIn) (AddDate now (-1)) = false ->
  bookingRepository.CheckRoomAvailability w roomID (startOfDay checkIn)
    (startOfDay checkOut) = true ->
  bookingService.CalculatePointCost w now roomID checkIn checkOut = Ok 0.
Proof.
  intros Hday Hr Hpast Hfree. unfold bookingService.CalculatePointCost.
  assert (Hs : startOfDay checkOut = startOfDay checkIn)
    by (rewrite !startOfDay_eq; congruence).
  rewrite Hs in *. unfold After. rewrite Z.ltb_irrefl, Hpast, Hr, Hfree. simpl.
  rewrite (sumPointCost_spec w (n := 0)).
  - reflexivity.
  - lia.
  - unfold AddDate. simpl. lia.
  - apply in_int_0.
Qed.

(** C10. A request whose check-in and check-out fall on the same calendar
    day is accepted: for an existing room, a check-in the guard on past
    dates lets through and no overlapping booking, [CalculatePointCost]
    returns 0; and for an existing user with a balance of 0 or more, an
    existing hotel and a room of that hotel, [CreateBooking] stores a booking
    with status "confirmed" and point cost 0, leaves the user's balance as
    it was and appends a "booking_deduction" transaction of amount 0. *)
Theorem C10_zero_night_booking_accepted :
  forall now userID hotelID roomID checkIn checkOut w room,
    dayOf checkIn = dayOf checkOut ->
    hotelRepository.FindRoomByID w roomID = Ok room ->
    Before (startOfDay checkIn) (AddDate now (-1)) = false ->
    bookingRepository.CheckRoomAvailability w roomID (startOfDay checkIn)
      (startOfDay checkOut) = true ->
    bookingService.CalculatePointCost w now roomID checkIn checkOut = Ok 0
    /\ (forall user hotel,
          fresh_oids w ->
          userRepository.FindByID w userID = Ok user ->
          0 <= User.PointBalance user <= max_int ->
          hotelRepository.FindByID w hotelID = Ok hotel ->
          Room.HotelID room = hotelID ->
          exists b w' user',
            bookingService.CreateBooking now userID hotelID roomID checkIn
              checkOut w = (Ok b, w')
            /\ Booking.Status b = "confirmed"
            /\ Booking.PointCost b = 0
            /\ bookingRepository.FindByID w' (Booking.ID b) = Ok b
            /\ userRepository.FindByID w' userID = Ok user'
            /\ User.PointBalance user' = User.PointBalance user
            /\ point_transactions w'
               = point_transactions w
                 ++ [PointTransaction.mk (N.succ (next_oid w)) userID 0
                       "booking_deduction" (Hex (Booking.ID b)) now]).
Proof.
  intros now userID hotelID roomID checkIn checkOut w room Hday Hr Hpast Hfree.
  split; [eapply CalculatePointCost_same_day; eauto|].
  intros user hotel Hfresh Hu Hbal Hh Hroom.
  assert (Hc : bookingService.CalculatePointCost w now roomID (atHour checkIn 14)
                 (atHour checkOut 12) = Ok 0).
  { apply CalculatePointCost_same_day with (room := room); auto.
    - rewrite !dayOf_atHour by lia. exact Hday.
    - rewrite startOfDay_atHour by lia. exact Hpast.
    - rewrite !startOfDay_atHour by lia. exact Hfree. }
  destruct (CreateBooking_run now userID hotelID roomID checkIn checkOut w
              user hotel room 0 Hfresh Hu Hh Hr Hroom Hc)
    as (us & Hrun & Hfu).
  { lia. }
  { change (int_neg 0) with 0. unfold in_int, min_int, max_int in *. lia. }
  destruct (CreateBooking_Ok _ _ _ _ _ _ _ _ _ Hfresh Hrun)
    as (_ & _ & _ & _ & _ & _ & _ & Hnone & _).
  eexists. eexists. eexists. split; [exact Hrun|].
  split; [reflexivity|]. split; [reflexivity|].
  unfold bookingRepository.FindByID, userRepository.FindByID, find_one in *. simpl.
  rewrite (find_app_fresh _ _ _ Hnone) by apply N.eqb_refl.
  rewrite Hfu. split; [reflexivity|]. split; [reflexivity|].
  split; [simpl; change (int_neg 0) with 0; lia | reflexivity].
Qed.

Lemma C10_zero_night_booking_accepted_witness :
  bookingService.CalculatePointCost hotel_world dec20_noon 3%N (midnight 20446)
    (midnight 20446 + 9 * Hour) = Ok 0
  /\ exists b w' user',
       bookingService.CreateBooking dec20_noon 1%N 2%N 3%N (midnight 20446)
         (midnight 20446 + 9 * Hour) hotel_world = (Ok b, w')
       /\ Booking.Status b = "confirmed"
       /\ Booking.PointCost b = 0
       /\ bookingRepository.FindByID w' (Booking.ID b) = Ok b
       /\ userRepository.FindByID w' 1%N = Ok user'
       /\ User.PointBalance user' = 10
       /\ point_transactions w'
          = [PointTransaction.mk 101%N 1%N 0 "booking_deduction"
               (Hex (Booking.ID b)) dec20_noon].
Proof.
  destruct (C10_zero_night_booking_accepted dec20_noon 1%N 2%N 3%N
              (midnight 20446) (midnight 20446 + 9 * Hour) hotel_world room1)
    as [H1 H2]; try reflexivity.
  split; [exact H1|].
  apply (H2 ann hotel1); try reflexivity.
  - split; [reflexivity | split; [intros ? [] | intros ? []]].
  - vm_compute. split; discriminate.
Defined.

(* ===================================================================== *)
(** ** Back-to-back stays *)
(* ===================================================================== *)

Lemma count_documents_pos {A} (p : A -> bool) (c : list A) (x : A) :
  In x c -> p x = true -> (count_documents p c =? 0) = false.
Proof.
  intros Hin Hp. unfold count_documents. apply Z.eqb_neq.
  assert (H : In x (filter p c)) by (apply filter_In; auto).
  destruct (filter p c); [contradiction | simpl; lia].
Qed.

(** At the level of the repository an equal boundary is no overlap: a
    stay that begins at the instant another one ends does not meet it. *)
Lemma overlaps_equal_boundary roomID b checkOut :
  bookingRepository.overlaps roomID (Booking.CheckOut b) checkOut b = false.
Proof.
  unfold bookingRepository.overlaps. rewrite Z.ltb_irrefl.
  apply andb_false_r.
Qed.

(** C2, as the code has it.  The service stores a stay from 14:00 of the
    check-in day to 12:00 of the check-out day, and asks the repository
    about a new stay from 00:00 to 00:00.  So after any booking made by
    [CreateBooking], a request for the same room whose check-in day is that
    booking's check-out day (and that lasts a night or more) meets the
    booking: the availability check says no, [CalculatePointCost] and
    [CreateBooking] fail with the room-unavailable error, and nothing is
    stored. *)
Theorem C2_back_to_back_refused :
  forall now userID hotelID roomID checkIn checkOut w b w1,
    fresh_oids w ->
    bookingService.CreateBooking now userID hotelID roomID checkIn checkOut w
    = (Ok b, w1) ->
    forall now' checkIn' checkOut',
      dayOf checkIn' = dayOf (Booking.CheckOut b) ->
      dayOf checkIn' < dayOf checkOut' ->
      Before (startOfDay checkIn') (AddDate now' (-1)) = false ->
      bookingRepository.CheckRoomAvailability w1 roomID (startOfDay checkIn')
        (startOfDay checkOut') = false
      /\ bookingService.CalculatePointCost w1 now' roomID checkIn' checkOut'
         = Err (New "room is not available for the selected dates")
      /\ bookingService.CreateBooking now' userID hotelID roomID checkIn'
           checkOut' w1
         = (Err (New "room is not available for the selected dates"), w1).
Proof.
  intros now userID hotelID roomID checkIn checkOut w b w1 Hfresh Hcreate
         now' checkIn' checkOut' Hday Hnight Hpast.
  destruct (CreateBooking_Ok _ _ _ _ _ _ _ _ _ Hfresh Hcreate)
    as (user & pointCost & us & Hu & Hc & Hle & Hb & Hnone & Hup & Hw1).
  pose proof (CalculatePointCost_Ok _ _ _ _ _ Hc) as (Ha & _ & [room Hr] & _ & _).
  assert (Hco : dayOf (Booking.CheckOut b) = dayOf checkOut).
  { subst b. simpl. apply dayOf_atHour. lia. }
  assert (Hci : dayOf checkIn <= dayOf checkOut).
  { unfold After in Ha. apply Z.ltb_ge in Ha.
    rewrite !startOfDay_atHour, !startOfDay_eq in Ha by lia.
    unfold nsPerDay in Ha. lia. }
  assert (Hfree : bookingRepository.CheckRoomAvailability w1 roomID
                    (startOfDay checkIn') (startOfDay checkOut') = false).
  { unfold bookingRepository.CheckRoomAvailability.
    apply count_documents_pos with (x := b).
    - subst w1. simpl. apply in_or_app. right. left. reflexivity.
    - subst b. simpl in *. unfold bookingRepository.overlaps. simpl.
      rewrite N.eqb_refl. simpl. apply andb_true_iff.
      rewrite !Z.ltb_lt. revert Hco Hci Hday Hnight. time_lia. }
  assert (Hcalc : forall ci co,
             dayOf ci = dayOf checkIn' -> dayOf co = dayOf checkOut' ->
             bookingService.CalculatePointCost w1 now' roomID ci co
             = Err (New "room is not available for the selected dates")).
  { intros ci co Hi Ho. unfold bookingService.CalculatePointCost.
    assert (Hsi : startOfDay ci = startOfDay checkIn')
      by (rewrite !startOfDay_eq; congruence).
    assert (Hso : startOfDay co = startOfDay checkOut')
      by (rewrite !startOfDay_eq; congruence).
    rewrite Hsi, Hso, Hpast.
    assert (Hr1 : hotelRepository.FindRoomByID w1 roomID = Ok room)
      by (subst w1; exact Hr).
    rewrite Hr1, Hfree. simpl.
    unfold After. rewrite !startOfDay_eq.
    destruct (Z.ltb_spec (dayOf checkOut' * nsPerDay) (dayOf checkIn' * nsPerDay))
      as [Hlt|_]; [unfold nsPerDay in Hlt; lia | reflexivity]. }
  split; [exact Hfree|]. split; [apply Hcalc; reflexivity|].
  unfold bookingService.CreateBooking. unfold_monad.
  (* the user, the hotel and the room of the first booking are still there *)
  assert (Hu1 : exists user1, userRepository.FindByID w1 userID = Ok user1).
  { unfold userRepository.FindByID, find_one in *. subst w1. simpl.
    destruct (find _ (users w)) as [u0|] eqn:Hfu; [|discriminate].
    destruct (update_one_Ok_found _ _ _ Hfu Hup) as (u1 & Hinc & _ & Hfind).
    apply inc_point_balance_Ok in Hinc as [-> _].
    rewrite Hfind; [eauto|]. simpl. apply find_some in Hfu. tauto. }
  destruct Hu1 as [user1 Hu1]. rewrite Hu1. simpl.
  revert Hcreate. unfold bookingService.CreateBooking. unfold_monad.
  rewrite Hu. simpl.
  assert (Hh1 : hotelRepository.FindByID w1 hotelID = hotelRepository.FindByID w hotelID)
    by (subst w1; reflexivity).
  assert (Hr1 : hotelRepository.FindRoomByID w1 roomID = Ok room)
    by (subst w1; exact Hr).
  rewrite Hh1, Hr1, Hr.
  destruct (hotelRepository.FindByID w hotelID); simpl; [|discriminate].
  destruct (negb _); [discriminate|]. intros _.
  rewrite Hcalc; [reflexivity | | ]; apply dayOf_atHour; lia.
Qed.

Lemma C2_back_to_back_refused_witness :
  bookingRepository.CheckRoomAvailability booked_world 3%N (midnight 20448)
    (midnight 20449) = false
  /\ bookingService.CalculatePointCost booked_world dec20_noon 3%N
       (midnight 20448) (midnight 20449)
     = Err (New "room is not available for the selected dates")
  /\ bookingService.CreateBooking dec20_noon 1%N 2%N 3%N (midnight 20448)
       (midnight 20449) booked_world
     = (Err (New "room is not available for the selected dates"), booked_world).
Proof.
  assert (Hfresh : fresh_oids hotel_world).
  { split; [reflexivity | split; [intros ? [] | intros ? []]]. }
  exact (C2_back_to_back_refused dec20_noon 1%N 2%N 3%N (midnight 20446)
           (midnight 20448) hotel_world ann_booking booked_world Hfresh eq_refl
           dec20_noon (midnight 20448) (midnight 20449) eq_refl eq_refl eq_refl).
Defined.

(* ===================================================================== *)
(** ** The per-date check of checkRoomAvailabilityForUser *)
(* ===================================================================== *)

Lemma checkDay_Some availabilities userID d b :
  bookingService.checkDay availabilities userID d = Some b -> b = false.
Proof.
  unfold bookingService.checkDay.
  destruct (find _ availabilities) as [a|]; [|discriminate].
  destruct (negb (RoomAvailability.Available a)); [congruence|].
  destruct (0 <? _); [|discriminate].
  destruct (negb _); [congruence | discriminate].
Qed.

(** Once the loop over the days is [j] days before a closed day that it
    can still reach, it answers no. *)
Lemma checkDays_closed availabilities userID checkOut closed :
  RoomAvailability.Available closed = false ->
  forall j fuel d,
    (j < fuel)%nat ->
    AddDate d (Z.of_nat j) < checkOut ->
    find (fun avail => isSameDay (RoomAvailability.Date avail)
                         (AddDate d (Z.of_nat j))) availabilities
    = Some closed ->
    bookingService.checkDays fuel availabilities userID d checkOut = false.
Proof.
  intros Hclosed. induction j as [|j IH]; intros fuel d Hfuel Hlt Hfind;
    (destruct fuel as [|fuel]; [lia|]); simpl.
  - replace (AddDate d (Z.of_nat 0)) with d in * by (unfold AddDate; simpl; lia).
    unfold Before. destruct (Z.ltb_spec d checkOut); [|lia].
    unfold bookingService.checkDay. rewrite Hfind, Hclosed. reflexivity.
  - assert (Hd : AddDate (AddDate d 1) (Z.of_nat j) = AddDate d (Z.of_nat (S j)))
      by (unfold AddDate, nsPerDay; lia).
    unfold Before. destruct (Z.ltb_spec d checkOut) as [_|Hge];
      [|unfold AddDate, nsPerDay in Hlt; lia].
    destruct (bookingService.checkDay availabilities userID d) as [b|] eqn:Hb.
    + now apply checkDay_Some in Hb.
    + apply IH; [lia | rewrite Hd; exact Hlt | rewrite Hd; exact Hfind].
Qed.

(** The helper does what the specification asks of the per-date
    override: with one record per room and day, a day of the stay closed
    by a record makes it answer no. *)
Lemma checkRoomAvailabilityForUser_closed_day w roomID userID checkIn checkOut
    closed :
  In closed (room_availability w) ->
  RoomAvailability.RoomID closed = roomID ->
  RoomAvailability.Available closed = false ->
  dayOf checkIn <= dayOf (RoomAvailability.Date closed) < dayOf checkOut ->
  (forall x y, In x (room_availability w) -> In y (room_availability w) ->
               RoomAvailability.RoomID x = roomID ->
               RoomAvailability.RoomID y = roomID ->
               dayOf (RoomAvailability.Date x) = dayOf (RoomAvailability.Date y) ->
               x = y) ->
  bookingService.checkRoomAvailabilityForUser w roomID userID checkIn checkOut
  = false.
Proof.
  intros Hin Hroom Hclosed Hday Hone.
  unfold bookingService.checkRoomAvailabilityForUser.
  destruct (negb _); [reflexivity|].
  unfold hotelRepository.FindRoomAvailabilityByDateRange.
  set (q := fun a : RoomAvailability.t => _ && _ && _).
  set (L := sort_by RoomAvailability.Date (filter q (room_availability w))).
  assert (HL : forall a, In a L <-> In a (room_availability w) /\ q a = true).
  { intros a. unfold L. rewrite <- filter_In.
    split; apply Permutation_in;
      [apply sort_by_perm | apply Permutation_sym, sort_by_perm]. }
  assert (Hq : q closed = true).
  { unfold q. rewrite Hroom, N.eqb_refl. simpl. apply andb_true_iff.
    rewrite !Z.leb_le. revert Hday. time_lia. }
  assert (HinL : In closed L) by (apply HL; auto).
  destruct (Z.eqb_spec (Z.of_nat (List.length L)) 0) as [E|_].
  { destruct L; [contradiction | simpl in E; lia]. }
  set (j := Z.to_nat (dayOf (RoomAvailability.Date closed) - dayOf checkIn)).
  assert (Hj : dayOf (AddDate checkIn (Z.of_nat j))
               = dayOf (RoomAvailability.Date closed)).
  { unfold j. rewrite Z2Nat.id by lia. revert Hday. time_lia. }
  apply checkDays_closed with (closed := closed) (j := j); auto.
  - unfold bookingService.days_between, j.
    apply Z2Nat.inj_lt; [lia | | ].
    + revert Hday. time_lia.
    + revert Hday. time_lia.
  - revert Hj Hday. generalize (AddDate checkIn (Z.of_nat j)). intros t. time_lia.
  - destruct (find _ L) as [a|] eqn:Hf.
    + apply find_some in Hf as [Ha Hs]. unfold isSameDay in Hs.
      apply Z.eqb_eq in Hs. f_equal. apply Hone.
      * apply HL in Ha. tauto.
      * exact Hin.
      * apply HL in Ha as [_ Ha]. unfold q in Ha.
        apply andb_true_iff in Ha as [Ha _]. apply andb_true_iff in Ha as [Ha _].
        now apply N.eqb_eq.
      * exact Hroom.
      * congruence.
    + pose proof (find_none _ _ Hf closed HinL) as Hn. simpl in Hn.
      unfold isSameDay in Hn. rewrite Hj, Z.eqb_refl in Hn. discriminate.
Qed.

(* ===================================================================== *)
(** ** Availability overrides *)
(* ===================================================================== *)

Lemma sumPointCost_overrides avail w fuel :
  forall d endDate totalPoints,
    bookingService.sumPointCost fuel (set_room_availability avail w) d endDate
      totalPoints
    = bookingService.sumPointCost fuel w d endDate totalPoints.
Proof.
  induction fuel as [|fuel IH]; intros d endDate total; simpl; [reflexivity|].
  destruct (Before d endDate); [|reflexivity]. apply IH.
Qed.

Lemma CalculatePointCost_overrides avail w now roomID checkIn checkOut :
  bookingService.CalculatePointCost (set_room_availability avail w) now roomID
    checkIn checkOut
  = bookingService.CalculatePointCost w now roomID checkIn checkOut.
Proof.
  unfold bookingService.CalculatePointCost.
  rewrite sumPointCost_overrides. reflexivity.
Qed.

(** [CreateBooking] never reads the room_availability collection: with any
    overrides in the store it returns what it returns without them and
    writes what it writes without them. *)
Lemma CreateBooking_overrides avail now userID hotelID roomID checkIn checkOut w :
  bookingService.CreateBooking now userID hotelID roomID checkIn checkOut
    (set_room_availability avail w)
  = (fst (bookingService.CreateBooking now userID hotelID roomID checkIn
            checkOut w),
     set_room_availability avail
       (snd (bookingService.CreateBooking now userID hotelID roomID checkIn
               checkOut w))).
Proof.
  unfold bookingService.CreateBooking. unfold_monad.
  change (userRepository.FindByID (set_room_availability avail w) userID)
    with (userRepository.FindByID w userID).
  destruct (userRepository.FindByID w userID) as [user|]; [|reflexivity].
  simpl.
  change (hotelRepository.FindByID (set_room_availability avail w) hotelID)
    with (hotelRepository.FindByID w hotelID).
  destruct (hotelRepository.FindByID w hotelID) as [hotel|]; [|reflexivity].
  simpl.
  change (hotelRepository.FindRoomByID (set_room_availability avail w) roomID)
    with (hotelRepository.FindRoomByID w roomID).
  destruct (hotelRepository.FindRoomByID w roomID) as [room|]; [|reflexivity].
  simpl. destruct (negb _); [reflexivity|].
  rewrite CalculatePointCost_overrides.
  destruct (bookingService.CalculatePointCost _ _ _ _ _) as [pointCost|];
    [|reflexivity].
  destruct (User.PointBalance user <? pointCost); [reflexivity|].
  unfold bookingRepository.Create. unfold_monad. simpl.
  destruct (IsZero (next_oid w)); simpl;
    (destruct (insert_one _ _ _) as [bs|]; [|reflexivity]); simpl;
    unfold userRepository.UpdatePointBalance, write; simpl;
    (destruct (update_one _ _ (users w)) as [us|]; simpl;
     [ unfold userRepository.CreatePointTransaction, write; simpl;
       destruct (insert_one _ _ _); reflexivity
     | unfold bookingRepository.UpdateStatus, write; simpl;
       destruct (update_one _ _ bs); reflexivity ]).
Qed.

(** C1, as the code has it.  The room is closed on 24 December 2025 by a
    RoomAvailability record with available = false; the helper
    [checkRoomAvailabilityForUser] says the stay of 24 to 26 December is
    not bookable; [CreateBooking], which never calls it, books the stay,
    debits the four points and records the debit. *)
Theorem C1_closed_day_is_booked :
  hotelRepository.FindRoomAvailabilityByDate closed_world 3%N (midnight 20446)
  = Some closed_dec24
  /\ RoomAvailability.Available closed_dec24 = false
  /\ bookingService.checkRoomAvailabilityForUser closed_world 3%N 1%N
       (midnight 20446) (midnight 20448) = false
  /\ bookingService.CreateBooking dec20_noon 1%N 2%N 3%N (midnight 20446)
       (midnight 20448) closed_world
     = (Ok ann_booking, set_room_availability [closed_dec24] booked_world)
  /\ bookings booked_world = [ann_booking]
  /\ users booked_world = [ann_debited]
  /\ point_transactions booked_world
     = [PointTransaction.mk 101%N 1%N (-4) "booking_deduction"
          (Hex 100%N) dec20_noon].
Proof.
  split; [reflexivity|]. split; [reflexivity|]. split; [reflexivity|].
  split; [|repeat split].
  unfold closed_world. rewrite CreateBooking_overrides. reflexivity.
Qed.

(* ===================================================================== *)
(** ** More of the calendar: validation, bounds, upsert and delete *)
(* ===================================================================== *)

(** What an accepted period looks like, in calendar days. *)
Lemma validateBookingPeriod_days (now checkIn checkOut : Time) :
  bookingService.validateBookingPeriod now checkIn checkOut = Ok tt ->
  dayOf now <= dayOf checkIn
  /\ dayOf checkIn < dayOf checkOut
  /\ dayOf checkOut <= dayOf checkIn + 14.
Proof.
  unfold bookingService.validateBookingPeriod, Before, Sub.
  rewrite !startOfDay_eq.
  destruct (Z.ltb_spec (dayOf checkIn * nsPerDay) (dayOf checkOut * nsPerDay))
    as [H1|H1]; simpl; [|discriminate].
  destruct (Z.ltb_spec (dayOf checkIn * nsPerDay) (dayOf now * nsPerDay))
    as [H2|H2]; [discriminate|].
  unfold min_int, max_int, nsPerDay, Hour in *.
  set (D := dayOf checkOut * 86400000000000 - dayOf checkIn * 86400000000000).
  assert (HD : D = (dayOf checkOut - dayOf checkIn) * 86400000000000)
    by (unfold D; lia).
  destruct (Z.ltb_spec D (-9223372036854775808)); [lia|].
  destruct (Z.ltb_spec 9223372036854775807 D); [simpl; discriminate|].
  destruct (Z.ltb_spec 1209600000000000 D); [discriminate|].
  intros _. lia.
Qed.


(** X2.  A period [validateBookingPeriod] accepts is never refused by
    [CalculatePointCost] for its dates: with an existing, free room the
    stay is priced. *)
Theorem validated_period_is_priced :
  forall w now roomID checkIn checkOut room,
    bookingService.validateBookingPeriod now checkIn checkOut = Ok tt ->
    hotelRepository.FindRoomByID w roomID = Ok room ->
    bookingRepository.CheckRoomAvailability w roomID (startOfDay checkIn)
      (startOfDay checkOut) = true ->
    bookingService.CalculatePointCost w now roomID checkIn checkOut
    = Ok (wrap (costForRange w checkIn checkOut))
    /\ (1 <= nights checkIn checkOut <= 14)%nat.
Proof.
  intros w now roomID checkIn checkOut room Hv Hr Hfree.
  apply validateBookingPeriod_days in Hv as (H1 & H2 & H3).
  split; [|unfold nights; lia].
  apply CalculatePointCost_run with (room := room); auto.
  - unfold After. apply Z.ltb_ge. rewrite !startOfDay_eq. unfold nsPerDay. lia.
  - unfold Before. apply Z.ltb_ge. rewrite startOfDay_eq.
    revert H1. time_lia.
Qed.

Lemma validated_period_is_priced_witness :
  bookingService.CalculatePointCost hotel_world dec20_noon 3%N (midnight 20446)
    (midnight 20448)
  = Ok (wrap (costForRange hotel_world (midnight 20446) (midnight 20448)))
  /\ (1 <= nights (midnight 20446) (midnight 20448) <= 14)%nat.
Proof.
  apply (validated_period_is_priced hotel_world dec20_noon 3%N (midnight 20446)
           (midnight 20448) room1); reflexivity.
Defined.

Lemma costForDate_bounds w d :
  rules_valid (date_rules w) -> 1 <= pointCostOf (costForDate w d) <= 3.
Proof.
  intros Hv. unfold costForDate, ruleForDate.
  destruct (find _ (date_rules w)) as [r|] eqn:Hf.
  - apply find_some in Hf as [Hin _]. exact (Hv r Hin).
  - destruct (isWeekend d); unfold pointCostOf; simpl; lia.
Qed.

Lemma sumOf_bounds w :
  rules_valid (date_rules w) ->
  forall n d, Z.of_nat n <= sumOf w (daysFrom d n) <= 3 * Z.of_nat n.
Proof.
  intros Hv. induction n as [|n IH]; intros d.
  - unfold sumOf. simpl. lia.
  - specialize (IH (AddDate d 1)). pose proof (costForDate_bounds w d Hv).
    unfold sumOf in *. simpl daysFrom. simpl map. simpl fold_right. lia.
Qed.

(** X3.  With rules of 1 to 3 points, a stay costs at least one point and at
    most three points a night. *)
Theorem CalculatePointCost_bounds :
  forall w now roomID checkIn checkOut total,
    rules_valid (date_rules w) ->
    3 * Z.of_nat (nights checkIn checkOut) <= max_int ->
    bookingService.CalculatePointCost w now roomID checkIn checkOut = Ok total ->
    Z.of_nat (nights checkIn checkOut) <= total
    <= 3 * Z.of_nat (nights checkIn checkOut).
Proof.
  intros w now roomID checkIn checkOut total Hv Hmax H.
  apply CalculatePointCost_Ok in H as (_ & _ & _ & _ & ->).
  pose proof (sumOf_bounds w Hv (nights checkIn checkOut) (startOfDay checkIn)) as Hb.
  unfold costForRange, stayDays. rewrite wrap_id; [exact Hb|].
  unfold in_int, min_int, max_int in *. lia.
Qed.

Lemma CalculatePointCost_bounds_witness :
  Z.of_nat (nights (midnight 20446) (midnight 20448)) <= 4
  <= 3 * Z.of_nat (nights (midnight 20446) (midnight 20448)).
Proof.
  apply (CalculatePointCost_bounds hotel_world dec20_noon 3%N (midnight 20446)
           (midnight 20448) 4).
  - intros r [<- | []]. simpl. lia.
  - vm_compute. discriminate.
  - reflexivity.
Defined.

Lemma update_one_In {A} (p : A -> bool) (f : A -> result A) :
  forall c c', update_one p f c = Ok c' ->
               forall x', In x' c' -> In x' c \/ exists x, In x c /\ f x = Ok x'.
Proof.
  induction c as [|y c IH]; simpl; intros c' Hu x' Hin.
  - injection Hu as <-. contradiction.
  - destruct (p y).
    + destruct (f y) as [y'|] eqn:Hy; [|discriminate]. injection Hu as <-.
      destruct Hin as [<- | Hin]; [right; exists y; auto | auto].
    + destruct (update_one p f c) as [c''|]; [|discriminate]. injection Hu as <-.
      destruct Hin as [<- | Hin]; [auto|].
      destruct (IH _ eq_refl _ Hin) as [H | (x & Hx & Hfx)]; [auto|].
      right. exists x. auto.
Qed.

Lemma valid_rule_dec rule :
  (Time_IsZero (DateRule.Date rule) || (DateRule.Type_ rule =? "")%string
   || (DateRule.PointCost rule <=? 0) || (3 <? DateRule.PointCost rule)) = false
  <-> valid_rule rule.
Proof.
  unfold valid_rule. rewrite !orb_false_iff, String.eqb_neq, Z.leb_gt, Z.ltb_ge.
  intuition lia.
Qed.

(** X4.  [SetSpecialDate] validates its input: a rule with no date, no type or a
    cost outside 1..3 is refused and nothing is written; and whatever the
    call returns, a calendar whose rules all cost 1 to 3 points stays so. *)
Theorem SetSpecialDate_validates (rule : DateRule.t) (w : World) :
  (~ valid_rule rule ->
   dateService.SetSpecialDate rule w = (Err (New "invalid date rule data"), w))
  /\ (rules_valid (date_rules w) ->
      rules_valid (date_rules (snd (dateService.SetSpecialDate rule w)))).
Proof.
  unfold dateService.SetSpecialDate.
  destruct (_ || _ || _ || _) eqn:Hg.
  - split; [reflexivity | auto].
  - apply valid_rule_dec in Hg. split; [tauto|]. intros Hv.
    destruct Hg as (_ & _ & Hc).
    unfold bind at 1.
    destruct (IsZero (DateRule.ID rule)); unfold NewObjectID, ret;
      unfold bind at 1; unfold read at 1;
      (destruct (dateRepository.FindDateRules _ _ _) as [|existing rest];
       [ unfold dateRepository.CreateDateRule, write, insert_one; simpl;
         destruct (existsb _ _); simpl; [exact Hv|];
         intros r Hin; apply in_app_or in Hin as [Hin | [<- | []]];
         [exact (Hv r Hin) | exact Hc]
       | match goal with
         | |- context [dateRepository.UpdateDateRule ?x ?w0] =>
             destruct (UpdateDateRule_Ok x w0) as (rules & -> & _ & _ & Hu)
         end;
         simpl; intros r Hin;
         destruct (update_one_In _ _ _ _ Hu r Hin) as [H | (x & Hx & [= <-])];
         [exact (Hv r H) | exact Hc] ]).
Qed.

Lemma SetSpecialDate_validates_witness :
  dateService.SetSpecialDate
    (DateRule.mk 70%N (midnight 20450) "holiday" 4 "") hotel_world
  = (Err (New "invalid date rule data"), hotel_world)
  /\ rules_valid (date_rules (snd (dateService.SetSpecialDate new_years_eve
                                     hotel_world))).
Proof.
  split.
  - apply (SetSpecialDate_validates _ hotel_world).
    intros (_ & _ & H). simpl in H. lia.
  - apply (SetSpecialDate_validates new_years_eve hotel_world).
    intros r [<- | []]. simpl. lia.
Defined.

Lemma update_one_find_frame {A} (p q : A -> bool) (f : A -> result A) :
  forall c c',
    update_one p f c = Ok c' ->
    (forall x x', f x = Ok x' -> q x' = q x) ->
    (forall x, In x c -> p x = true -> q x = false) ->
    find q c' = find q c.
Proof.
  induction c as [|y c IH]; simpl; intros c' Hu Hf Hpq.
  - injection Hu as <-. reflexivity.
  - destruct (p y) eqn:Hp.
    + destruct (f y) as [y'|] eqn:Hy; [|discriminate]. injection Hu as <-.
      simpl. rewrite (Hf _ _ Hy), (Hpq y) by auto. reflexivity.
    + destruct (update_one p f c) as [c''|]; [|discriminate]. injection Hu as <-.
      simpl. destruct (q y); [reflexivity|]. apply IH; auto.
Qed.

Lemma find_app_miss {A} (q : A -> bool) (c : list A) (x : A) :
  q x = false -> find q (c ++ [x]) = find q c.
Proof.
  intros Hq. induction c as [|y c IH]; simpl.
  - now rewrite Hq.
  - destruct (q y); auto.
Qed.

Lemma NoDup_map_eq {A} (key : A -> ObjectID) (c : list A) (x y : A) :
  NoDup (map key c) -> In x c -> In y c -> key x = key y -> x = y.
Proof.
  induction c as [|z c IH]; simpl; intros Hnd Hx Hy E; [contradiction|].
  inversion Hnd as [|? ? Hz Hc]; subst.
  destruct Hx as [-> | Hx], Hy as [-> | Hy]; auto.
  - exfalso. apply Hz. rewrite E. now apply in_map.
  - exfalso. apply Hz. rewrite <- E. now apply in_map.
Qed.

(** What an accepted request makes of the rules of the store. *)
Lemma SetSpecialDate_valid_run rule w r w' :
  valid_rule rule ->
  one_rule_per_day (date_rules w) ->
  dateService.SetSpecialDate rule w = (r, w') ->
  match ruleForDate w (DateRule.Date rule) with
  | Some existing =>
      r = Ok tt
      /\ update_one (fun x => N.eqb (DateRule.ID x) (DateRule.ID existing))
           (fun x => Ok (DateRule.mk (DateRule.ID x) (DateRule.Date x)
                           (DateRule.Type_ rule) (DateRule.PointCost rule)
                           (DateRule.Name rule)))
           (date_rules w)
         = Ok (date_rules w')
  | None =>
      (forall x, In x (date_rules w) -> DateRule.ID x <> rule_id w rule) ->
      r = Ok tt
      /\ date_rules w'
         = date_rules w
           ++ [DateRule.mk (rule_id w rule) (startOfDay (DateRule.Date rule))
                 (DateRule.Type_ rule) (DateRule.PointCost rule)
                 (DateRule.Name rule)]
  end.
Proof.
  intros Hvalid Hone.
  unfold dateService.SetSpecialDate. rewrite (valid_rule_passes rule Hvalid).
  unfold bind at 1. unfold rule_id.
  destruct (ruleForDate w (DateRule.Date rule)) as [existing|] eqn:Hex.
  - destruct (IsZero (DateRule.ID rule)); unfold NewObjectID, ret;
      unfold bind at 1; unfold read at 1;
      rewrite (FindDateRules_day _ (DateRule.Date rule)) by (simpl; exact Hone);
      rewrite ?ruleForDate_set_next_oid, Hex;
      match goal with
      | |- dateRepository.UpdateDateRule ?x ?w0 = _ -> _ =>
          destruct (UpdateDateRule_Ok x w0) as (rules & -> & _ & _ & Hu)
      end;
      intros [= <- <-]; simpl in *; auto.
  - intros Hrun Hfresh. revert Hrun.
    destruct (IsZero (DateRule.ID rule)); unfold NewObjectID, ret;
      unfold bind at 1; unfold read at 1;
      rewrite (FindDateRules_day _ (DateRule.Date rule)) by (simpl; exact Hone);
      rewrite ?ruleForDate_set_next_oid, Hex;
      unfold dateRepository.CreateDateRule, write;
      rewrite insert_one_fresh by (simpl; exact Hfresh);
      intros [= <- <-]; split; reflexivity.
Qed.

(** X5.  Round trip of the calendar.  From a store with one rule per day and
    distinct ids, after an accepted [SetSpecialDate] (under a fresh id) every
    instant of the rule's day costs the rule's points, and every other day
    costs what it cost before. *)
Theorem SetSpecialDate_then_GetPointCostForDate :
  forall rule w,
    valid_rule rule ->
    one_rule_per_day (date_rules w) ->
    NoDup (map DateRule.ID (date_rules w)) ->
    (forall x, In x (date_rules w) -> DateRule.ID x <> rule_id w rule) ->
    let w' := snd (dateService.SetSpecialDate rule w) in
    fst (dateService.SetSpecialDate rule w) = Ok tt
    /\ (forall d, dayOf d = dayOf (DateRule.Date rule) ->
                  dateService.GetPointCostForDate w' d = DateRule.PointCost rule)
    /\ (forall d, dayOf d <> dayOf (DateRule.Date rule) ->
                  dateService.GetPointCostForDate w' d
                  = dateService.GetPointCostForDate w d).
Proof.
  intros rule w Hvalid Hone Hids Hfresh w'. subst w'.
  destruct (dateService.SetSpecialDate rule w) as [r w'] eqn:E.
  pose proof (SetSpecialDate_valid_run rule w r w' Hvalid Hone E) as Hrun.
  simpl fst. simpl snd.
  unfold dateService.GetPointCostForDate.
  destruct (ruleForDate w (DateRule.Date rule)) as [existing|] eqn:Hex.
  - destruct Hrun as [Hok Hu]. split; [exact Hok|].
    assert (Hin : In existing (date_rules w)).
    { unfold ruleForDate in Hex. apply find_some in Hex. tauto. }
    pose proof (find_by_id_unique _ _ Hids Hin) as Hfid.
    split; intros d Hd; rewrite !GetPointCostForDate_costForDate;
      unfold costForDate, ruleForDate.
    + unfold ruleForDate in Hex. rewrite <- Hd in Hex.
      destruct (update_one_find_same _ _ _ _ Hfid Hex Hu) as (x' & [= <-] & ->).
      * intros y y' [= <-]. reflexivity.
      * reflexivity.
    + rewrite (update_one_find_frame _ _ _ _ _ Hu); [reflexivity | | ].
      * intros y y' [= <-]. reflexivity.
      * intros x Hx Hp. apply N.eqb_eq in Hp.
        assert (x = existing) by (eapply NoDup_map_eq; eauto). subst x.
        apply Z.eqb_neq. unfold ruleForDate in Hex. apply find_some in Hex.
        destruct Hex as [_ Hday]. apply Z.eqb_eq in Hday. congruence.
  - destruct (Hrun Hfresh) as [Hok Hrules].
    split; [exact Hok|].
    split; intros d Hd; rewrite !GetPointCostForDate_costForDate;
      unfold costForDate, ruleForDate; rewrite Hrules.
    + unfold ruleForDate in Hex. rewrite <- Hd in Hex.
      rewrite (find_app_fresh _ _ _ Hex); [reflexivity|].
      simpl. rewrite dayOf_startOfDay. apply Z.eqb_eq. congruence.
    + rewrite find_app_miss; [reflexivity|].
      simpl. rewrite dayOf_startOfDay. apply Z.eqb_neq. congruence.
Qed.

Lemma SetSpecialDate_then_GetPointCostForDate_witness :
  let w' := snd (dateService.SetSpecialDate christmas_again hotel_world) in
  fst (dateService.SetSpecialDate christmas_again hotel_world) = Ok tt
  /\ (forall d, dayOf d = dayOf (DateRule.Date christmas_again) ->
                dateService.GetPointCostForDate w' d = 2)
  /\ (forall d, dayOf d <> dayOf (DateRule.Date christmas_again) ->
                dateService.GetPointCostForDate w' d
                = dateService.GetPointCostForDate hotel_world d).
Proof.
  apply (SetSpecialDate_then_GetPointCostForDate christmas_again hotel_world).
  - split; [reflexivity | split; [discriminate | simpl; lia]].
  - unfold one_rule_per_day. simpl. repeat constructor. simpl. tauto.
  - simpl. repeat constructor. simpl. tauto.
  - intros x [<- | []]. discriminate.
Defined.

Section DeleteFacts.
Variable A : Type.
Variable p : A -> bool.

Lemma delete_one_absent (c : list A) :
  (forall x, In x c -> p x = false) -> delete_one p c = c.
Proof.
  induction c as [|y c IH]; simpl; intros H; [reflexivity|].
  rewrite (H y) by auto. f_equal. auto.
Qed.

Lemma delete_one_In (c : list A) (x : A) :
  In x (delete_one p c) -> In x c.
Proof.
  induction c as [|y c IH]; simpl; [auto|].
  destruct (p y); simpl; intuition.
Qed.

(** A lookup by [q] does not see the removal of a document that [q]
    rejects. *)
Lemma delete_one_find_frame (q : A -> bool) (c : list A) :
  (forall x, In x c -> p x = true -> q x = false) ->
  find q (delete_one p c) = find q c.
Proof.
  induction c as [|y c IH]; simpl; intros H; [reflexivity|].
  destruct (p y) eqn:Hp.
  - rewrite (H y) by auto. reflexivity.
  - simpl. destruct (q y); [reflexivity|]. apply IH. auto.
Qed.

Lemma delete_one_NoDup {B} (key : A -> B) (c : list A) :
  NoDup (map key c) -> NoDup (map key (delete_one p c)).
Proof.
  induction c as [|y c IH]; simpl; intros H; [constructor|].
  inversion H as [|? ? Hy Hc]; subst.
  destruct (p y); [assumption|]. simpl. constructor; auto.
  intros Hin. apply Hy. apply in_map_iff in Hin as (x & <- & Hx).
  apply in_map. now apply delete_one_In in Hx.
Qed.

(** With distinct keys, removing the only document that [p] accepts leaves
    no document with its key. *)
Lemma delete_one_gone (key : A -> Z) (c : list A) (r : A) :
  NoDup (map key c) -> In r c -> p r = true ->
  (forall x, In x c -> p x = true -> x = r) ->
  find (fun x => key x =? key r) (delete_one p c) = None.
Proof.
  induction c as [|y c IH]; simpl; intros Hnd Hin Hp Hone; [contradiction|].
  inversion Hnd as [|? ? Hy Hc]; subst.
  destruct (p y) eqn:Hpy.
  - assert (y = r) by auto. subst y.
    apply find_absent. intros x Hx. apply Z.eqb_neq. intros E.
    apply Hy. rewrite <- E. now apply in_map.
  - destruct Hin as [-> | Hin]; [congruence|]. simpl.
    destruct (Z.eqb_spec (key y) (key r)) as [E|_].
    + exfalso. apply Hy. rewrite E. now apply in_map.
    + apply IH; auto.
Qed.
End DeleteFacts.

(** X6.  Deleting the rule of a day gives the day back its default rate (2 on
    a Saturday or Sunday, else 1), leaves the other days as they were, and
    keeps one rule per day; deleting an id that no rule has changes nothing.
    The store has one rule per day and distinct ids. *)
Theorem DeleteSpecialDate_restores_default :
  forall w r,
    one_rule_per_day (date_rules w) ->
    NoDup (map DateRule.ID (date_rules w)) ->
    In r (date_rules w) ->
    let w' := snd (dateService.DeleteSpecialDate (DateRule.ID r) w) in
    fst (dateService.DeleteSpecialDate (DateRule.ID r) w) = Ok tt
    /\ (forall d, dayOf d = dayOf (DateRule.Date r) ->
                  dateService.GetPointCostForDate w' d = defaultCost d)
    /\ (forall d, dayOf d <> dayOf (DateRule.Date r) ->
                  dateService.GetPointCostForDate w' d
                  = dateService.GetPointCostForDate w d)
    /\ one_rule_per_day (date_rules w')
    /\ (forall id, (forall x, In x (date_rules w) -> DateRule.ID x <> id) ->
                   date_rules (snd (dateService.DeleteSpecialDate id w))
                   = date_rules w).
Proof.
  intros w r Hone Hids Hin w'. subst w'.
  unfold dateService.DeleteSpecialDate, dateRepository.DeleteDateRule, write.
  simpl. split; [reflexivity|].
  assert (Huniq : forall x, In x (date_rules w) ->
                            N.eqb (DateRule.ID x) (DateRule.ID r) = true -> x = r).
  { intros x Hx E. apply N.eqb_eq in E. eapply NoDup_map_eq; eauto. }
  unfold dateService.GetPointCostForDate.
  split; [|split; [|split]].
  - intros d Hd. rewrite GetPointCostForDate_costForDate.
    unfold costForDate, ruleForDate, defaultCost. simpl. rewrite Hd.
    rewrite (delete_one_gone _ _ (fun x => dayOf (DateRule.Date x)) _ r);
      auto using N.eqb_refl.
    destruct (isWeekend d); reflexivity.
  - intros d Hd. rewrite !GetPointCostForDate_costForDate.
    unfold costForDate, ruleForDate. simpl.
    rewrite delete_one_find_frame.
    + reflexivity.
    + intros x Hx E. rewrite (Huniq x Hx E). apply Z.eqb_neq. congruence.
  - unfold one_rule_per_day in *. simpl. exact (delete_one_NoDup _ _ _ _ Hone).
  - intros id Hid. apply delete_one_absent.
    intros x Hx. apply N.eqb_neq. auto.
Qed.

Lemma DeleteSpecialDate_restores_default_witness :
  let w' := snd (dateService.DeleteSpecialDate 4%N hotel_world) in
  fst (dateService.DeleteSpecialDate 4%N hotel_world) = Ok tt
  /\ (forall d, dayOf d = dayOf (midnight 20447) ->
                dateService.GetPointCostForDate w' d = defaultCost d)
  /\ (forall d, dayOf d <> dayOf (midnight 20447) ->
                dateService.GetPointCostForDate w' d
                = dateService.GetPointCostForDate hotel_world d)
  /\ one_rule_per_day (date_rules w')
  /\ (forall id, (forall x, In x (date_rules hotel_world) -> DateRule.ID x <> id) ->
                 date_rules (snd (dateService.DeleteSpecialDate id hotel_world))
                 = date_rules hotel_world).
Proof.
  apply (DeleteSpecialDate_restores_default hotel_world christmas).
  - unfold one_rule_per_day. simpl. repeat constructor. simpl. tauto.
  - simpl. repeat constructor. simpl. tauto.
  - left. reflexivity.
Defined.

(* ===================================================================== *)
(** ** DeleteBooking *)
(* ===================================================================== *)

Lemma delete_one_by_id_gone (c : list Booking.t) (id : ObjectID) :
  NoDup (map Booking.ID c) ->
  find (fun b => N.eqb (Booking.ID b) id)
       (delete_one (fun b => N.eqb (Booking.ID b) id) c) = None.
Proof.
  induction c as [|y c IH]; simpl; intros Hnd; [reflexivity|].
  inversion Hnd as [|? ? Hy Hc]; subst.
  destruct (N.eqb_spec (Booking.ID y) id) as [E|E].
  - apply find_absent. intros x Hx. apply N.eqb_neq. intros Ex.
    apply Hy. rewrite E, <- Ex. now apply in_map.
  - simpl. destruct (N.eqb_spec (Booking.ID y) id); [contradiction | auto].
Qed.

(** X7.  The hard delete of a booking that is not cancelled refunds it first:
    the owner's balance is raised by the point cost, one
    "booking_deletion_refund" transaction is appended, and the booking is
    gone.  This holds whatever the status (pending, confirmed or completed)
    and however close the check-in. *)
Theorem DeleteBooking_refunds_then_deletes :
  forall now id w b u,
    bookingRepository.FindByID w id = Ok b ->
    Booking.Status b <> "cancelled" ->
    userRepository.FindByID w (Booking.UserID b) = Ok u ->
    in_int (User.PointBalance u + Booking.PointCost b) ->
    next_oid_unused w ->
    NoDup (map Booking.ID (bookings w)) ->
    exists w',
      bookingService.DeleteBooking now id w = (Ok tt, w')
      /\ userRepository.FindByID w' (Booking.UserID b)
         = Ok (credited now (Booking.PointCost b) u)
      /\ point_transactions w'
         = point_transactions w ++ [deletion_refund w now b]
      /\ bookings w'
         = delete_one (fun x => N.eqb (Booking.ID x) id) (bookings w)
      /\ bookingRepository.FindByID w' id = Err (New "booking not found").
Proof.
  intros now id w b u Hb Hs Hu Hint Hfresh Hnd.
  unfold bookingService.DeleteBooking. unfold bind at 1. unfold read at 1.
  rewrite Hb. apply String.eqb_neq in Hs. rewrite Hs. simpl negb. cbv iota.
  destruct (UpdatePointBalance_found now (Booking.UserID b) (Booking.PointCost b)
              w u Hu Hint) as (us & Hupd & Hfu).
  unfold bind at 1. unfold bind at 1. rewrite Hupd.
  unfold_monad. simpl.
  rewrite CreatePointTransaction_fresh by (simpl; exact Hfresh).
  unfold bookingRepository.Delete, write. simpl.
  eexists. split; [reflexivity|].
  unfold userRepository.FindByID, bookingRepository.FindByID. simpl.
  rewrite Hfu. unfold find_one. rewrite delete_one_by_id_gone by assumption.
  auto.
Qed.

Lemma DeleteBooking_refunds_then_deletes_witness :
  exists w',
    bookingService.DeleteBooking dec24_4am 100%N booked_world = (Ok tt, w')
    /\ userRepository.FindByID w' 1%N = Ok (credited dec24_4am 4 ann_debited)
    /\ point_transactions w'
       = point_transactions booked_world
         ++ [deletion_refund booked_world dec24_4am ann_booking]
    /\ bookings w' = []
    /\ bookingRepository.FindByID w' 100%N = Err (New "booking not found").
Proof.
  apply (DeleteBooking_refunds_then_deletes dec24_4am 100%N booked_world
           ann_booking ann_debited).
  - reflexivity.
  - discriminate.
  - reflexivity.
  - vm_compute. split; discriminate.
  - intros t [<- | []]. discriminate.
  - simpl. repeat constructor. simpl. tauto.
Defined.

(** The hard delete of a cancelled booking only removes it, and the
    delete of a booking that does not exist fails without writing. *)
Lemma DeleteBooking_without_refund now id w :
  (forall b, bookingRepository.FindByID w id = Ok b ->
             Booking.Status b = "cancelled" ->
             bookingService.DeleteBooking now id w
             = (Ok tt,
                set_bookings
                  (delete_one (fun x => N.eqb (Booking.ID x) id) (bookings w)) w))
  /\ (forall e, bookingRepository.FindByID w id = Err e ->
                bookingService.DeleteBooking now id w = (Err e, w)).
Proof.
  split.
  - intros b Hb Hs. unfold bookingService.DeleteBooking.
    unfold bind at 1. unfold read at 1. rewrite Hb, Hs. reflexivity.
  - intros e He. unfold bookingService.DeleteBooking.
    unfold bind at 1. unfold read at 1. rewrite He. reflexivity.
Qed.

(** X8.  A booking is refunded once.  After a cancellation that went through,
    a second cancellation is refused as "already cancelled" and writes
    nothing, and the hard delete of the booking removes it and leaves the
    users and the transactions as the cancellation left them. *)
Theorem cancelled_booking_is_refunded_once :
  forall now id userID w b u,
    bookingRepository.FindByID w id = Ok b ->
    may_cancel w b userID ->
    Booking.Status b <> "cancelled" ->
    Booking.Status b <> "completed" ->
    24 * Hour <= Booking.CheckIn b - now ->
    userRepository.FindByID w (Booking.UserID b) = Ok u ->
    in_int (User.PointBalance u + Booking.PointCost b) ->
    next_oid_unused w ->
    exists w1,
      bookingService.CancelBooking now id userID w = (Ok tt, w1)
      /\ (forall now',
            bookingService.CancelBooking now' id (Booking.UserID b) w1
            = (Err (New "booking already cancelled"), w1))
      /\ (forall now',
            exists w2,
              bookingService.DeleteBooking now' id w1 = (Ok tt, w2)
              /\ users w2 = users w1
              /\ point_transactions w2
                 = point_transactions w ++ [refund w now b]
              /\ userRepository.FindByID w2 (Booking.UserID b)
                 = Ok (credited now (Booking.PointCost b) u)).
Proof.
  intros now id userID w b u Hb Hauth Hs1 Hs2 Htime Hu Hint Hfresh.
  destruct (CancelBooking_run now id userID w b u Hb Hauth Hs1 Hs2 Htime Hu Hint
              Hfresh) as (us & bs & Hrun & Hfb & Hfu).
  eexists. split; [exact Hrun|].
  match goal with
  | |- context [bookingService.CancelBooking _ _ _ ?x] => set (w1 := x)
  end.
  assert (Hb1 : bookingRepository.FindByID w1 id
                = Ok (Booking.with_Status "cancelled" b)).
  { unfold bookingRepository.FindByID. subst w1. simpl. now rewrite Hfb. }
  split.
  - intros now'. unfold bookingService.CancelBooking.
    unfold bind at 1. unfold read at 1. rewrite Hb1.
    unfold bind at 1. simpl. rewrite N.eqb_refl. reflexivity.
  - intros now'. eexists.
    split; [apply (proj1 (DeleteBooking_without_refund now' id w1) _ Hb1);
            reflexivity|].
    subst w1. simpl. split; [reflexivity|]. split; [reflexivity|].
    unfold userRepository.FindByID. simpl. now rewrite Hfu.
Qed.

Lemma cancelled_booking_is_refunded_once_witness :
  exists w1,
    bookingService.CancelBooking dec20_noon 100%N 1%N booked_world = (Ok tt, w1)
    /\ (forall now',
          bookingService.CancelBooking now' 100%N 1%N w1
          = (Err (New "booking already cancelled"), w1))
    /\ (forall now',
          exists w2,
            bookingService.DeleteBooking now' 100%N w1 = (Ok tt, w2)
            /\ users w2 = users w1
            /\ point_transactions w2
               = point_transactions booked_world
                 ++ [refund booked_world dec20_noon ann_booking]
            /\ userRepository.FindByID w2 1%N
               = Ok (credited dec20_noon 4 ann_debited)).
Proof.
  apply (cancelled_booking_is_refunded_once dec20_noon 100%N 1%N booked_world
           ann_booking ann_debited).
  - reflexivity.
  - left. reflexivity.
  - discriminate.
  - discriminate.
  - vm_compute. discriminate.
  - reflexivity.
  - vm_compute. split; discriminate.
  - intros t [<- | []]. discriminate.
Defined.

(** X9.  The refusals of [CancelBooking]: an unknown booking, a requester who
    neither owns the booking nor is an admin, a booking already cancelled
    and a booking already completed each give their own error, and nothing
    is written. *)
Theorem CancelBooking_refusals :
  forall now id userID w,
    (forall e, bookingRepository.FindByID w id = Err e ->
               bookingService.CancelBooking now id userID w = (Err e, w))
    /\ (forall b,
          bookingRepository.FindByID w id = Ok b ->
          Booking.UserID b <> userID ->
          (forall user, userRepository.FindByID w userID = Ok user ->
                        User.Role user <> RoleAdmin) ->
          bookingService.CancelBooking now id userID w
          = (Err (New "unauthorized to cancel this booking"), w))
    /\ (forall b,
          bookingRepository.FindByID w id = Ok b ->
          may_cancel w b userID ->
          (Booking.Status b = "cancelled" ->
           bookingService.CancelBooking now id userID w
           = (Err (New "booking already cancelled"), w))
          /\ (Booking.Status b = "completed" ->
              bookingService.CancelBooking now id userID w
              = (Err (New "booking already completed"), w))).
Proof.
  intros now id userID w. split; [|split].
  - intros e He. unfold bookingService.CancelBooking.
    unfold bind at 1. unfold read at 1. rewrite He. reflexivity.
  - intros b Hb Hne Hrole. unfold bookingService.CancelBooking.
    unfold bind at 1. unfold read at 1. rewrite Hb. unfold bind at 1.
    apply N.eqb_neq in Hne. rewrite Hne. simpl. unfold read.
    destruct (userRepository.FindByID w userID) as [user|]; [|reflexivity].
    specialize (Hrole user eq_refl). apply String.eqb_neq in Hrole.
    rewrite Hrole. reflexivity.
  - intros b Hb Hauth. split; intros Hs; unfold bookingService.CancelBooking;
      unfold bind at 1; unfold read at 1; rewrite Hb; unfold bind at 1;
      rewrite (may_cancel_passes w b userID Hauth), Hs; reflexivity.
Qed.

Lemma CancelBooking_refusals_witness :
  bookingService.CancelBooking dec20_noon 100%N 5%N
    (set_users [ann_debited; bob] booked_world)
  = (Err (New "unauthorized to cancel this booking"),
     set_users [ann_debited; bob] booked_world).
Proof.
  destruct (CancelBooking_refusals dec20_noon 100%N 5%N
              (set_users [ann_debited; bob] booked_world)) as (_ & H & _).
  apply (H ann_booking); [reflexivity | discriminate |].
  intros user [= <-]. discriminate.
Defined.

(* ===================================================================== *)
(** ** The ledger: a balance moves only with a transaction *)
(* ===================================================================== *)



















(* ===================================================================== *)
(** ** The admin's status changes *)
(* ===================================================================== *)

Lemma valid_status_guard status :
  bookingRepository.valid_status status = true ->
  negb (status =? "pending")%string && negb (status =? "confirmed")%string
  && negb (status =? "completed")%string && negb (status =? "cancelled")%string
  = false.
Proof.
  unfold bookingRepository.valid_status. intros H.
  now apply negb_true_iff in H.
Qed.

(** X14.  Reactivation.  Moving a cancelled booking to another status debits the
    owner again: with a balance below the point cost the call fails and
    writes nothing; otherwise the balance is lowered by the cost, one
    "booking_reactivation" transaction is appended and the status is set.
    The availability of the room is not looked at. *)
Theorem UpdateBookingStatus_reactivation :
  forall now id status w b u,
    bookingRepository.FindByID w id = Ok b ->
    Booking.Status b = "cancelled" ->
    bookingRepository.valid_status status = true ->
    status <> "cancelled" ->
    userRepository.FindByID w (Booking.UserID b) = Ok u ->
    (User.PointBalance u < Booking.PointCost b ->
     bookingService.UpdateBookingStatus now id status w
     = (Err (New "insufficient point balance to reactivate booking"), w))
    /\ (Booking.PointCost b <= User.PointBalance u ->
        in_int (User.PointBalance u + int_neg (Booking.PointCost b)) ->
        next_oid_unused w ->
        exists w',
          bookingService.UpdateBookingStatus now id status w = (Ok tt, w')
          /\ bookingRepository.FindByID w' id = Ok (Booking.with_Status status b)
          /\ userRepository.FindByID w' (Booking.UserID b)
             = Ok (credited now (int_neg (Booking.PointCost b)) u)
          /\ point_transactions w'
             = point_transactions w ++ [reactivation w now b]).
Proof.
  intros now id status w b u Hb Hs Hv Hne Hu.
  apply String.eqb_neq in Hne.
  unfold bookingService.UpdateBookingStatus.
  rewrite (valid_status_guard status Hv).
  split.
  - intros Hlt.
    unfold bind at 1. unfold read at 1. rewrite Hb, Hs, Hne. simpl.
    unfold bind at 1. unfold bind at 1. unfold read at 1. rewrite Hu.
    destruct (Z.ltb_spec (User.PointBalance u) (Booking.PointCost b)); [|lia].
    reflexivity.
  - intros Hle Hint Hfresh.
    destruct (UpdatePointBalance_found now (Booking.UserID b)
                (int_neg (Booking.PointCost b)) w u Hu Hint)
      as (us & Hupd & Hfu).
    unfold bind at 1. unfold read at 1. rewrite Hb, Hs, Hne. simpl.
    unfold bind at 1. unfold bind at 1. unfold read at 1. rewrite Hu.
    destruct (Z.ltb_spec (User.PointBalance u) (Booking.PointCost b)); [lia|].
    unfold bind at 1. rewrite Hupd. unfold_monad. simpl.
    rewrite CreatePointTransaction_fresh by (simpl; exact Hfresh).
    simpl.
    match goal with
    | |- context [bookingRepository.UpdateStatus id status ?w1] =>
        destruct (UpdateStatus_found id status w1 b Hv Hb)
          as (bs & Hrun & _ & Hfb)
    end.
    rewrite Hrun. eexists. split; [reflexivity|].
    unfold bookingRepository.FindByID, userRepository.FindByID. simpl.
    rewrite Hfb, Hfu. auto.
Qed.



Lemma UpdateBookingStatus_reactivation_witness :
  exists w',
    bookingService.UpdateBookingStatus dec24_4am 100%N "confirmed"
      admin_cancelled_world = (Ok tt, w')
    /\ bookingRepository.FindByID w' 100%N = Ok ann_booking
    /\ userRepository.FindByID w' 1%N
       = Ok (credited dec24_4am (int_neg 4) ann_refunded)
    /\ point_transactions w'
       = point_transactions admin_cancelled_world
         ++ [reactivation admin_cancelled_world dec24_4am
               (Booking.with_Status "cancelled" ann_booking)].
Proof.
  destruct (UpdateBookingStatus_reactivation dec24_4am 100%N "confirmed"
              admin_cancelled_world
              (Booking.with_Status "cancelled" ann_booking) ann_refunded)
    as [_ H]; try reflexivity.
  - discriminate.
  - apply H.
    + vm_compute. discriminate.
    + vm_compute. split; discriminate.
    + intros t [<- | [<- | []]]; discriminate.
Defined.

(* ===================================================================== *)
(** ** No night is sold twice *)
(* ===================================================================== *)















Lemma update_one_In_frame {A} (p : A -> bool) (f : A -> result A) :
  forall c c' x, update_one p f c = Ok c' -> In x c -> p x = false -> In x c'.
Proof.
  induction c as [|y c IH]; simpl; intros c' x Hu Hin Hp; [contradiction|].
  destruct (p y) eqn:Hy.
  - destruct (f y); [|discriminate]. injection Hu as <-.
    destruct Hin as [-> | Hin]; [congruence | right; exact Hin].
  - destruct (update_one p f c) as [c''|]; [|discriminate]. injection Hu as <-.
    destruct Hin as [-> | Hin]; [left; reflexivity | right; eauto].
Qed.

(** X18.  The admin's reactivation is the one path that can sell a night twice:
    it looks at the owner's balance only.  If the cancelled booking shares
    a night with an active booking of the same room, the reactivation
    still succeeds, and the room is double booked afterwards. *)
Theorem reactivation_double_books :
  forall now id status w b u b2 n,
    bookingRepository.FindByID w id = Ok b ->
    Booking.Status b = "cancelled" ->
    bookingRepository.valid_status status = true ->
    status <> "cancelled" ->
    userRepository.FindByID w (Booking.UserID b) = Ok u ->
    Booking.PointCost b <= User.PointBalance u ->
    in_int (User.PointBalance u + int_neg (Booking.PointCost b)) ->
    next_oid_unused w ->
    In b2 (bookings w) ->
    Booking.ID b2 <> id ->
    Booking.RoomID b2 = Booking.RoomID b ->
    Booking.Status b2 <> "cancelled" ->
    night_of b n -> night_of b2 n ->
    exists w',
      bookingService.UpdateBookingStatus now id status w = (Ok tt, w')
      /\ ~ no_double_booking w'.
Proof.
  intros now id status w b u b2 n Hb Hs Hv Hne Hu Hle Hint Hfresh Hin2 Hid2
    Hroom Hs2 Hn Hn2.
  assert (Hid : Booking.ID b = id).
  { unfold bookingRepository.FindByID, find_one in Hb.
    destruct (find _ (bookings w)) as [x|] eqn:Hx; [|discriminate].
    injection Hb as ->. apply find_some in Hx. now apply N.eqb_eq. }
  pose proof Hne as Hne'. apply String.eqb_neq in Hne'.
  unfold bookingService.UpdateBookingStatus.
  rewrite (valid_status_guard status Hv).
  destruct (UpdatePointBalance_found now (Booking.UserID b)
              (int_neg (Booking.PointCost b)) w u Hu Hint)
    as (us & Hupd & Hfu).
  unfold bind at 1. unfold read at 1. rewrite Hb, Hs, Hne'. simpl.
  unfold bind at 1. unfold bind at 1. unfold read at 1. rewrite Hu.
  destruct (Z.ltb_spec (User.PointBalance u) (Booking.PointCost b)); [lia|].
  unfold bind at 1. rewrite Hupd. unfold_monad. simpl.
  rewrite CreatePointTransaction_fresh by (simpl; exact Hfresh).
  simpl.
  match goal with
  | |- context [bookingRepository.UpdateStatus id status ?w1] =>
      destruct (UpdateStatus_found id status w1 b Hv Hb)
        as (bs & Hrun & Hupb & Hfb)
  end.
  rewrite Hrun. eexists. split; [reflexivity|].
  intros Hinv. simpl in Hupb.
  apply (Hinv (Booking.with_Status status b) b2 n); simpl; auto.
  - apply find_some in Hfb. tauto.
  - apply (update_one_In_frame _ _ _ _ _ Hupb Hin2). now apply N.eqb_neq.
  - congruence.
Qed.

Lemma reactivation_double_books_witness :
  exists w',
    bookingService.UpdateBookingStatus dec20_noon 100%N "confirmed"
      rebooked_world = (Ok tt, w')
    /\ ~ no_double_booking w'.
Proof.
  apply (reactivation_double_books dec20_noon 100%N "confirmed" rebooked_world
           (Booking.with_Status "cancelled" ann_booking)
           (User.mk 1%N "Ann" "ann@example.com" "hash" 10 RoleUser 0 dec20_noon)
           carol_booking 20446).
  - reflexivity.
  - reflexivity.
  - reflexivity.
  - discriminate.
  - reflexivity.
  - vm_compute. discriminate.
  - vm_compute. split; discriminate.
  - intros t Hin. vm_compute in Hin.
    repeat (destruct Hin as [<- | Hin]; [discriminate|]). contradiction.
  - vm_compute. auto.
  - discriminate.
  - reflexivity.
  - discriminate.
  - vm_compute. split; [discriminate | reflexivity].
  - vm_compute. split; [discriminate | reflexivity].
Defined.

(* ===================================================================== *)
(** ** The admin's availability records *)
(* ===================================================================== *)

Lemma on_day_spec roomID d a :
  on_day roomID d a = true
  <-> RoomAvailability.RoomID a = roomID
      /\ dayOf (RoomAvailability.Date a) = dayOf d.
Proof.
  unfold on_day. rewrite <- andb_assoc, day_window, andb_true_iff.
  rewrite N.eqb_eq, Z.eqb_eq. tauto.
Qed.

Lemma on_day_set_flags roomID d available userIDs a :
  on_day roomID d (set_flags available userIDs a) = on_day roomID d a.
Proof. reflexivity. Qed.

(** With distinct keys, [UpdateOne] by key rewrites the one document that
    has the key. *)
Lemma update_one_by_key {A} (key : A -> ObjectID) (h : A -> A) (k : ObjectID) :
  (forall x, key (h x) = key x) ->
  forall c,
    NoDup (map key c) ->
    update_one (fun x => N.eqb (key x) k) (fun x => Ok (h x)) c
    = Ok (map (fun x => if N.eqb (key x) k then h x else x) c).
Proof.
  intros Hk. induction c as [|y c IH]; simpl; intros Hnd; [reflexivity|].
  inversion Hnd as [|? ? Hy Hc]; subst.
  destruct (N.eqb_spec (key y) k) as [E|E].
  - f_equal. f_equal. transitivity (map (fun x => x) c);
      [symmetry; apply map_id | apply map_ext_in].
    intros x Hx. destruct (N.eqb_spec (key x) k) as [E'|]; [|reflexivity].
    exfalso. apply Hy. rewrite E, <- E'. now apply in_map.
  - rewrite (IH Hc). reflexivity.
Qed.

Lemma find_map_same {A} (q : A -> bool) (g : A -> A) :
  (forall x, q (g x) = q x) ->
  forall c, find q (map g c) = option_map g (find q c).
Proof.
  intros Hq. induction c as [|y c IH]; simpl; [reflexivity|].
  rewrite Hq. destruct (q y); auto.
Qed.

Lemma FindRoomAvailabilityByDate_on_day w roomID d :
  hotelRepository.FindRoomAvailabilityByDate w roomID d
  = find (on_day roomID d) (room_availability w).
Proof. reflexivity. Qed.

Lemma on_day_startOfDay roomID d a :
  on_day roomID (startOfDay d) a = on_day roomID d a.
Proof.
  apply eq_true_iff_eq. rewrite !on_day_spec, dayOf_startOfDay. tauto.
Qed.

(** One turn of the loop of [SetRoomAvailability]. *)
Lemma setDay_run roomID d available userIDs w :
  availability_ids_fresh w ->
  exists w',
    hotelService.setDay roomID d available userIDs w = (Ok tt, w')
    /\ availability_ids_fresh w'
    /\ day_is_set w' roomID d available userIDs
    /\ (forall roomID' d',
          roomID' <> roomID \/ dayOf d' <> dayOf d ->
          hotelRepository.FindRoomAvailabilityByDate w' roomID' d'
          = hotelRepository.FindRoomAvailabilityByDate w roomID' d')
    /\ (one_record_per_day w -> one_record_per_day w')
    /\ only_availability_changed w w'.
Proof.
  intros [Hnd Hlt]. unfold hotelService.setDay. unfold bind at 1.
  unfold read at 1. rewrite FindRoomAvailabilityByDate_on_day.
  rewrite (find_ext (on_day roomID (startOfDay d)) (on_day roomID d)
             (room_availability w) (on_day_startOfDay roomID d)).
  destruct (find (on_day roomID d) (room_availability w)) as [a|] eqn:Hf.
  - (* the day has a record: it is updated *)
    pose proof (find_some _ _ Hf) as [Hin Hq].
    unfold hotelRepository.UpdateRoomAvailability, write. simpl.
    set (g := fun x : RoomAvailability.t =>
                if N.eqb (RoomAvailability.ID x) (RoomAvailability.ID a)
                then set_flags available userIDs x else x).
    assert (Hup : update_one
                    (fun x => N.eqb (RoomAvailability.ID x) (RoomAvailability.ID a))
                    (fun x => Ok (set_flags available userIDs x))
                    (room_availability w)
                  = Ok (map g (room_availability w))).
    { apply (update_one_by_key RoomAvailability.ID); auto. }
    unfold set_flags in Hup. simpl in Hup. rewrite Hup.
    assert (Hgq : forall r t x, on_day r t (g x) = on_day r t x).
    { intros r t x. unfold g. destruct (N.eqb _ _); reflexivity. }
    assert (Hgid : forall x, RoomAvailability.ID (g x) = RoomAvailability.ID x).
    { intros x. unfold g. destruct (N.eqb _ _); reflexivity. }
    assert (Hgroom : forall x, RoomAvailability.RoomID (g x)
                               = RoomAvailability.RoomID x).
    { intros x. unfold g. destruct (N.eqb _ _); reflexivity. }
    assert (Hgdate : forall x, RoomAvailability.Date (g x)
                               = RoomAvailability.Date x).
    { intros x. unfold g. destruct (N.eqb _ _); reflexivity. }
    eexists. split; [reflexivity|].
    split; [split|]; [| |split; [|split; [|split]]].
    + simpl. rewrite map_map. rewrite (map_ext _ _ Hgid). exact Hnd.
    + simpl. intros x Hx. apply in_map_iff in Hx as (x0 & <- & Hx0).
      rewrite Hgid. auto.
    + exists (g a). rewrite FindRoomAvailabilityByDate_on_day. simpl.
      rewrite (find_map_same _ g (Hgq roomID d)), Hf. simpl.
      unfold g. rewrite N.eqb_refl. auto.
    + intros roomID' d' Hother.
      rewrite !FindRoomAvailabilityByDate_on_day. simpl.
      rewrite (find_map_same _ g (Hgq roomID' d')).
      destruct (find (on_day roomID' d') (room_availability w)) as [y|] eqn:Hy;
        [|reflexivity].
      simpl. f_equal. unfold g.
      destruct (N.eqb_spec (RoomAvailability.ID y) (RoomAvailability.ID a))
        as [E|]; [|reflexivity].
      apply find_some in Hy as [Hiny Hqy].
      assert (y = a) by (apply (NoDup_map_eq RoomAvailability.ID
                                  (room_availability w)); auto).
      subst y. apply on_day_spec in Hq, Hqy. exfalso.
      destruct Hother as [H | H]; apply H; destruct Hq, Hqy; congruence.
    + intros Hone x y Hx Hy Hr Hd. simpl in Hx, Hy.
      apply in_map_iff in Hx as (x0 & <- & Hx0).
      apply in_map_iff in Hy as (y0 & <- & Hy0).
      rewrite !Hgroom in Hr. rewrite !Hgdate in Hd.
      now rewrite (Hone x0 y0 Hx0 Hy0 Hr Hd).
    + repeat split.
  - (* no record for the day: one is inserted *)
    unfold bind at 1. unfold NewObjectID at 1.
    unfold hotelRepository.CreateRoomAvailability, write. simpl.
    set (new := RoomAvailability.mk (next_oid w) roomID (startOfDay d)
                  available userIDs).
    rewrite insert_one_fresh
      by (intros y Hy; apply Hlt in Hy; simpl; lia).
    assert (Hnew : on_day roomID d new = true).
    { apply on_day_spec. simpl. split; [reflexivity | apply dayOf_startOfDay]. }
    eexists. split; [reflexivity|].
    split; [split|]; [| |split; [|split; [|split]]].
    + simpl. rewrite map_app. simpl. apply NoDup_app; [exact Hnd | | ].
      * constructor; [intros [] | constructor].
      * intros i Hin [<- | []]. apply in_map_iff in Hin as (y & E & Hy).
        apply Hlt in Hy. lia.
    + simpl. intros x Hx. apply in_app_or in Hx as [Hx | [<- | []]].
      * apply Hlt in Hx. lia.
      * simpl. lia.
    + exists new. rewrite FindRoomAvailabilityByDate_on_day. simpl.
      rewrite (find_app_fresh _ _ _ Hf Hnew). auto.
    + intros roomID' d' Hother.
      rewrite !FindRoomAvailabilityByDate_on_day. simpl.
      apply find_app_miss.
      destruct (on_day roomID' d' new) eqn:Hq; [|reflexivity].
      apply on_day_spec in Hq, Hnew. exfalso.
      destruct Hother as [H | H]; apply H; destruct Hq, Hnew; congruence.
    + intros Hone x y Hx Hy Hr Hd. simpl in Hx, Hy.
      assert (Hold : forall z, In z (room_availability w) ->
                RoomAvailability.RoomID z = roomID ->
                dayOf (RoomAvailability.Date z) = dayOf (startOfDay d) -> False).
      { intros z Hz Hzr Hzd.
        pose proof (find_none _ _ Hf z Hz) as Hn. simpl in Hn.
        assert (on_day roomID d z = true)
          by (apply on_day_spec; rewrite dayOf_startOfDay in Hzd; auto).
        congruence. }
      apply in_app_or in Hx as [Hx | [<- | []]];
        apply in_app_or in Hy as [Hy | [<- | []]]; auto.
      * exfalso. apply (Hold x Hx); auto.
      * exfalso. apply (Hold y Hy); auto.
    + repeat split.
Qed.

(** The loop of [SetRoomAvailability] from [d], with enough fuel to leave
    by its test. *)
Lemma setDays_run roomID toDate available userIDs :
  forall fuel d w,
    (toDate - d) / nsPerDay + 1 <= Z.of_nat fuel ->
    availability_ids_fresh w ->
    exists w',
      hotelService.setDays fuel roomID d toDate available userIDs w = (Ok tt, w')
      /\ availability_ids_fresh w'
      /\ (forall k, 0 <= k -> AddDate d k <= toDate ->
                    day_is_set w' roomID (AddDate d k) available userIDs)
      /\ (forall roomID' d',
            roomID' <> roomID \/ dayOf d' < dayOf d \/ dayOf toDate < dayOf d' ->
            hotelRepository.FindRoomAvailabilityByDate w' roomID' d'
            = hotelRepository.FindRoomAvailabilityByDate w roomID' d')
      /\ (one_record_per_day w -> one_record_per_day w')
      /\ only_availability_changed w w'.
Proof.
  assert (Hsame : forall w, only_availability_changed w w)
    by (intros w0; repeat split).
  induction fuel as [|fuel IH]; intros d w Hfuel Hfresh.
  - exists w. simpl. unfold ret.
    split; [reflexivity|]. split; [exact Hfresh|]. split; [|auto].
    intros k Hk Hle. exfalso. revert Hfuel Hle. simpl.
    unfold AddDate, nsPerDay. intros Hfuel Hle.
    Z.to_euclidean_division_equations. lia.
  - simpl. unfold After. destruct (Z.ltb_spec toDate d) as [Hgt|Hle]; simpl.
    + exists w. unfold ret.
      split; [reflexivity|]. split; [exact Hfresh|]. split; [|auto].
      intros k Hk Hle. exfalso. unfold AddDate, nsPerDay in Hle. lia.
    + destruct (setDay_run roomID d available userIDs w Hfresh)
        as (w1 & Hrun1 & Hfresh1 & Hset1 & Hframe1 & Hone1 & Honly1).
      assert (Hfuel' : (toDate - AddDate d 1) / nsPerDay + 1 <= Z.of_nat fuel).
      { revert Hfuel. unfold AddDate, nsPerDay. intros Hfuel.
        Z.to_euclidean_division_equations. lia. }
      destruct (IH (AddDate d 1) w1 Hfuel' Hfresh1)
        as (w' & Hrun & Hfresh' & Hset & Hframe & Hone & Honly).
      exists w'. unfold bind. rewrite Hrun1, Hrun.
      split; [reflexivity|]. split; [exact Hfresh'|].
      assert (Hnext : dayOf (AddDate d 1) = dayOf d + 1) by time_lia.
      split; [|split; [|split]].
      * intros k Hk Hk'. destruct (Z.eq_dec k 0) as [->|Hpos].
        -- replace (AddDate d 0) with d by (unfold AddDate; lia).
           destruct Hset1 as (a & Hfind & Ha). exists a.
           rewrite Hframe by (right; left; lia). auto.
        -- replace (AddDate d k) with (AddDate (AddDate d 1) (k - 1))
             by (unfold AddDate; lia).
           apply Hset; [lia|]. revert Hk'. unfold AddDate. lia.
      * intros roomID' d' Hother.
        assert (Hday : dayOf d <= dayOf toDate) by (revert Hle; time_lia).
        rewrite Hframe, Hframe1; [reflexivity | |];
          destruct Hother as [H | [H | H]]; auto; right; lia.
      * auto.
      * unfold only_availability_changed in *.
        repeat split; etransitivity; try apply Honly; apply Honly1.
Qed.

(** X19.  [SetRoomAvailability] is an upsert per day.  For an existing room and
    a range that is not reversed it succeeds, and afterwards every day it
    steps on (the day of [fromDate] and every following day whose instant,
    at [fromDate]'s time of day, is not after [toDate]) has a record with
    the given flag and user list; the records of other rooms and of the
    days outside the range are what they were. *)
Theorem SetRoomAvailability_sets_every_day :
  forall roomID fromDate toDate available userIDs w room,
    IsZero roomID = false ->
    fromDate <= toDate ->
    hotelRepository.FindRoomByID w roomID = Ok room ->
    availability_ids_fresh w ->
    exists w',
      hotelService.SetRoomAvailability roomID fromDate toDate available userIDs w
      = (Ok tt, w')
      /\ (forall k, 0 <= k -> AddDate fromDate k <= toDate ->
                    day_is_set w' roomID (AddDate fromDate k) available userIDs)
      /\ (forall roomID' d',
            roomID' <> roomID \/ dayOf d' < dayOf fromDate
            \/ dayOf toDate < dayOf d' ->
            hotelRepository.FindRoomAvailabilityByDate w' roomID' d'
            = hotelRepository.FindRoomAvailabilityByDate w roomID' d').
Proof.
  intros roomID fromDate toDate available userIDs w room Hz Hle Hroom Hfresh.
  unfold hotelService.SetRoomAvailability. rewrite Hz. unfold After.
  destruct (Z.ltb_spec toDate fromDate); [lia|].
  unfold bind at 1. unfold read at 1. rewrite Hroom.
  destruct (setDays_run roomID toDate available userIDs
              (bookingService.days_between fromDate toDate) fromDate w)
    as (w' & Hrun & _ & Hset & Hframe & _ & _); [|exact Hfresh|].
  - unfold bookingService.days_between. rewrite Z2Nat.id; [lia|].
    unfold nsPerDay. Z.to_euclidean_division_equations. lia.
  - exists w'. auto.
Qed.

(** X20.  [SetRoomAvailability] never gives a room a second record for a day:
    if each room has at most one record per day before the call, so it has
    after it, whatever the call returns. *)
Theorem SetRoomAvailability_one_record_per_day :
  forall roomID fromDate toDate available userIDs w r w',
    availability_ids_fresh w ->
    one_record_per_day w ->
    hotelService.SetRoomAvailability roomID fromDate toDate available userIDs w
    = (r, w') ->
    one_record_per_day w'.
Proof.
  intros roomID fromDate toDate available userIDs w r w' Hfresh Hone.
  unfold hotelService.SetRoomAvailability.
  destruct (IsZero roomID); [intros [= <- <-]; exact Hone|].
  unfold After. destruct (Z.ltb_spec toDate fromDate) as [Hgt|Hle];
    [intros [= <- <-]; exact Hone|].
  unfold bind at 1. unfold read at 1.
  destruct (hotelRepository.FindRoomByID w roomID);
    [|intros [= <- <-]; exact Hone].
  destruct (setDays_run roomID toDate available userIDs
              (bookingService.days_between fromDate toDate) fromDate w)
    as (w1 & Hrun & _ & _ & _ & Hone1 & _); [|exact Hfresh|].
  - unfold bookingService.days_between. rewrite Z2Nat.id; [lia|].
    unfold nsPerDay. Z.to_euclidean_division_equations. lia.
  - rewrite Hrun. intros [= <- <-]. auto.
Qed.

Lemma SetRoomAvailability_sets_every_day_witness :
  exists w',
    hotelService.SetRoomAvailability 3%N (midnight 20446) (midnight 20447)
      false [] hotel_world = (Ok tt, w')
    /\ (forall k, 0 <= k -> AddDate (midnight 20446) k <= midnight 20447 ->
                  day_is_set w' 3%N (AddDate (midnight 20446) k) false [])
    /\ (forall roomID' d',
          roomID' <> 3%N \/ dayOf d' < dayOf (midnight 20446)
          \/ dayOf (midnight 20447) < dayOf d' ->
          hotelRepository.FindRoomAvailabilityByDate w' roomID' d'
          = hotelRepository.FindRoomAvailabilityByDate hotel_world roomID' d').
Proof.
  apply (SetRoomAvailability_sets_every_day 3%N (midnight 20446)
           (midnight 20447) false [] hotel_world room1).
  - reflexivity.
  - unfold midnight, nsPerDay. lia.
  - reflexivity.
  - split; [constructor | intros ? []].
Defined.

Lemma SetRoomAvailability_one_record_per_day_witness :
  one_record_per_day
    (snd (hotelService.SetRoomAvailability 3%N (midnight 20446)
            (midnight 20447) true [1%N] closed_world)).
Proof.
  apply (SetRoomAvailability_one_record_per_day 3%N (midnight 20446)
           (midnight 20447) true [1%N] closed_world
           (fst (hotelService.SetRoomAvailability 3%N (midnight 20446)
                   (midnight 20447) true [1%N] closed_world))).
  - split.
    + simpl. constructor; [intros [] | constructor].
    + intros a [<- | []]. reflexivity.
  - intros x y [<- | []] [<- | []] _ _. reflexivity.
  - reflexivity.
Defined.

(** X21.  Closing a range of days and asking the two helpers.  After
    [SetRoomAvailability] has closed the days of a room,
    [checkRoomAvailabilityForUser] refuses, for every user, every stay
    with a night on one of the days the call has stepped on, and
    [isRoomAvailableOnDate] says no for that day. *)
Theorem closed_range_refuses_every_user :
  forall roomID fromDate toDate userIDs w room userID checkIn checkOut k,
    IsZero roomID = false ->
    fromDate <= toDate ->
    hotelRepository.FindRoomByID w roomID = Ok room ->
    availability_ids_fresh w ->
    one_record_per_day w ->
    0 <= k -> AddDate fromDate k <= toDate ->
    dayOf checkIn <= dayOf fromDate + k < dayOf checkOut ->
    exists w',
      hotelService.SetRoomAvailability roomID fromDate toDate false userIDs w
      = (Ok tt, w')
      /\ bookingService.checkRoomAvailabilityForUser w' roomID userID
           checkIn checkOut = false
      /\ bookingService.isRoomAvailableOnDate w' roomID (AddDate fromDate k)
         = false.
Proof.
  intros roomID fromDate toDate userIDs w room userID checkIn checkOut k
    Hz Hle Hroom Hfresh Hone Hk Hk' Hstay.
  unfold hotelService.SetRoomAvailability. rewrite Hz. unfold After.
  destruct (Z.ltb_spec toDate fromDate); [lia|].
  unfold bind at 1. unfold read at 1. rewrite Hroom.
  destruct (setDays_run roomID toDate false userIDs
              (bookingService.days_between fromDate toDate) fromDate w)
    as (w' & Hrun & _ & Hset & _ & Hone' & _); [|exact Hfresh|].
  - unfold bookingService.days_between. rewrite Z2Nat.id; [lia|].
    unfold nsPerDay. Z.to_euclidean_division_equations. lia.
  - exists w'. split; [exact Hrun|].
    destruct (Hset k Hk Hk') as (a & Hfind & Hclosed & _).
    rewrite FindRoomAvailabilityByDate_on_day in Hfind.
    pose proof Hfind as Hfind0.
    apply find_some in Hfind as [Hin Hq]. apply on_day_spec in Hq as [Hr Hd].
    assert (Hday : dayOf (AddDate fromDate k) = dayOf fromDate + k) by time_lia.
    split.
    + apply (checkRoomAvailabilityForUser_closed_day w' roomID userID checkIn
               checkOut a); auto.
      * rewrite Hd, Hday. exact Hstay.
      * intros x y Hx Hy Hxr Hyr. apply (Hone' Hone x y Hx Hy). congruence.
    + unfold bookingService.isRoomAvailableOnDate.
      destruct (0 <? _); [reflexivity|].
      rewrite FindRoomAvailabilityByDate_on_day.
      rewrite (find_ext (on_day roomID (startOfDay (AddDate fromDate k)))
                 (on_day roomID (AddDate fromDate k)) (room_availability w')
                 (on_day_startOfDay roomID (AddDate fromDate k))).
      rewrite Hfind0, Hclosed. reflexivity.
Qed.

Lemma closed_range_refuses_every_user_witness :
  exists w',
    hotelService.SetRoomAvailability 3%N (midnight 20446) (midnight 20447)
      false [] hotel_world = (Ok tt, w')
    /\ bookingService.checkRoomAvailabilityForUser w' 3%N 1%N
         (midnight 20445) (midnight 20448) = false
    /\ bookingService.isRoomAvailableOnDate w' 3%N (AddDate (midnight 20446) 1)
       = false.
Proof.
  apply (closed_range_refuses_every_user 3%N (midnight 20446) (midnight 20447)
           [] hotel_world room1 1%N (midnight 20445) (midnight 20448) 1).
  - reflexivity.
  - unfold midnight, nsPerDay. lia.
  - reflexivity.
  - split; [constructor | intros ? []].
  - intros x y [].
  - lia.
  - unfold AddDate, midnight, nsPerDay. lia.
  - unfold midnight. rewrite !dayOf_mul. lia.
Defined.

(** X22.  Set, then get.  After [SetRoomAvailability] for a range that begins at
    a midnight, [GetRoomAvailability] for the same range answers with a
    list that is not empty and in which every record carries the flag and
    the user list that were set. *)
Theorem SetRoomAvailability_then_GetRoomAvailability :
  forall roomID fromDate toDate available userIDs w room,
    IsZero roomID = false ->
    fromDate <= toDate ->
    fromDate = startOfDay fromDate ->
    hotelRepository.FindRoomByID w roomID = Ok room ->
    availability_ids_fresh w ->
    one_record_per_day w ->
    exists w' l,
      hotelService.SetRoomAvailability roomID fromDate toDate available userIDs w
      = (Ok tt, w')
      /\ hotelService.GetRoomAvailability w' roomID fromDate toDate = Ok l
      /\ l <> []
      /\ forall a, In a l ->
                   RoomAvailability.Available a = available
                   /\ RoomAvailability.UserIDs a = userIDs.
Proof.
  intros roomID fromDate toDate available userIDs w room
    Hz Hle Hmid Hroom Hfresh Hone.
  unfold hotelService.SetRoomAvailability, hotelService.GetRoomAvailability.
  rewrite Hz. unfold After.
  destruct (Z.ltb_spec toDate fromDate); [lia|].
  unfold bind at 1. unfold read at 1. rewrite Hroom.
  destruct (setDays_run roomID toDate available userIDs
              (bookingService.days_between fromDate toDate) fromDate w)
    as (w' & Hrun & _ & Hset & _ & Hone' & Honly); [|exact Hfresh|].
  { unfold bookingService.days_between. rewrite Z2Nat.id; [lia|].
    unfold nsPerDay. Z.to_euclidean_division_equations. lia. }
  specialize (Hone' Hone).
  assert (Hroom' : hotelRepository.FindRoomByID w' roomID = Ok room).
  { unfold hotelRepository.FindRoomByID in *.
    destruct Honly as (_ & _ & -> & _). exact Hroom. }
  exists w'. rewrite Hroom'. eexists. split; [exact Hrun|].
  split; [reflexivity|].
  unfold hotelRepository.FindRoomAvailabilityByDateRange.
  set (q := fun a : RoomAvailability.t => _ && _ && _).
  assert (HL : forall a, In a (sort_by RoomAvailability.Date
                                 (filter q (room_availability w')))
                         <-> In a (room_availability w') /\ q a = true).
  { intros a. rewrite <- filter_In.
    split; apply Permutation_in;
      [apply sort_by_perm | apply Permutation_sym, sort_by_perm]. }
  assert (Hq : forall a, q a = true <->
                         RoomAvailability.RoomID a = roomID
                         /\ dayOf fromDate <= dayOf (RoomAvailability.Date a)
                            <= dayOf toDate).
  { intros a. unfold q. rewrite !andb_true_iff, N.eqb_eq, !Z.leb_le.
    split; (intros [[Hr H1] H2]; split; [exact Hr|]) || intros [Hr [H1 H2]].
    - revert H1 H2. time_lia.
    - split; [split; [exact Hr|]|]; revert H1 H2; time_lia. }
  split.
  - destruct (Hset 0) as (a & Hfind & _); [lia | unfold AddDate; lia |].
    rewrite FindRoomAvailabilityByDate_on_day in Hfind.
    apply find_some in Hfind as [Hin Hqa]. apply on_day_spec in Hqa as [Hr Hd].
    assert (Ha : In a (sort_by RoomAvailability.Date
                         (filter q (room_availability w')))).
    { apply HL. split; [exact Hin|]. apply Hq. split; [exact Hr|].
      rewrite Hd. revert Hle. time_lia. }
    intros E. rewrite E in Ha. contradiction.
  - intros a Ha. apply HL in Ha as [Hin Hqa]. apply Hq in Hqa as [Hr [H1 H2]].
    set (k := dayOf (RoomAvailability.Date a) - dayOf fromDate).
    assert (Hday : dayOf (AddDate fromDate k) = dayOf (RoomAvailability.Date a))
      by (unfold k; time_lia).
    destruct (Hset k) as (a0 & Hfind & Hflags); [unfold k; lia | |].
    { rewrite Hmid. unfold k. revert H2. time_lia. }
    rewrite FindRoomAvailabilityByDate_on_day in Hfind.
    apply find_some in Hfind as [Hin0 Hq0]. apply on_day_spec in Hq0 as [Hr0 Hd0].
    assert (a0 = a) by (apply Hone'; auto; congruence).
    subst a0. exact Hflags.
Qed.

Lemma SetRoomAvailability_then_GetRoomAvailability_witness :
  exists w' l,
    hotelService.SetRoomAvailability 3%N (midnight 20446) (midnight 20447)
      true [1%N] closed_world = (Ok tt, w')
    /\ hotelService.GetRoomAvailability w' 3%N (midnight 20446)
         (midnight 20447) = Ok l
    /\ l <> []
    /\ forall a, In a l ->
                 RoomAvailability.Available a = true
                 /\ RoomAvailability.UserIDs a = [1%N].
Proof.
  apply (SetRoomAvailability_then_GetRoomAvailability 3%N (midnight 20446)
           (midnight 20447) true [1%N] closed_world room1).
  - reflexivity.
  - unfold midnight, nsPerDay. lia.
  - reflexivity.
  - reflexivity.
  - split.
    + simpl. constructor; [intros [] | constructor].
    + intros a [<- | []]. reflexivity.
  - intros x y [<- | []] [<- | []] _ _. reflexivity.
Defined.

(* ===================================================================== *)
(** ** Queries over the bookings *)
(* ===================================================================== *)

Lemma sort_by_In {A} (key : A -> Z) (l : list A) (x : A) :
  In x (sort_by key l) <-> In x l.
Proof.
  split; apply Permutation_in;
    [apply sort_by_perm | apply Permutation_sym, sort_by_perm].
Qed.

(** X23.  For a booking whose check-in is not after its check-out and a range
    that is not reversed, the three-way [$or] of [FindByDateRange] is the
    meeting of two closed intervals: the booking is listed exactly when it
    begins no later than the range ends and ends no earlier than the range
    begins. *)
Theorem FindByDateRange_is_intersection :
  forall w startDate endDate b,
    startDate <= endDate ->
    Booking.CheckIn b <= Booking.CheckOut b ->
    (In b (bookingRepository.FindByDateRange w startDate endDate)
     <-> In b (bookings w)
         /\ Booking.CheckIn b <= endDate /\ startDate <= Booking.CheckOut b).
Proof.
  intros w startDate endDate b Hrange Hb.
  unfold bookingRepository.FindByDateRange.
  rewrite sort_by_In, filter_In. unfold bookingRepository.in_date_range.
  rewrite !orb_true_iff, !andb_true_iff, !Z.leb_le. intuition lia.
Qed.

Lemma FindByDateRange_is_intersection_witness :
  In ann_booking
     (bookingRepository.FindByDateRange booked_world (midnight 20447)
        (midnight 20447)).
Proof.
  apply (FindByDateRange_is_intersection booked_world (midnight 20447)
           (midnight 20447) ann_booking).
  - lia.
  - vm_compute. discriminate.
  - split; [left; reflexivity|]. vm_compute. split; discriminate.
Defined.

Lemma overlaps_in_date_range roomID startDate endDate b :
  bookingRepository.overlaps roomID startDate endDate b = true ->
  negb (Booking.Status b =? "cancelled")%string
  && bookingRepository.in_date_range startDate endDate b = true.
Proof.
  unfold bookingRepository.overlaps, bookingRepository.in_date_range.
  rewrite !andb_true_iff, !orb_true_iff, !andb_true_iff, !Z.leb_le, !Z.ltb_lt.
  intros [[[_ Hs] H1] H2]. split; [exact Hs | lia].
Qed.

(** X24.  Whatever blocks a room in a range shows in the reports for that
    range: a booking the availability query counts is listed by
    [FindByDateRange], and a room that is not available makes
    [GetBookingsCount] positive. *)
Theorem blocking_bookings_are_reported :
  forall w roomID startDate endDate,
    (forall b,
        In b (bookingRepository.FindActiveByRoomIDAndDateRange w roomID
                startDate endDate) ->
        In b (bookingRepository.FindByDateRange w startDate endDate))
    /\ (bookingRepository.CheckRoomAvailability w roomID startDate endDate
        = false ->
        0 < bookingService.GetBookingsCount w startDate endDate).
Proof.
  intros w roomID startDate endDate. split.
  - intros b.
    unfold bookingRepository.FindActiveByRoomIDAndDateRange,
      bookingRepository.FindByDateRange.
    rewrite !sort_by_In, !filter_In. intros [Hin Ho]. split; [exact Hin|].
    apply overlaps_in_date_range in Ho. apply andb_true_iff in Ho. tauto.
  - unfold bookingRepository.CheckRoomAvailability,
      bookingService.GetBookingsCount, bookingRepository.GetBookingsCount,
      count_documents.
    intros H. apply Z.eqb_neq in H.
    destruct (filter (bookingRepository.overlaps roomID startDate endDate)
                (bookings w)) as [|b l] eqn:Hf; [simpl in H; lia|].
    assert (Hb : In b (filter (bookingRepository.overlaps roomID startDate endDate)
                         (bookings w))) by (rewrite Hf; left; reflexivity).
    apply filter_In in Hb as [Hin Ho]. apply overlaps_in_date_range in Ho.
    assert (Hin' : In b (filter
                           (fun b => negb (Booking.Status b =? "cancelled")%string
                                     && bookingRepository.in_date_range
                                          startDate endDate b)
                           (bookings w))) by (apply filter_In; auto).
    revert Hin'.
    match goal with |- In b ?L -> _ => destruct L end;
      [intros [] | intros _; simpl; lia].
Qed.

(** X25.  A stay that has been booked takes its days off the market: after a
    successful [CreateBooking], [isRoomAvailableOnDate] says no for every
    day from the day of the check-in to the day of the check-out, the
    check-out day included. *)
Theorem booked_days_are_unavailable :
  forall now userID hotelID roomID checkIn checkOut w b w' date,
    fresh_oids w ->
    bookingService.CreateBooking now userID hotelID roomID checkIn checkOut w
    = (Ok b, w') ->
    dayOf checkIn <= dayOf date <= dayOf checkOut ->
    bookingService.isRoomAvailableOnDate w' roomID date = false.
Proof.
  intros now userID hotelID roomID checkIn checkOut w b w' date Hfresh Hrun Hday.
  destruct (CreateBooking_Ok _ _ _ _ _ _ _ _ _ Hfresh Hrun)
    as (user & pointCost & us & _ & _ & _ & Hb & _ & _ & ->).
  unfold bookingService.isRoomAvailableOnDate,
    bookingRepository.FindActiveByRoomIDAndDateRange. simpl.
  set (L := sort_by Booking.CheckIn _).
  assert (HL : In b L).
  { unfold L. rewrite sort_by_In, filter_In. split.
    - apply in_or_app. right. left. reflexivity.
    - subst b. unfold bookingRepository.overlaps, newBooking. simpl.
      rewrite N.eqb_refl. simpl. apply andb_true_iff. rewrite !Z.ltb_lt.
      revert Hday. time_lia. }
  destruct L; [contradiction | reflexivity].
Qed.

Lemma booked_days_are_unavailable_witness :
  bookingService.isRoomAvailableOnDate booked_world 3%N (midnight 20448)
  = false.
Proof.
  apply (booked_days_are_unavailable dec20_noon 1%N 2%N 3%N (midnight 20446)
           (midnight 20448) hotel_world ann_booking booked_world
           (midnight 20448)).
  - split; [reflexivity | split; [intros ? [] | intros ? []]].
  - reflexivity.
  - unfold midnight. rewrite !dayOf_mul. lia.
Defined.

Lemma filter_snoc {A} (p : A -> bool) (c : list A) (x : A) :
  filter p (c ++ [x]) = filter p c ++ (if p x then [x] else []).
Proof. rewrite filter_app. reflexivity. Qed.

(** X26.  A booking that has been made is in its owner's lists: in the history
    of [GetUserBookings], and in [GetActiveBookingsByUser] for as long as
    the clock has not passed its check-out.  The history of every other
    user is unchanged. *)
Theorem created_booking_is_listed :
  forall now userID hotelID roomID checkIn checkOut w b w',
    fresh_oids w ->
    bookingService.CreateBooking now userID hotelID roomID checkIn checkOut w
    = (Ok b, w') ->
    In b (bookingService.GetUserBookings w' userID)
    /\ (forall now', now' <= Booking.CheckOut b ->
                     In b (bookingService.GetActiveBookingsByUser w' now' userID))
    /\ (forall other, other <> userID ->
                      bookingService.GetUserBookings w' other
                      = bookingService.GetUserBookings w other).
Proof.
  intros now userID hotelID roomID checkIn checkOut w b w' Hfresh Hrun.
  destruct (CreateBooking_Ok _ _ _ _ _ _ _ _ _ Hfresh Hrun)
    as (user & pointCost & us & _ & _ & _ & Hb & _ & _ & ->).
  unfold bookingService.GetUserBookings, bookingService.GetActiveBookingsByUser,
    bookingRepository.FindByUserID, bookingRepository.FindActiveByUserID.
  simpl. split; [|split].
  - rewrite sort_by_In, filter_In. split.
    + apply in_or_app. right. left. reflexivity.
    + subst b. simpl. apply N.eqb_refl.
  - intros now' Hnow. rewrite sort_by_In, filter_In. split.
    + apply in_or_app. right. left. reflexivity.
    + subst b. simpl in *. rewrite N.eqb_refl. simpl. now apply Z.leb_le.
  - intros other Hother. rewrite filter_snoc.
    replace (N.eqb (Booking.UserID b) other) with false.
    + now rewrite app_nil_r.
    + symmetry. apply N.eqb_neq. subst b. simpl. congruence.
Qed.

Lemma created_booking_is_listed_witness :
  In ann_booking (bookingService.GetUserBookings booked_world 1%N)
  /\ (forall now', now' <= Booking.CheckOut ann_booking ->
                   In ann_booking
                      (bookingService.GetActiveBookingsByUser booked_world now'
                         1%N))
  /\ (forall other, other <> 1%N ->
                    bookingService.GetUserBookings booked_world other
                    = bookingService.GetUserBookings hotel_world other).
Proof.
  apply (created_booking_is_listed dec20_noon 1%N 2%N 3%N (midnight 20446)
           (midnight 20448) hotel_world ann_booking booked_world).
  - split; [reflexivity | split; [intros ? [] | intros ? []]].
  - reflexivity.
Defined.

(** X27.  The refund helper and the cancellation agree: whenever
    [CancelBooking] succeeds, [calculateRefundAmount] at the same instant
    is the full point cost, the amount [CancelBooking] credits; and when
    the helper says 0 for a booking that cost points, [CancelBooking]
    does not succeed. *)
Theorem refund_helper_matches_CancelBooking :
  forall now id userID w b r w',
    bookingRepository.FindByID w id = Ok b ->
    bookingService.CancelBooking now id userID w = (r, w') ->
    (r = Ok tt ->
     bookingService.calculateRefundAmount now b = Booking.PointCost b)
    /\ (bookingService.calculateRefundAmount now b <> Booking.PointCost b ->
        exists e, r = Err e).
Proof.
  intros now id userID w b r w' Hb Hrun.
  assert (H : r = Ok tt ->
              bookingService.calculateRefundAmount now b = Booking.PointCost b).
  { intros ->. revert Hrun.
    unfold bookingService.CancelBooking. unfold bind at 1. unfold read at 1.
    rewrite Hb. unfold bind at 1.
    match goal with
    | |- context [match ?m w with _ => _ end] => destruct (m w) as [[[]|e] w1]
    end; [|discriminate].
    destruct (_ =? "cancelled")%string; [discriminate|].
    destruct (_ =? "completed")%string; [discriminate|].
    unfold bookingService.calculateRefundAmount.
    destruct (Z.ltb_spec (Until now (Booking.CheckIn b)) (24 * Hour));
      [discriminate|].
    intros _. destruct (Z.leb_spec (24 * Hour) (Until now (Booking.CheckIn b)));
      [reflexivity | lia]. }
  split; [exact H|].
  intros Hne. destruct r as [[]|e]; [|eauto]. now destruct Hne; apply H.
Qed.

Lemma refund_helper_matches_CancelBooking_witness :
  bookingService.calculateRefundAmount dec20_noon ann_booking
  = Booking.PointCost ann_booking.
Proof.
  apply (refund_helper_matches_CancelBooking dec20_noon 100%N 1%N booked_world
           ann_booking (Ok tt)
           (snd (bookingService.CancelBooking dec20_noon 100%N 1%N booked_world))).
  - reflexivity.
  - reflexivity.
  - reflexivity.
Defined.

(* ===================================================================== *)
(** ** What a successful booking guarantees *)
(* ===================================================================== *)

(** X28.  A booking is only made for a user, a hotel and a room that exist, the
    room being one of the hotel, at a price the user can pay: whenever
    [CreateBooking] succeeds, the three lookups have succeeded, the room
    belongs to the hotel, the cost of the returned booking is the price
    [CalculatePointCost] gives for check-in at 14:00 and check-out at
    12:00 and is covered by the balance, and the booking is stored as
    confirmed with these ids and hours.  Nothing is assumed of the store. *)
Theorem CreateBooking_requires :
  forall now userID hotelID roomID checkIn checkOut w b w',
    bookingService.CreateBooking now userID hotelID roomID checkIn checkOut w
    = (Ok b, w') ->
    exists user hotel room,
      userRepository.FindByID w userID = Ok user
      /\ hotelRepository.FindByID w hotelID = Ok hotel
      /\ hotelRepository.FindRoomByID w roomID = Ok room
      /\ Room.HotelID room = hotelID
      /\ bookingService.CalculatePointCost w now roomID (atHour checkIn 14)
           (atHour checkOut 12) = Ok (Booking.PointCost b)
      /\ Booking.PointCost b <= User.PointBalance user
      /\ Booking.UserID b = userID
      /\ Booking.HotelID b = hotelID
      /\ Booking.RoomID b = roomID
      /\ Booking.CheckIn b = atHour checkIn 14
      /\ Booking.CheckOut b = atHour checkOut 12
      /\ Booking.Status b = "confirmed"
      /\ In b (bookings w').
Proof.
  intros now userID hotelID roomID checkIn checkOut w b w'.
  unfold bookingService.CreateBooking. unfold_monad.
  destruct (userRepository.FindByID w userID) as [user|] eqn:Hu; [|discriminate].
  destruct (hotelRepository.FindByID w hotelID) as [h|] eqn:Hh; [|discriminate].
  destruct (hotelRepository.FindRoomByID w roomID) as [room|] eqn:Hr;
    [|discriminate].
  simpl. destruct (N.eqb_spec (Room.HotelID room) hotelID) as [Hroom|];
    [|discriminate].
  simpl.
  destruct (bookingService.CalculatePointCost _ _ _ _ _) as [pointCost|] eqn:Hc;
    [|discriminate].
  destruct (Z.ltb_spec (User.PointBalance user) pointCost) as [Hlt|Hge];
    [discriminate|].
  unfold bookingRepository.Create. unfold_monad. simpl.
  intros Hrun. exists user, h, room.
  assert (Hgoal : Booking.PointCost b = pointCost
                  /\ Booking.UserID b = userID
                  /\ Booking.HotelID b = hotelID
                  /\ Booking.RoomID b = roomID
                  /\ Booking.CheckIn b = atHour checkIn 14
                  /\ Booking.CheckOut b = atHour checkOut 12
                  /\ Booking.Status b = "confirmed"
                  /\ In b (bookings w')).
  { revert Hrun.
    destruct (IsZero (next_oid w)); simpl;
      (destruct (insert_one _ _ (bookings w)) as [bs|] eqn:Hins;
       [|discriminate]); simpl;
      unfold userRepository.UpdatePointBalance at 1; unfold write; simpl;
      (destruct (update_one _ _ (users w)) as [us|];
       [|simpl; unfold bookingRepository.UpdateStatus; simpl; unfold write;
         simpl; destruct (update_one _ _ bs); discriminate]); simpl;
      unfold userRepository.CreatePointTransaction, write; simpl;
      destruct (insert_one _ _ (point_transactions w)); simpl;
      intros [= <- <-]; simpl; repeat split; auto;
      unfold insert_one in Hins; destruct (existsb _ _); try discriminate;
      injection Hins as <-; apply in_or_app; right; left; reflexivity. }
  destruct Hgoal as (Hcost & Hrest). rewrite Hcost. auto 10.
Qed.

Lemma CreateBooking_requires_witness :
  exists user hotel room,
    userRepository.FindByID hotel_world 1%N = Ok user
    /\ hotelRepository.FindByID hotel_world 2%N = Ok hotel
    /\ hotelRepository.FindRoomByID hotel_world 3%N = Ok room
    /\ Room.HotelID room = 2%N
    /\ bookingService.CalculatePointCost hotel_world dec20_noon 3%N
         (atHour (midnight 20446) 14) (atHour (midnight 20448) 12)
       = Ok (Booking.PointCost ann_booking)
    /\ Booking.PointCost ann_booking <= User.PointBalance user
    /\ Booking.UserID ann_booking = 1%N
    /\ Booking.HotelID ann_booking = 2%N
    /\ Booking.RoomID ann_booking = 3%N
    /\ Booking.CheckIn ann_booking = atHour (midnight 20446) 14
    /\ Booking.CheckOut ann_booking = atHour (midnight 20448) 12
    /\ Booking.Status ann_booking = "confirmed"
    /\ In ann_booking (bookings booked_world).
Proof.
  apply (CreateBooking_requires dec20_noon 1%N 2%N 3%N (midnight 20446)
           (midnight 20448) hotel_world ann_booking booked_world).
  reflexivity.
Defined.

(* ===================================================================== *)
(** ** Hotels and their rooms *)
(* ===================================================================== *)

Lemma hotel_found_iff w id :
  (exists hotel, hotelRepository.FindByID w id = Ok hotel)
  <-> In id (map Hotel.ID (hotels w)).
Proof.
  unfold hotelRepository.FindByID, find_one. split.
  - intros [hotel H].
    destruct (find _ (hotels w)) as [h|] eqn:Hf; [|discriminate].
    apply find_some in Hf as [Hin Hid]. apply N.eqb_eq in Hid.
    rewrite <- Hid. now apply in_map.
  - intros H. apply in_map_iff in H as (h & Hid & Hin).
    destruct (find _ (hotels w)) as [h'|] eqn:Hf; [eauto|].
    pose proof (find_none _ _ Hf h Hin) as Hn. simpl in Hn.
    rewrite Hid, N.eqb_refl in Hn. discriminate.
Qed.

Lemma rooms_have_hotels_hotels w w' :
  rooms w' = rooms w ->
  (forall room, In room (rooms w) ->
                In (Room.HotelID room) (map Hotel.ID (hotels w)) ->
                In (Room.HotelID room) (map Hotel.ID (hotels w'))) ->
  rooms_have_hotels w -> rooms_have_hotels w'.
Proof.
  intros Hr Hh Hinv room Hin. rewrite Hr in Hin.
  apply hotel_found_iff. apply Hh; [exact Hin|].
  apply hotel_found_iff. now apply Hinv.
Qed.

Lemma rooms_have_hotels_rooms w w' :
  hotels w' = hotels w ->
  (forall room, In room (rooms w') ->
                In room (rooms w)
                \/ In (Room.HotelID room) (map Hotel.ID (hotels w))) ->
  rooms_have_hotels w -> rooms_have_hotels w'.
Proof.
  intros Hh Hr Hinv room Hin. apply hotel_found_iff. rewrite Hh.
  destruct (Hr room Hin) as [H | H]; [|exact H].
  apply hotel_found_iff. now apply Hinv.
Qed.

Lemma update_one_map_key {A B} (key : A -> B) (p : A -> bool)
    (f : A -> result A) :
  (forall x x', f x = Ok x' -> key x' = key x) ->
  forall c c', update_one p f c = Ok c' -> map key c' = map key c.
Proof.
  intros Hk. induction c as [|y c IH]; simpl; intros c' Hu.
  - injection Hu as <-. reflexivity.
  - destruct (p y).
    + destruct (f y) as [y'|] eqn:Hy; [|discriminate]. injection Hu as <-.
      simpl. now rewrite (Hk _ _ Hy).
    + destruct (update_one p f c) as [c''|]; [|discriminate]. injection Hu as <-.
      simpl. now rewrite (IH _ eq_refl).
Qed.

Lemma delete_one_keeps {A} (p : A -> bool) (c : list A) (x : A) :
  In x c -> p x = false -> In x (delete_one p c).
Proof.
  induction c as [|y c IH]; simpl; intros Hin Hp; [contradiction|].
  destruct (p y) eqn:Hy.
  - destruct Hin as [-> | Hin]; [congruence | exact Hin].
  - destruct Hin as [-> | Hin]; [left; reflexivity | right; auto].
Qed.

Lemma CreateHotel_keeps now hotel w r w' :
  hotelService.CreateHotel now hotel w = (r, w') ->
  rooms_have_hotels w -> rooms_have_hotels w'.
Proof.
  unfold hotelService.CreateHotel.
  destruct (_ || _ || _ || _); [intros [= <- <-]; auto|].
  unfold hotelRepository.Create, write, insert_one. unfold_monad.
  destruct (IsZero (Hotel.ID hotel)); simpl;
    destruct (existsb _ _); intros [= <- <-];
    apply (rooms_have_hotels_hotels w); simpl; auto;
    intros room _ H; rewrite map_app; apply in_or_app; auto.
Qed.

Lemma UpdateHotel_keeps now hotel w r w' :
  hotelService.UpdateHotel now hotel w = (r, w') ->
  rooms_have_hotels w -> rooms_have_hotels w'.
Proof.
  unfold hotelService.UpdateHotel.
  destruct (IsZero _); [intros [= <- <-]; auto|].
  unfold bind at 1. unfold read at 1.
  destruct (hotelRepository.FindByID w (Hotel.ID hotel));
    [|intros [= <- <-]; auto].
  unfold hotelRepository.Update, write.
  destruct (update_one _ _ (hotels w)) as [hs|] eqn:Hup;
    intros [= <- <-]; [|auto].
  apply (rooms_have_hotels_hotels w); simpl; auto.
  intros room _ H.
  assert (Hk : map Hotel.ID hs = map Hotel.ID (hotels w)).
  { eapply update_one_map_key; [|exact Hup].
    intros x x' [= <-]. reflexivity. }
  rewrite Hk. exact H.
Qed.

Lemma DeleteHotel_keeps id w r w' :
  hotelService.DeleteHotel id w = (r, w') ->
  rooms_have_hotels w -> rooms_have_hotels w'.
Proof.
  unfold hotelService.DeleteHotel. unfold bind at 1. unfold read at 1.
  destruct (hotelRepository.FindByID w id); [|intros [= <- <-]; auto].
  unfold bind at 1. unfold read at 1.
  unfold hotelRepository.FindRoomsByHotelID.
  destruct (filter _ (rooms w)) as [|x l] eqn:Hf; simpl;
    [|unfold fail; intros [= <- <-]; auto].
  unfold hotelRepository.Delete, write. intros [= <- <-].
  apply (rooms_have_hotels_hotels w); simpl; auto.
  intros room Hin H. apply in_map_iff in H as (h & Hid & Hh).
  apply in_map_iff. exists h. split; [exact Hid|].
  apply delete_one_keeps; [exact Hh|].
  apply N.eqb_neq. intros E.
  assert (Hroom : In room (filter (fun r => N.eqb (Room.HotelID r) id) (rooms w))).
  { apply filter_In. split; [exact Hin|]. apply N.eqb_eq. congruence. }
  rewrite Hf in Hroom. contradiction.
Qed.

Lemma CreateRoom_keeps room w r w' :
  hotelService.CreateRoom room w = (r, w') ->
  rooms_have_hotels w -> rooms_have_hotels w'.
Proof.
  unfold hotelService.CreateRoom.
  destruct (_ || _ || _ || _); [intros [= <- <-]; auto|].
  unfold bind at 1. unfold read at 1.
  destruct (hotelRepository.FindByID w (Room.HotelID room)) as [h|] eqn:Hh;
    simpl; [|intros [= <- <-]; auto].
  assert (Hhotel : In (Room.HotelID room) (map Hotel.ID (hotels w)))
    by (apply hotel_found_iff; eauto).
  unfold hotelRepository.CreateRoom, write, insert_one. unfold_monad.
  destruct (IsZero (Room.ID room)); simpl;
    destruct (existsb _ _); intros [= <- <-];
    apply (rooms_have_hotels_rooms w); simpl; auto;
    intros x Hx; apply in_app_or in Hx as [Hx | [<- | []]]; auto.
Qed.

Lemma UpdateRoom_keeps room w r w' :
  hotelService.UpdateRoom room w = (r, w') ->
  rooms_have_hotels w -> rooms_have_hotels w'.
Proof.
  intros Hrun Hinv. revert Hrun.
  unfold hotelService.UpdateRoom.
  destruct (IsZero (Room.ID room)); [intros [= <- <-]; auto|].
  unfold bind at 1. unfold read at 1.
  destruct (hotelRepository.FindRoomByID w (Room.ID room)) as [existing|] eqn:He;
    [|intros [= <- <-]; auto].
  assert (Hex : In (Room.HotelID existing) (map Hotel.ID (hotels w))).
  { apply hotel_found_iff. apply Hinv.
    unfold hotelRepository.FindRoomByID, find_one in He.
    destruct (find _ (rooms w)) as [x|] eqn:Hf; [|discriminate].
    injection He as ->. now apply find_some in Hf. }
  assert (Hend : forall hotelID,
            In hotelID (map Hotel.ID (hotels w)) ->
            hotelRepository.UpdateRoom
              (Room.mk (Room.ID room) hotelID (Room.Name room)
                 (Room.Description room) (Room.Capacity room) (Room.Image room)) w
            = (r, w') ->
            rooms_have_hotels w').
  { intros hotelID Hid. unfold hotelRepository.UpdateRoom, write.
    destruct (update_one _ _ (rooms w)) as [rs|] eqn:Hup;
      intros [= <- <-]; [|auto].
    apply (rooms_have_hotels_rooms w); simpl; auto.
    intros x Hx.
    destruct (update_one_In _ _ _ _ Hup x Hx) as [H | (x0 & _ & [= <-])];
      [left; exact H | right; exact Hid]. }
  unfold bind at 1.
  destruct (IsZero (Room.HotelID room)).
  - unfold ret. apply Hend. exact Hex.
  - destruct (N.eqb_spec (Room.HotelID room) (Room.HotelID existing)) as [E|E];
      simpl.
    + unfold ret. apply Hend. rewrite E. exact Hex.
    + unfold bind at 1. unfold read at 1.
      destruct (hotelRepository.FindByID w (Room.HotelID room)) as [h|] eqn:Hh;
        simpl; [|intros [= <- <-]; auto].
      unfold ret. apply Hend. apply hotel_found_iff. eauto.
Qed.

Lemma DeleteRoom_keeps id w r w' :
  hotelService.DeleteRoom id w = (r, w') ->
  rooms_have_hotels w -> rooms_have_hotels w'.
Proof.
  unfold hotelService.DeleteRoom. unfold bind at 1. unfold read at 1.
  destruct (hotelRepository.FindRoomByID w id); [|intros [= <- <-]; auto].
  unfold hotelRepository.DeleteRoomAvailability, hotelRepository.DeleteRoom,
    write, bind.
  intros [= <- <-]. apply (rooms_have_hotels_rooms w); simpl; auto.
  intros x Hx. left. exact (delete_one_In _ _ _ _ Hx).
Qed.

(** X29.  No admin operation on hotels and rooms orphans a room: if every
    room belongs to a hotel of the store, it still does after
    [CreateHotel], [UpdateHotel], [DeleteHotel], [CreateRoom],
    [UpdateRoom] or [DeleteRoom], whatever the call returns.  [DeleteHotel]
    refuses a hotel that has rooms; [CreateRoom] and [UpdateRoom] refuse a
    hotel that does not exist. *)
Theorem hotel_admin_keeps_rooms_with_hotels :
  forall now hotel room id w r w',
    rooms_have_hotels w ->
    hotelService.CreateHotel now hotel w = (r, w')
    \/ hotelService.UpdateHotel now hotel w = (r, w')
    \/ hotelService.DeleteHotel id w = (r, w')
    \/ hotelService.CreateRoom room w = (r, w')
    \/ hotelService.UpdateRoom room w = (r, w')
    \/ hotelService.DeleteRoom id w = (r, w') ->
    rooms_have_hotels w'.
Proof.
  intros now hotel room id w r w' Hinv [H | [H | [H | [H | [H | H]]]]].
  - exact (CreateHotel_keeps _ _ _ _ _ H Hinv).
  - exact (UpdateHotel_keeps _ _ _ _ _ H Hinv).
  - exact (DeleteHotel_keeps _ _ _ _ H Hinv).
  - exact (CreateRoom_keeps _ _ _ _ H Hinv).
  - exact (UpdateRoom_keeps _ _ _ _ H Hinv).
  - exact (DeleteRoom_keeps _ _ _ _ H Hinv).
Qed.

Lemma rooms_have_hotels_hotel_world : rooms_have_hotels hotel_world.
Proof. intros room [<- | []]. exists hotel1. reflexivity. Qed.

Lemma hotel_admin_keeps_rooms_with_hotels_witness :
  rooms_have_hotels (snd (hotelService.DeleteHotel 2%N hotel_world))
  /\ fst (hotelService.DeleteHotel 2%N hotel_world)
     = Err (New "cannot delete hotel with existing rooms, delete rooms first").
Proof.
  split; [|reflexivity].
  apply (hotel_admin_keeps_rooms_with_hotels 0 hotel1 room1 2%N hotel_world
           (fst (hotelService.DeleteHotel 2%N hotel_world))).
  - exact rooms_have_hotels_hotel_world.
  - right. right. left. reflexivity.
Defined.

Lemma delete_one_key_gone {A} (key : A -> ObjectID) (id : ObjectID) :
  forall c,
    NoDup (map key c) ->
    find (fun x => N.eqb (key x) id)
         (delete_one (fun x => N.eqb (key x) id) c) = None.
Proof.
  induction c as [|y c IH]; simpl; intros Hnd; [reflexivity|].
  inversion Hnd as [|? ? Hy Hc]; subst.
  destruct (N.eqb_spec (key y) id) as [E|E].
  - apply find_absent. intros x Hx. apply N.eqb_neq. intros E'.
    apply Hy. rewrite E, <- E'. now apply in_map.
  - simpl. destruct (N.eqb_spec (key y) id); [contradiction|]. auto.
Qed.

(** X30.  [DeleteRoom] removes the room and every availability record of
    the room, and nothing else: the other rooms, the records of other
    rooms and the hotels are as before.  The bookings are as before too,
    those of the deleted room included: no booking is looked at. *)
Theorem DeleteRoom_removes_room_and_records :
  forall id w room,
    hotelRepository.FindRoomByID w id = Ok room ->
    NoDup (map Room.ID (rooms w)) ->
    exists w',
      hotelService.DeleteRoom id w = (Ok tt, w')
      /\ hotelRepository.FindRoomByID w' id = Err (New "room not found")
      /\ (forall other, other <> id ->
                        hotelRepository.FindRoomByID w' other
                        = hotelRepository.FindRoomByID w other)
      /\ (forall a, In a (room_availability w')
                    <-> In a (room_availability w)
                        /\ RoomAvailability.RoomID a <> id)
      /\ bookings w' = bookings w
      /\ hotels w' = hotels w.
Proof.
  intros id w room Hroom Hnd.
  unfold hotelService.DeleteRoom. unfold bind at 1. unfold read at 1.
  rewrite Hroom.
  unfold hotelRepository.DeleteRoomAvailability, hotelRepository.DeleteRoom,
    write, bind.
  eexists. split; [reflexivity|].
  unfold hotelRepository.FindRoomByID, find_one. simpl.
  split; [|split; [|split; [|split; reflexivity]]].
  - now rewrite delete_one_key_gone.
  - intros other Hother. rewrite delete_one_find_frame; [reflexivity|].
    intros x _ Hx. apply N.eqb_eq in Hx. apply N.eqb_neq. congruence.
  - intros a. unfold delete_many. rewrite filter_In, negb_true_iff, N.eqb_neq.
    tauto.
Qed.

Lemma DeleteRoom_removes_room_and_records_witness :
  exists w',
    hotelService.DeleteRoom 3%N closed_booked_world = (Ok tt, w')
    /\ hotelRepository.FindRoomByID w' 3%N = Err (New "room not found")
    /\ (forall other, other <> 3%N ->
                      hotelRepository.FindRoomByID w' other
                      = hotelRepository.FindRoomByID closed_booked_world other)
    /\ (forall a, In a (room_availability w')
                  <-> In a (room_availability closed_booked_world)
                      /\ RoomAvailability.RoomID a <> 3%N)
    /\ bookings w' = bookings closed_booked_world
    /\ hotels w' = hotels closed_booked_world.
Proof.
  apply (DeleteRoom_removes_room_and_records 3%N closed_booked_world room1).
  - reflexivity.
  - simpl. constructor; [intros [] | constructor].
Defined.
